(** * Premium-Plan bot: the subscription and payment lifecycle of [bot.py]

    A shallow embedding of the handlers of [PremiumBot] (src/bot.py) and the
    properties of the payment workflow, the channel onboarding dialogue and
    the plan listing.

    Conventions of the embedding.
    - Text is modelled by [string] (8-bit characters): the embedding covers
      ASCII text, on which [str.lower], [str.strip], [str.split] and
      [str.replace] act as defined in [PyStr].
    - A [datetime] is the integer number of microseconds it denotes; the
      TEXT columns that hold [isoformat()] values hold that integer.
    - The SQLite tables are lists of rows in rowid order; the
      AUTOINCREMENT [id] column is the position of the row and is read by
      no statement of the handlers.
    - Everything outside the process (the clock, the Telegram Bot API) is
      an oracle of the environment [Env], indexed by the number of
      external interactions made so far: two readings of the clock are two
      interactions, and a Bot API call may return or raise.
    - User ids are Telegram's and fit the signed 64-bit INTEGER of SQLite.
      The id an administrator types after [/approve] or [/reject] need
      not: outside that range sqlite3 raises [OverflowError] when the id
      is bound, so the properties of an accepted decision state the range
      as a hypothesis ([sqlite_int64]).
    - Answers in the chat of the update ([reply_text], [edit_message_text],
      [query.answer]) are recorded in the event log and do not raise.
    - A handler is a function from the world (store, sessions, clock
      position, event log) to an outcome and a world; an uncaught Python
      exception is the outcome [Exc]. *)

From Stdlib Require Import List String Ascii ZArith NArith Bool Lia Permutation Sorted.
Import ListNotations.
Local Open Scope string_scope.
Local Open Scope Z_scope.

(** ** Python strings *)
Module PyStr.

Definition code (c : ascii) : N := N_of_ascii c.

(** [str.isspace] on ASCII: TAB..CR, FS..US and the space. *)
Definition is_space (c : ascii) : bool :=
  (((9 <=? code c) && (code c <=? 13)) || ((28 <=? code c) && (code c <=? 32)))%N.

Fixpoint lstrip (s : string) : string :=
  match s with
  | String c r => if is_space c then lstrip r else s
  | EmptyString => EmptyString
  end.

Fixpoint rstrip (s : string) : string :=
  match s with
  | EmptyString => EmptyString
  | String c r =>
      match rstrip r with
      | EmptyString => if is_space c then EmptyString else String c EmptyString
      | r' => String c r'
      end
  end.

(** [s.strip()] *)
Definition strip (s : string) : string := rstrip (lstrip s).

Definition lower_char (c : ascii) : ascii :=
  if ((65 <=? code c) && (code c <=? 90))%N then ascii_of_N (code c + 32) else c.

Fixpoint map_chars (f : ascii -> ascii) (s : string) : string :=
  match s with
  | EmptyString => EmptyString
  | String c r => String (f c) (map_chars f r)
  end.

(** [s.lower()] *)
Definition lower (s : string) : string := map_chars lower_char s.

(** [s.replace(a, b)] for one-character [a] and [b]. *)
Definition replace (a b : ascii) (s : string) : string :=
  map_chars (fun c => if Ascii.eqb c a then b else c) s.

(** [s.split(sep)] for a one-character separator: every occurrence
    splits, and the result is never empty. *)
Fixpoint split (sep : ascii) (s : string) : list string :=
  match s with
  | EmptyString => [EmptyString]
  | String c r =>
      if Ascii.eqb c sep then EmptyString :: split sep r
      else match split sep r with
           | h :: t => String c h :: t
           | [] => [String c EmptyString]
           end
  end.

(** [s.split(sep, maxsplit)]: at most [maxsplit] splits, leftmost first. *)
Fixpoint split_max (sep : ascii) (maxsplit : nat) (s : string) {struct s}
  : list string :=
  match s with
  | EmptyString => [EmptyString]
  | String c r =>
      match maxsplit with
      | O => [s]
      | S n =>
          if Ascii.eqb c sep then EmptyString :: split_max sep n r
          else match split_max sep maxsplit r with
               | h :: t => String c h :: t
               | [] => [String c EmptyString]
               end
      end
  end.

(** [c in s] for a character [c]. *)
Fixpoint contains (c : ascii) (s : string) : bool :=
  match s with
  | EmptyString => false
  | String x r => Ascii.eqb x c || contains c r
  end.

(** [s.startswith(p)] *)
Definition startswith (p s : string) : bool := String.prefix p s.

(** [" ".join(l)] *)
Fixpoint join (sep : string) (l : list string) : string :=
  match l with
  | [] => EmptyString
  | [x] => x
  | x :: r => x ++ sep ++ join sep r
  end.

(** A string is truthy when it is not empty. *)
Definition truthy (s : string) : bool :=
  match s with EmptyString => false | _ => true end.

End PyStr.

(** ** Python number parsing: [int(s)] and [float(s)] *)
Module PyNum.

(** The number a [float] literal denotes.  [float()] rounds it to a
    binary64 value, which never fails; whether [float(s)] raises
    [ValueError] depends on the syntax of [s] alone, so the embedding keeps
    the decimal value [(-1)^neg * mant * 10^exp10] as written. *)
Inductive pyfloat : Type :=
| FNum (neg : bool) (mant : N) (exp10 : Z)
| FInf (neg : bool)
| FNan.

Definition is_digit (c : ascii) : bool :=
  ((48 <=? PyStr.code c) && (PyStr.code c <=? 57))%N.

Definition digit_val (c : ascii) : N := (PyStr.code c - 48)%N.

(** After a digit: more digits, each optionally preceded by one
    underscore.  Returns the value, the number of digits read and the
    unread rest. *)
Fixpoint digits_more (acc : N) (cnt : nat) (s : string) : N * nat * string :=
  match s with
  | String c r =>
      if is_digit c then digits_more (10 * acc + digit_val c)%N (S cnt) r
      else if Ascii.eqb c "_" then
        match r with
        | String d r' =>
            if is_digit d then digits_more (10 * acc + digit_val d)%N (S cnt) r'
            else (acc, cnt, s)
        | EmptyString => (acc, cnt, s)
        end
      else (acc, cnt, s)
  | EmptyString => (acc, cnt, s)
  end.

(** [digitpart ::= digit (["_"] digit)*], accumulated onto [acc]. *)
Definition digitpart (acc : N) (s : string) : option (N * nat * string) :=
  match s with
  | String c r =>
      if is_digit c then Some (digits_more (10 * acc + digit_val c)%N 1 r) else None
  | EmptyString => None
  end.

Definition parse_sign (s : string) : bool * string :=
  match s with
  | String c r =>
      if Ascii.eqb c "-" then (true, r)
      else if Ascii.eqb c "+" then (false, r)
      else (false, s)
  | EmptyString => (false, s)
  end.

(** [int()] and [float()] skip TAB..CR and the space around the number.
    The separators FS..US, which [str.strip] removes, they do not skip. *)
Definition is_blank (c : ascii) : bool :=
  (((9 <=? PyStr.code c) && (PyStr.code c <=? 13)) || (PyStr.code c =? 32))%N.

Fixpoint skip_blanks (s : string) : string :=
  match s with
  | String c r => if is_blank c then skip_blanks r else s
  | EmptyString => EmptyString
  end.

Fixpoint drop_blanks_at_end (s : string) : string :=
  match s with
  | EmptyString => EmptyString
  | String c r =>
      match drop_blanks_at_end r with
      | EmptyString => if is_blank c then EmptyString else String c EmptyString
      | r' => String c r'
      end
  end.

Definition unblank (s : string) : string := drop_blanks_at_end (skip_blanks s).

(** [int(s)] in base 10; [None] stands for [ValueError]. *)
Definition parse_int (s : string) : option Z :=
  let (neg, r) := parse_sign (unblank s) in
  match digitpart 0 r with
  | Some (v, _, EmptyString) => Some (if neg then - Z.of_N v else Z.of_N v)
  | _ => None
  end.

(** The optional exponent, which must reach the end of the text. *)
Definition parse_exponent (s : string) : option Z :=
  match s with
  | EmptyString => Some 0
  | String c r =>
      if Ascii.eqb c "e" || Ascii.eqb c "E" then
        let (neg, r1) := parse_sign r in
        match digitpart 0 r1 with
        | Some (v, _, EmptyString) => Some (if neg then - Z.of_N v else Z.of_N v)
        | _ => None
        end
      else None
  end.

Definition with_exponent (mant : N) (shift : nat) (rest : string) : option (N * Z) :=
  match parse_exponent rest with
  | Some e => Some (mant, e - Z.of_nat shift)
  | None => None
  end.

(** [floatnumber ::= ([digitpart] "." digitpart | digitpart ["."]) [exponent]] *)
Definition parse_number (s : string) : option (N * Z) :=
  match digitpart 0 s with
  | Some (ip, _, rest) =>
      match rest with
      | String c r =>
          if Ascii.eqb c "." then
            match digitpart ip r with
            | Some (m, k, rest') => with_exponent m k rest'
            | None => with_exponent ip 0 r
            end
          else with_exponent ip 0 rest
      | EmptyString => Some (ip, 0)
      end
  | None =>
      match s with
      | String c r =>
          if Ascii.eqb c "." then
            match digitpart 0 r with
            | Some (m, k, rest') => with_exponent m k rest'
            | None => None
            end
          else None
      | EmptyString => None
      end
  end.

(** [float(s)]; [None] stands for [ValueError]. *)
Definition parse_float (s : string) : option pyfloat :=
  let (neg, r) := parse_sign (unblank s) in
  let l := PyStr.lower r in
  if String.eqb l "inf" || String.eqb l "infinity" then Some (FInf neg)
  else if String.eqb l "nan" then Some FNan
  else match parse_number r with
       | Some (m, e) => Some (FNum neg m e)
       | None => None
       end.


End PyNum.


(** ** The relational store *)

Definition datetime : Type := Z.

(** [timedelta(days=30)], in microseconds. *)
Definition THIRTY_DAYS : Z := 30 * 86400 * 1000000.

(** The values the handlers write to [pending_payments.status]. *)
Inductive Status : Type := pending | submitted | approved | rejected.

Definition Status_eqb (a b : Status) : bool :=
  match a, b with
  | pending, pending | submitted, submitted
  | approved, approved | rejected, rejected => true
  | _, _ => false
  end.

(** Table [channels].  [channel_id] holds [str(channel_id)] of the integer
    chat id and is read back with [int(...)]: the row keeps the integer. *)
Module Channel.
Record row : Type := mk {
  channel_key : string;
  channel_name : string;
  channel_id : Z;
  price : PyNum.pyfloat;
  demo_link : string;
  invite_link : string;
  is_active : bool;
  created_date : datetime;
  created_by : Z
}.
End Channel.

(** Table [subscriptions]. *)
Module Subscription.
Record row : Type := mk {
  user_id : Z;
  channel_key : string;
  start_date : datetime;
  end_date : datetime;
  is_active : bool;
  payment_confirmed : bool;
  invoice_sent : bool
}.
End Subscription.

(** Table [pending_payments]. *)
Module PendingPayment.
Record row : Type := mk {
  user_id : Z;
  channel_key : string;
  amount : PyNum.pyfloat;
  payment_proof : option string;
  timestamp : datetime;
  status : Status
}.
End PendingPayment.

(** Table [server_plans]. *)
Module ServerPlan.
Record row : Type := mk {
  plan_name : string;
  price : PyNum.pyfloat;
  included_channels : string;
  is_active : bool;
  created_date : datetime
}.
End ServerPlan.

Record Store : Type := mkStore {
  channels : list Channel.row;
  subscriptions : list Subscription.row;
  pending_payments : list PendingPayment.row;
  server_plans : list ServerPlan.row
}.

(** [context.user_data] of one user: a dict with at most these four keys. *)
Record UserData : Type := mkUserData {
  channel_name : option string;
  channel_price : option PyNum.pyfloat;
  channel_demo : option string;
  awaiting_payment : option string
}.

(** [user_data.clear()] *)
Definition user_data_clear : UserData := mkUserData None None None None.

(** ** Python dicts: insertion-ordered, one entry per key *)
Section Dict.
Context {V : Type}.

Definition dict : Type := list (string * V).

Fixpoint dict_get (k : string) (d : dict) : option V :=
  match d with
  | [] => None
  | (k', v) :: r => if String.eqb k k' then Some v else dict_get k r
  end.

(** [d[k] = v]: an existing key keeps its position. *)
Fixpoint dict_set (k : string) (v : V) (d : dict) : dict :=
  match d with
  | [] => [(k, v)]
  | (k', v') :: r =>
      if String.eqb k k' then (k', v) :: r else (k', v') :: dict_set k v r
  end.

Definition dict_mem (k : string) (d : dict) : bool :=
  match dict_get k d with Some _ => true | None => false end.
End Dict.
Arguments dict V : clear implicits.

(** The value [get_channels_from_db] keeps per channel key. *)
Record ChannelInfo : Type := mkInfo {
  name : string;
  info_channel_id : Z;
  info_price : PyNum.pyfloat;
  info_demo_link : string;
  info_invite_link : string
}.

(** ** Messages, keyboards and events *)

Inductive ButtonLabel : Type :=
| LabelChannel (name : string) (price : PyNum.pyfloat)
| LabelServer (name : string) (price : PyNum.pyfloat)
| LabelBackToMainMenu
| LabelPurchase (name : string)
| LabelViewDemo
| LabelBackToPlans.

Inductive Button : Type :=
| CallbackButton (label : ButtonLabel) (callback_data : string)
| UrlButton (label : ButtonLabel) (url : string).

Definition Keyboard : Type := list (list Button).

(** One block of the text [show_plans] builds. *)
Inductive PlanEntry : Type :=
| ChannelEntry (name : string) (price : PyNum.pyfloat) (demo_link : option string)
| ServerEntry (name : string) (price : PyNum.pyfloat).

Inductive ApiErrorKind : Type := BadRequest | Forbidden | OtherTelegramError.

Inductive Exn : Type :=
| ValueError
| KeyError (key : string)
| IndexError
| UnboundLocalError (var : string)
| AttributeError
| RuntimeError
| IntegrityError
| TelegramError (kind : ApiErrorKind) (text : string).

(** The texts the handlers send, with the values they interpolate. *)
Inductive Msg : Type :=
| MsgNotAuthorized
| MsgAskName
| MsgAskPrice (name : string)
| MsgAskDemo (price : PyNum.pyfloat)
| MsgInvalidPrice
| MsgAskForward
| MsgForwardFromChannel
| MsgNeedAdmin
| MsgCannotAccess
| MsgInviteFailed (e : Exn)
| MsgChannelAdded (name : string) (chat : Z) (price : PyNum.pyfloat) (demo : string)
| MsgKeyExists (key : string)
| MsgNoPlans
| MsgPlans (entries : list PlanEntry) (kb : Keyboard)
| MsgServerPlanUnavailable
| MsgPlanUnavailable
| MsgServerPlanDetails (name : string) (price : PyNum.pyfloat) (kb : Keyboard)
| MsgPlanDetails (name : string) (price : PyNum.pyfloat) (kb : Keyboard)
| MsgPurchase (name : string) (price : PyNum.pyfloat)
| MsgInvalidPlan
| MsgProofSubmitted
| MsgAdminNotice (first_name : string) (user : Z) (username : option string)
    (plan_name : string) (price : PyNum.pyfloat) (time : datetime) (plan_key : string)
| MsgInvoiceServer (name : string) (price : PyNum.pyfloat) (until : datetime)
    (links : list (string * string))
| MsgInvoiceChannel (name : string) (price : PyNum.pyfloat) (until : datetime)
    (link : string)
| MsgApproveUsage
| MsgRejectUsage
| MsgServerPlanNotFound
| MsgChannelNotFound
| MsgApproved (user : Z) (plan_name : string) (price : PyNum.pyfloat) (until : datetime)
| MsgApproveError (e : Exn)
| MsgRejectNotice (reason : string)
| MsgRejected (user : Z)
| MsgRejectError (e : Exn)
| MsgCancelled
| MsgMainMenu.

Inductive ChatMemberStatus : Type :=
| ADMINISTRATOR | OWNER | MEMBER | RESTRICTED | LEFT | BANNED.

Inductive ApiCall : Type :=
| get_chat_member_call (chat user : Z)
| create_chat_invite_link_call (chat : Z)
| unban_chat_member_call (chat user : Z)
| send_message_call (chat : Z) (m : Msg)
| send_photo_call (chat : Z) (photo : string) (caption : Msg).

Inductive LogMsg : Type :=
| FailedToNotifyAdmin (admin : Z)
| FailedToAddUserTo (name : string)
| FailedToAddUserToChannel
| FailedToSendInvoice (user : Z)
| FailedToNotifyUser.

(** What a handler does to the outside, in order. *)
Inductive Event : Type :=
| Reply (m : Msg)                          (* update.message.reply_text *)
| Edit (m : Msg)                           (* query.edit_message_text *)
| Answer                                   (* query.answer *)
| Api (c : ApiCall) (raised : option Exn)  (* a Bot API call and its outcome *)
| LogError (what : LogMsg) (e : Exn).      (* logger.error *)

(** ** The environment *)

Inductive ApiResult (A : Type) : Type :=
| Returned (a : A)
| Failed (kind : ApiErrorKind) (text : string).
Arguments Returned {A} a.
Arguments Failed {A} kind text.

(** The configuration and the oracles; the first argument of an oracle is
    the number of external interactions made before the call. *)
Record Env : Type := mkEnv {
  ADMIN_IDS : list Z;
  bot_id : Z;
  now : nat -> datetime;
  get_chat_member : nat -> Z -> Z -> ApiResult ChatMemberStatus;
  create_chat_invite_link : nat -> Z -> ApiResult string;
  unban_chat_member : nat -> Z -> Z -> ApiResult unit;
  send_message : nat -> Z -> ApiResult unit;
  send_photo : nat -> Z -> ApiResult unit
}.

Definition is_admin (env : Env) (uid : Z) : bool :=
  existsb (Z.eqb uid) (ADMIN_IDS env).

(** ** The handler monad: state, event log and Python exceptions *)

Record World : Type := mkWorld {
  store : Store;
  sessions : Z -> UserData;
  tick : nat;
  events : list Event
}.

Inductive Outcome (A : Type) : Type :=
| Val (a : A)
| Exc (e : Exn).
Arguments Val {A} a.
Arguments Exc {A} e.

Definition M (A : Type) : Type := World -> Outcome A * World.

Definition ret {A} (a : A) : M A := fun w => (Val a, w).

Definition bind {A B} (m : M A) (k : A -> M B) : M B :=
  fun w => match m w with
           | (Val a, w') => k a w'
           | (Exc e, w') => (Exc e, w')
           end.

Definition raise {A} (e : Exn) : M A := fun w => (Exc e, w).

(** [try: m  except <handles>: h]; other exceptions pass through. *)
Definition try_except {A} (m : M A) (handles : Exn -> bool) (h : Exn -> M A) : M A :=
  fun w => match m w with
           | (Val a, w') => (Val a, w')
           | (Exc e, w') => if handles e then h e w' else (Exc e, w')
           end.

Declare Scope py_scope.
Delimit Scope py_scope with py.
Notation "x <- m ;; k" := (bind m (fun x => k))
  (at level 61, m at next level, right associativity) : py_scope.
Notation "m ;;; k" := (bind m (fun _ => k))
  (at level 61, right associativity) : py_scope.
Local Open Scope py_scope.

(** [except Exception] *)
Definition any_exception (e : Exn) : bool := true.

Definition is_ValueError (e : Exn) : bool :=
  match e with ValueError => true | _ => false end.

Definition is_IntegrityError (e : Exn) : bool :=
  match e with IntegrityError => true | _ => false end.

(** [except (BadRequest, Forbidden)] *)
Definition is_BadRequest_or_Forbidden (e : Exn) : bool :=
  match e with
  | TelegramError BadRequest _ | TelegramError Forbidden _ => true
  | _ => false
  end.

Definition emit (e : Event) : M unit :=
  fun w => (Val tt, mkWorld (store w) (sessions w) (tick w) (events w ++ [e])).

Definition get_store : M Store := fun w => (Val (store w), w).

Definition put_store (s : Store) : M unit :=
  fun w => (Val tt, mkWorld s (sessions w) (tick w) (events w)).

Definition get_user_data (uid : Z) : M UserData :=
  fun w => (Val (sessions w uid), w).

Definition update_session (ses : Z -> UserData) (uid : Z) (d : UserData)
  : Z -> UserData :=
  fun u => if Z.eqb u uid then d else ses u.

Definition put_user_data (uid : Z) (d : UserData) : M unit :=
  fun w => (Val tt, mkWorld (store w) (update_session (sessions w) uid d)
                      (tick w) (events w)).

(** Every reading of the clock and every Bot API call is one external
    interaction. *)
Definition next_tick : M nat :=
  fun w => (Val (tick w), mkWorld (store w) (sessions w) (S (tick w)) (events w)).

Fixpoint for_each {A} (l : list A) (f : A -> M unit) : M unit :=
  match l with
  | [] => ret tt
  | x :: r => f x ;;; for_each r f
  end.

Definition py_int (s : string) : M Z :=
  match PyNum.parse_int s with Some z => ret z | None => raise ValueError end.

Definition py_float (s : string) : M PyNum.pyfloat :=
  match PyNum.parse_float s with Some f => ret f | None => raise ValueError end.

(** [l[i]] *)
Definition py_index (l : list string) (i : nat) : M string :=
  match nth_error l i with Some x => ret x | None => raise IndexError end.

(** ** SQL statements *)

(** [SELECT * FROM server_plans WHERE is_active = 1 LIMIT 1] *)
Definition select_active_server_plan (s : Store) : option ServerPlan.row :=
  find ServerPlan.is_active (server_plans s).

(** [SELECT * FROM channels WHERE is_active = 1] *)
Definition select_active_channels (s : Store) : list Channel.row :=
  filter Channel.is_active (channels s).

(** [INSERT INTO channels ...]: [channel_key] is UNIQUE, and a taken key
    raises [sqlite3.IntegrityError] ([None]). *)
Definition insert_channel (r : Channel.row) (s : Store) : option Store :=
  if existsb (fun c => String.eqb (Channel.channel_key c) (Channel.channel_key r))
       (channels s)
  then None
  else Some (mkStore (channels s ++ [r]) (subscriptions s)
               (pending_payments s) (server_plans s)).

(** [INSERT INTO pending_payments (user_id, channel_key, amount, timestamp)]:
    [payment_proof] is NULL and [status] takes its default ['pending']. *)
Definition insert_pending_payment (uid : Z) (key : string)
    (amount : PyNum.pyfloat) (t : datetime) (s : Store) : Store :=
  mkStore (channels s) (subscriptions s)
    (pending_payments s ++ [PendingPayment.mk uid key amount None t pending])
    (server_plans s).

(** [INSERT INTO subscriptions (user_id, channel_key, start_date, end_date,
    is_active, payment_confirmed) VALUES (?, ?, ?, ?, 1, 1)]:
    [invoice_sent] takes its default 0. *)
Definition insert_subscription (uid : Z) (key : string)
    (start_date end_date : datetime) (s : Store) : Store :=
  mkStore (channels s)
    (subscriptions s ++ [Subscription.mk uid key start_date end_date true true false])
    (pending_payments s) (server_plans s).

(** [WHERE user_id = ? AND channel_key = ? AND status = ?] *)
Definition payment_matches (uid : Z) (key : string) (st : Status)
    (p : PendingPayment.row) : bool :=
  Z.eqb (PendingPayment.user_id p) uid
  && String.eqb (PendingPayment.channel_key p) key
  && Status_eqb (PendingPayment.status p) st.

Definition set_status (st : Status) (p : PendingPayment.row) : PendingPayment.row :=
  PendingPayment.mk (PendingPayment.user_id p) (PendingPayment.channel_key p)
    (PendingPayment.amount p) (PendingPayment.payment_proof p)
    (PendingPayment.timestamp p) st.

Definition set_proof (file_id : string) (p : PendingPayment.row) : PendingPayment.row :=
  PendingPayment.mk (PendingPayment.user_id p) (PendingPayment.channel_key p)
    (PendingPayment.amount p) (Some file_id)
    (PendingPayment.timestamp p) submitted.

Definition update_where {A} (cond : A -> bool) (f : A -> A) (l : list A) : list A :=
  map (fun r => if cond r then f r else r) l.

(** [UPDATE pending_payments SET payment_proof = ?, status = 'submitted'
    WHERE user_id = ? AND channel_key = ? AND status = 'pending'] *)
Definition update_payment_submitted (file_id : string) (uid : Z) (key : string)
    (s : Store) : Store :=
  mkStore (channels s) (subscriptions s)
    (update_where (payment_matches uid key pending) (set_proof file_id)
       (pending_payments s))
    (server_plans s).

(** [UPDATE pending_payments SET status = ?
    WHERE user_id = ? AND channel_key = ? AND status = 'submitted'] *)
Definition update_payment_status (new : Status) (uid : Z) (key : string)
    (s : Store) : Store :=
  mkStore (channels s) (subscriptions s)
    (update_where (payment_matches uid key submitted) (set_status new)
       (pending_payments s))
    (server_plans s).

Definition set_invoice_sent (r : Subscription.row) : Subscription.row :=
  Subscription.mk (Subscription.user_id r) (Subscription.channel_key r)
    (Subscription.start_date r) (Subscription.end_date r)
    (Subscription.is_active r) (Subscription.payment_confirmed r) true.

(** [UPDATE subscriptions SET invoice_sent = 1
    WHERE user_id = ? AND channel_key = ? AND is_active = 1] *)
Definition update_invoice_sent (uid : Z) (key : string) (s : Store) : Store :=
  mkStore (channels s)
    (update_where
       (fun r => Z.eqb (Subscription.user_id r) uid
                 && String.eqb (Subscription.channel_key r) key
                 && Subscription.is_active r)
       set_invoice_sent (subscriptions s))
    (pending_payments s) (server_plans s).

(** ** Updates *)

Record User : Type := mkUser {
  id : Z;
  first_name : string;
  username : option string
}.

(** The first entity of a message, when it is a [bot_command] at offset
    0: the command, without the slash and the bot name, and whether it
    carries no bot name or the name of this bot. *)
Record BotCommand : Type := mkBotCommand {
  command : string;
  for_this_bot : bool
}.

Record Message : Type := mkMessage {
  text : string;
  forward_from_chat : option Z;   (* the id of the chat forwarded from *)
  photo : list string;            (* file ids of the photo sizes *)
  document : option string;       (* file id *)
  bot_command : option BotCommand
}.

(** [filters.TEXT]: the message has a text. *)
Definition filters_TEXT (m : Message) : bool := PyStr.truthy (text m).

(** [filters.COMMAND]: the first entity of the message is a bot command at
    offset 0. *)
Definition filters_COMMAND (m : Message) : bool :=
  match bot_command m with Some _ => true | None => false end.

(** [CommandHandler(name, ...)] takes the message. *)
Definition is_command (name : string) (m : Message) : bool :=
  match bot_command m with
  | Some c => String.eqb (PyStr.lower (command c)) name && for_this_bot c
  | None => false
  end.

Inductive Update : Type :=
| MessageUpdate (effective_user : User) (message : Message)
| CallbackUpdate (effective_user : User) (data : string).

Inductive ConvState : Type :=
| CHANNEL_NAME | CHANNEL_PRICE | CHANNEL_DEMO | CHANNEL_FORWARD | END.

(** ** The handlers of [PremiumBot] *)
Section Handlers.
Variable env : Env.

(** [datetime.now()] *)
Definition datetime_now : M datetime :=
  k <- next_tick ;; ret (now env k).

Definition call_api {A} (c : ApiCall) (r : ApiResult A) : M A :=
  match r with
  | Returned a => emit (Api c None) ;;; ret a
  | Failed kind msg =>
      emit (Api c (Some (TelegramError kind msg))) ;;; raise (TelegramError kind msg)
  end.

Definition bot_get_chat_member (chat user : Z) : M ChatMemberStatus :=
  k <- next_tick ;;
  call_api (get_chat_member_call chat user) (get_chat_member env k chat user).

Definition bot_create_chat_invite_link (chat : Z) : M string :=
  k <- next_tick ;;
  call_api (create_chat_invite_link_call chat) (create_chat_invite_link env k chat).

Definition bot_unban_chat_member (chat user : Z) : M unit :=
  k <- next_tick ;;
  call_api (unban_chat_member_call chat user) (unban_chat_member env k chat user).

Definition bot_send_message (chat : Z) (m : Msg) : M unit :=
  k <- next_tick ;;
  call_api (send_message_call chat m) (send_message env k chat).

Definition bot_send_photo (chat : Z) (file : string) (caption : Msg) : M unit :=
  k <- next_tick ;;
  call_api (send_photo_call chat file caption) (send_photo env k chat).

(** [update.message.reply_text]: a callback update has no [message]. *)
Definition reply_text (u : Update) (m : Msg) : M unit :=
  match u with
  | MessageUpdate _ _ => emit (Reply m)
  | CallbackUpdate _ _ => raise AttributeError
  end.

Definition info_of (c : Channel.row) : ChannelInfo :=
  mkInfo (Channel.channel_name c) (Channel.channel_id c) (Channel.price c)
    (Channel.demo_link c) (Channel.invite_link c).

Definition get_channels_from_db : M (dict ChannelInfo) :=
  s <- get_store ;;
  ret (fold_left (fun d c => dict_set (Channel.channel_key c) (info_of c) d)
         (select_active_channels s) []).

(** [asyncio.run(coro)] raises [RuntimeError] when an event loop is
    already running in the thread. *)
Definition asyncio_run {A} (in_event_loop : bool) (coro : M A) : M A :=
  if in_event_loop then raise RuntimeError else coro.

Definition get_plans_keyboard (in_event_loop : bool) : M Keyboard :=
  keyboard <-
    try_except
      (chs <- asyncio_run in_event_loop get_channels_from_db ;;
       ret (map (fun kv : string * ChannelInfo =>
                   [CallbackButton (LabelChannel (name (snd kv)) (info_price (snd kv)))
                      ("plan_" ++ fst kv)]) chs))
      any_exception (fun _ => ret []) ;;
  s <- get_store ;;
  let keyboard :=
    match select_active_server_plan s with
    | Some sp =>
        (keyboard ++ [[CallbackButton
                         (LabelServer (ServerPlan.plan_name sp) (ServerPlan.price sp))
                         "plan_server_premium"]])%list
    | None => keyboard
    end in
  ret (keyboard ++ [[CallbackButton LabelBackToMainMenu "main_menu"]])%list.

(** *** Channel onboarding *)

Definition add_channel_start (u : User) (m : Message) : M ConvState :=
  if negb (is_admin env (id u)) then
    emit (Reply MsgNotAuthorized) ;;; ret END
  else
    emit (Reply MsgAskName) ;;; ret CHANNEL_NAME.

Definition add_channel_name (u : User) (m : Message) : M ConvState :=
  let channel_name := PyStr.strip (text m) in
  d <- get_user_data (id u) ;;
  put_user_data (id u)
    (mkUserData (Some channel_name) (channel_price d) (channel_demo d)
       (awaiting_payment d)) ;;;
  emit (Reply (MsgAskPrice channel_name)) ;;;
  ret CHANNEL_PRICE.

Definition add_channel_price (u : User) (m : Message) : M ConvState :=
  try_except
    (price <- py_float (PyStr.strip (text m)) ;;
     d <- get_user_data (id u) ;;
     put_user_data (id u)
       (mkUserData (channel_name d) (Some price) (channel_demo d)
          (awaiting_payment d)) ;;;
     emit (Reply (MsgAskDemo price)) ;;;
     ret CHANNEL_DEMO)
    is_ValueError
    (fun _ => emit (Reply MsgInvalidPrice) ;;; ret CHANNEL_PRICE).

Definition add_channel_demo (u : User) (m : Message) : M ConvState :=
  let demo_text := PyStr.strip (text m) in
  let demo_link :=
    if String.eqb (PyStr.lower demo_text) "skip" then EmptyString else demo_text in
  d <- get_user_data (id u) ;;
  put_user_data (id u)
    (mkUserData (channel_name d) (channel_price d) (Some demo_link)
       (awaiting_payment d)) ;;;
  emit (Reply MsgAskForward) ;;;
  ret CHANNEL_FORWARD.

(** [context.user_data[key]] *)
Definition user_data_item {A} (key : string) (v : option A) : M A :=
  match v with Some a => ret a | None => raise (KeyError key) end.

(** [channel_name.lower().replace(' ', '_').replace('-', '_')] *)
Definition channel_key_of (channel_name : string) : string :=
  PyStr.replace "-" "_" (PyStr.replace " " "_" (PyStr.lower channel_name)).

Definition execute_insert_channel (r : Channel.row) : M unit :=
  s <- get_store ;;
  match insert_channel r s with
  | Some s' => put_store s'
  | None => raise IntegrityError
  end.

Definition add_channel_forward (u : User) (m : Message) : M ConvState :=
  match forward_from_chat m with
  | None => emit (Reply MsgForwardFromChannel) ;;; ret CHANNEL_FORWARD
  | Some channel_id =>
      (* Check if bot is admin in the channel *)
      early <-
        try_except
          (status <- bot_get_chat_member channel_id (bot_id env) ;;
           match status with
           | ADMINISTRATOR => ret None
           | _ => emit (Reply MsgNeedAdmin) ;;; ret (Some CHANNEL_FORWARD)
           end)
          is_BadRequest_or_Forbidden
          (fun _ => emit (Reply MsgCannotAccess) ;;; ret (Some CHANNEL_FORWARD)) ;;
      match early with
      | Some st => ret st
      | None =>
          (* Generate invite link *)
          link <-
            try_except
              (invite_url <- bot_create_chat_invite_link channel_id ;;
               ret (Some invite_url))
              any_exception
              (fun e => emit (Reply (MsgInviteFailed e)) ;;; ret None) ;;
          match link with
          | None => ret CHANNEL_FORWARD
          | Some invite_url =>
              (* Save channel to database *)
              d <- get_user_data (id u) ;;
              channel_name <- user_data_item "channel_name" (channel_name d) ;;
              channel_price <- user_data_item "channel_price" (channel_price d) ;;
              channel_demo <- user_data_item "channel_demo" (channel_demo d) ;;
              let channel_key := channel_key_of channel_name in
              try_except
                (created <- datetime_now ;;
                 execute_insert_channel
                   (Channel.mk channel_key channel_name channel_id channel_price
                      channel_demo invite_url true created (id u)) ;;;
                 emit (Reply (MsgChannelAdded channel_name channel_id
                                channel_price channel_demo)))
                is_IntegrityError
                (fun _ => emit (Reply (MsgKeyExists channel_key))) ;;;
              (* Clear user data *)
              put_user_data (id u) user_data_clear ;;;
              ret END
          end
      end
  end.

Definition cancel_add_channel (u : User) (m : Message) : M ConvState :=
  put_user_data (id u) user_data_clear ;;;
  emit (Reply MsgCancelled) ;;;
  ret END.

(** [fallbacks=[CommandHandler("cancel", ...)]]: a message the state's
    handler does not take ends the dialogue when it is [/cancel]; any other
    one is not for the dialogue, which stays in its state. *)
Definition conversation_fallback (st : ConvState) (u : User) (m : Message)
  : M ConvState :=
  if is_command "cancel" m then cancel_add_channel u m else ret st.

(** The dialogue of the [ConversationHandler]: the handler of the current
    state runs on the next message when its filter passes,
    [filters.TEXT & ~filters.COMMAND] for the name, the price and the demo
    link and [filters.ALL & ~filters.COMMAND] for the forwarded message;
    the fallback is tried otherwise. *)
Definition conversation_step (st : ConvState) (u : User) (m : Message)
  : M ConvState :=
  match st with
  | CHANNEL_NAME =>
      if filters_TEXT m && negb (filters_COMMAND m) then add_channel_name u m
      else conversation_fallback st u m
  | CHANNEL_PRICE =>
      if filters_TEXT m && negb (filters_COMMAND m) then add_channel_price u m
      else conversation_fallback st u m
  | CHANNEL_DEMO =>
      if filters_TEXT m && negb (filters_COMMAND m) then add_channel_demo u m
      else conversation_fallback st u m
  | CHANNEL_FORWARD =>
      if negb (filters_COMMAND m) then add_channel_forward u m
      else conversation_fallback st u m
  | END => ret END
  end.

Fixpoint conversation (st : ConvState) (u : User) (ms : list Message)
  : M ConvState :=
  match ms with
  | [] => ret st
  | m :: r => st' <- conversation_step st u m ;; conversation st' u r
  end.

(** *** Plan listing and purchase *)

Definition entry_of (info : ChannelInfo) : PlanEntry :=
  ChannelEntry (name info) (info_price info)
    (if PyStr.truthy (info_demo_link info) then Some (info_demo_link info) else None).

(** [show_plans] runs as a coroutine of the running event loop, which is
    where it calls [get_plans_keyboard]. *)
Definition show_plans (u : Update) : M unit :=
  chs <- get_channels_from_db ;;
  match chs with
  | [] => reply_text u MsgNoPlans
  | _ =>
      let plans_text := map (fun kv : string * ChannelInfo => entry_of (snd kv)) chs in
      s <- get_store ;;
      let plans_text :=
        match select_active_server_plan s with
        | Some sp =>
            (plans_text ++ [ServerEntry (ServerPlan.plan_name sp) (ServerPlan.price sp)])%list
        | None => plans_text
        end in
      kb <- get_plans_keyboard true ;;
      match u with
      | CallbackUpdate _ _ => emit (Edit (MsgPlans plans_text kb))
      | MessageUpdate _ _ => emit (Reply (MsgPlans plans_text kb))
      end
  end.

Definition plan_selected (u : User) (data : string) : M unit :=
  let parts := PyStr.split "_" data in
  plan_key <- py_index parts 1 ;;
  if String.eqb plan_key "server" && (2 <? List.length parts)%nat then
    (* Handle server premium *)
    s <- get_store ;;
    match select_active_server_plan s with
    | None => emit (Edit MsgServerPlanUnavailable)
    | Some sp =>
        emit (Edit (MsgServerPlanDetails (ServerPlan.plan_name sp) (ServerPlan.price sp)
                      [[CallbackButton (LabelPurchase (ServerPlan.plan_name sp))
                          "purchase_server_premium"];
                       [CallbackButton LabelBackToPlans "show_plans"]]))
    end
  else
    (* Handle individual channel *)
    chs <- get_channels_from_db ;;
    match dict_get plan_key chs with
    | None => emit (Edit MsgPlanUnavailable)
    | Some plan_info =>
        let keyboard :=
          [[CallbackButton (LabelPurchase (name plan_info)) ("purchase_" ++ plan_key)];
           (if PyStr.truthy (info_demo_link plan_info)
            then [UrlButton LabelViewDemo (info_demo_link plan_info)] else []);
           [CallbackButton LabelBackToPlans "show_plans"]] in
        let keyboard :=
          filter (fun row => match row with [] => false | _ => true end) keyboard in
        emit (Edit (MsgPlanDetails (name plan_info) (info_price plan_info) keyboard))
    end.

Definition execute_insert_pending_payment (uid : Z) (key : string)
    (amount : PyNum.pyfloat) : M unit :=
  t <- datetime_now ;;
  s <- get_store ;;
  put_store (insert_pending_payment uid key amount t s).

(** The first component of the intermediate result is [None] after the
    early [return]; the second is [None] when [plan_name] and
    [plan_price] were left unbound. *)
Definition initiate_purchase (u : User) (data : string) : M unit :=
  plan_data <- py_index (PyStr.split_max "_" 1 data) 1 ;;  (* Remove 'purchase_' prefix *)
  let user_id := id u in
  r <-
    (if String.eqb plan_data "server_premium" then
       s <- get_store ;;
       match select_active_server_plan s with
       | Some sp =>
           execute_insert_pending_payment user_id "server_premium" (ServerPlan.price sp) ;;;
           ret (Some (Some (ServerPlan.plan_name sp, ServerPlan.price sp)))
       | None => ret (Some None)
       end
     else
       chs <- get_channels_from_db ;;
       match dict_get plan_data chs with
       | None => emit (Edit MsgPlanUnavailable) ;;; ret None
       | Some plan_info =>
           execute_insert_pending_payment user_id plan_data (info_price plan_info) ;;;
           ret (Some (Some (name plan_info, info_price plan_info)))
       end) ;;
  match r with
  | None => ret tt
  | Some None => raise (UnboundLocalError "plan_name")
  | Some (Some (plan_name, plan_price)) =>
      emit (Edit (MsgPurchase plan_name plan_price)) ;;;
      (* Set user state for payment proof *)
      d <- get_user_data user_id ;;
      put_user_data user_id
        (mkUserData (channel_name d) (channel_price d) (channel_demo d) (Some plan_data))
  end.

(** [file_id] of the largest photo size, else of the document. *)
Definition proof_file_id (m : Message) : option string :=
  match photo m with
  | [] => document m
  | p :: r => Some (last r p)
  end.

Definition truthy_file_id (f : option string) : option string :=
  match f with
  | Some x => if PyStr.truthy x then Some x else None
  | None => None
  end.

(** The loop [for admin_id in ADMIN_IDS] of [handle_payment_proof]. *)
Definition notify_admins (file_id : string) (admin_text : Msg) : M unit :=
  for_each (ADMIN_IDS env)
    (fun admin_id =>
       try_except (bot_send_photo admin_id file_id admin_text)
         any_exception
         (fun e => emit (LogError (FailedToNotifyAdmin admin_id) e))).

Definition handle_payment_proof (u : User) (m : Message) : M unit :=
  d <- get_user_data (id u) ;;
  match awaiting_payment d with
  | None => ret tt
  | Some plan_key =>
      let user_id := id u in
      (* Get plan info *)
      plan <-
        (if String.eqb plan_key "server_premium" then
           s <- get_store ;;
           match select_active_server_plan s with
           | Some sp => ret (Some (ServerPlan.plan_name sp, ServerPlan.price sp))
           | None => ret (Some ("Server Premium", PyNum.FNum false 599 0))
           end
         else
           chs <- get_channels_from_db ;;
           match dict_get plan_key chs with
           | Some info => ret (Some (name info, info_price info))
           | None => emit (Reply MsgInvalidPlan) ;;; ret None
           end) ;;
      match plan with
      | None => ret tt
      | Some (plan_name, plan_price) =>
          match truthy_file_id (proof_file_id m) with
          | None => ret tt
          | Some file_id =>
              (* Save payment proof to database *)
              s <- get_store ;;
              put_store (update_payment_submitted file_id user_id plan_key s) ;;;
              (* Notify user *)
              emit (Reply MsgProofSubmitted) ;;;
              (* Notify admins *)
              t <- datetime_now ;;
              let admin_text :=
                MsgAdminNotice (first_name u) user_id (username u) plan_name
                  plan_price t plan_key in
              notify_admins file_id admin_text ;;;
              (* Clear user state *)
              d' <- get_user_data user_id ;;
              put_user_data user_id
                (mkUserData (channel_name d') (channel_price d') (channel_demo d') None)
          end
      end
  end.

(** *** Admin decisions *)

Definition send_invoice_with_links (user_id : Z) (plan_key : string) : M unit :=
  invoice <-
    (if String.eqb plan_key "server_premium" then
       chs <- get_channels_from_db ;;
       s <- get_store ;;
       match select_active_server_plan s with
       | None => ret None
       | Some sp =>
           t <- datetime_now ;;
           let end_date := t + THIRTY_DAYS in
           let links :=
             map (fun kv : string * ChannelInfo =>
                    (name (snd kv), info_invite_link (snd kv)))
               (filter (fun kv : string * ChannelInfo =>
                          PyStr.truthy (info_invite_link (snd kv))) chs) in
           ret (Some (MsgInvoiceServer (ServerPlan.plan_name sp) (ServerPlan.price sp)
                        end_date links))
       end
     else
       chs <- get_channels_from_db ;;
       match dict_get plan_key chs with
       | None => ret None
       | Some channel_info =>
           t <- datetime_now ;;
           let end_date := t + THIRTY_DAYS in
           ret (Some (MsgInvoiceChannel (name channel_info) (info_price channel_info)
                        end_date (info_invite_link channel_info)))
       end) ;;
  match invoice with
  | None => ret tt
  | Some invoice_text =>
      try_except
        (bot_send_message user_id invoice_text ;;;
         (* Mark invoice as sent *)
         s <- get_store ;;
         put_store (update_invoice_sent user_id plan_key s))
        any_exception
        (fun e => emit (LogError (FailedToSendInvoice user_id) e))
  end.

(** [INSERT INTO subscriptions ...], with the second reading of the clock
    as [start_date]; for a user id SQLite can bind ([sqlite_int64]). *)
Definition execute_insert_subscription (uid : Z) (key : string)
    (end_date : datetime) : M unit :=
  start <- datetime_now ;;
  s <- get_store ;;
  put_store (insert_subscription uid key start end_date s).

(** The loop [for channel_key, channel_info in channels.items()] of the
    server premium branch of [approve_payment]. *)
Definition add_user_to_all_channels (chs : dict ChannelInfo) (user_id : Z) : M unit :=
  for_each chs
    (fun kv : string * ChannelInfo =>
       try_except
         (bot_unban_chat_member (info_channel_id (snd kv)) user_id)
         any_exception
         (fun e => emit (LogError (FailedToAddUserTo (name (snd kv))) e))).

(** The intermediate result is [None] after an early [return]. *)
Definition approve_payment (u : User) (args : list string) : M unit :=
  if negb (is_admin env (id u)) then emit (Reply MsgNotAuthorized)
  else
    try_except
      (if (List.length args <? 2)%nat then emit (Reply MsgApproveUsage)
       else
         a0 <- py_index args 0 ;;
         user_id <- py_int a0 ;;
         plan_key <- py_index args 1 ;;
         r <-
           (if String.eqb plan_key "server_premium" then
              (* Handle server premium *)
              s <- get_store ;;
              match select_active_server_plan s with
              | None => emit (Reply MsgServerPlanNotFound) ;;; ret None
              | Some sp =>
                  t <- datetime_now ;;
                  let end_date := t + THIRTY_DAYS in
                  (* Create subscription for server premium *)
                  execute_insert_subscription user_id "server_premium" end_date ;;;
                  (* Add user to all channels *)
                  chs <- get_channels_from_db ;;
                  add_user_to_all_channels chs user_id ;;;
                  ret (Some (ServerPlan.plan_name sp, ServerPlan.price sp, end_date))
              end
            else
              (* Handle individual channel *)
              chs <- get_channels_from_db ;;
              match dict_get plan_key chs with
              | None => emit (Reply MsgChannelNotFound) ;;; ret None
              | Some channel_info =>
                  t <- datetime_now ;;
                  let end_date := t + THIRTY_DAYS in
                  (* Add subscription *)
                  execute_insert_subscription user_id plan_key end_date ;;;
                  (* Add user to channel *)
                  try_except
                    (bot_unban_chat_member (info_channel_id channel_info) user_id)
                    any_exception
                    (fun e => emit (LogError FailedToAddUserToChannel e)) ;;;
                  ret (Some (name channel_info, info_price channel_info, end_date))
              end) ;;
         match r with
         | None => ret tt
         | Some (plan_name, plan_price, end_date) =>
             (* Update payment status *)
             s <- get_store ;;
             put_store (update_payment_status approved user_id plan_key s) ;;;
             (* Send invoice with invite links *)
             send_invoice_with_links user_id plan_key ;;;
             emit (Reply (MsgApproved user_id plan_name plan_price end_date))
         end)
      any_exception
      (fun e => emit (Reply (MsgApproveError e))).

(** The UPDATE binds the user id typed by the administrator, like the
    INSERT of [approve_payment]: for a user id SQLite can bind
    ([sqlite_int64]). *)
Definition reject_payment (u : User) (args : list string) : M unit :=
  if negb (is_admin env (id u)) then emit (Reply MsgNotAuthorized)
  else
    try_except
      (if (List.length args <? 2)%nat then emit (Reply MsgRejectUsage)
       else
         a0 <- py_index args 0 ;;
         user_id <- py_int a0 ;;
         plan_key <- py_index args 1 ;;
         let reason :=
           if (2 <? List.length args)%nat then PyStr.join " " (skipn 2 args)
           else "Payment verification failed" in
         (* Update payment status *)
         s <- get_store ;;
         put_store (update_payment_status rejected user_id plan_key s) ;;;
         (* Notify user *)
         try_except
           (bot_send_message user_id (MsgRejectNotice reason))
           any_exception
           (fun e => emit (LogError FailedToNotifyUser e)) ;;;
         emit (Reply (MsgRejected user_id)))
      any_exception
      (fun e => emit (Reply (MsgRejectError e))).

Definition button_callback (u : User) (data : string) : M unit :=
  emit Answer ;;;
  if String.eqb data "show_plans" then show_plans (CallbackUpdate u data)
  else if PyStr.startswith "plan_" data then plan_selected u data
  else if PyStr.startswith "purchase_" data then initiate_purchase u data
  else if String.eqb data "main_menu" then
    emit (Edit MsgMainMenu)
  else ret tt.

End Handlers.

(** ** Running handlers *)

(** [setup_database] on a new database file: the tables are empty but for
    the default server plan. *)
Definition setup_database (t : datetime) : Store :=
  mkStore [] [] []
    [ServerPlan.mk "Server Premium" (PyNum.FNum false 599 0) "[]" true t].

Definition initial_world (s : Store) : World :=
  mkWorld s (fun _ => user_data_clear) 0 [].

Definition exec {A} (m : M A) (w : World) : World := snd (m w).

Definition result {A} (m : M A) (w : World) : Outcome A := fst (m w).

(** ** Scenarios *)

Definition admin : User := mkUser 1 "Ada" None.
Definition buyer : User := mkUser 42 "Bo" (Some "bo").

(** An environment in which every Bot API call succeeds and the clock
    advances by one microsecond per reading. *)
Definition env_ok : Env :=
  mkEnv [1] 99 (fun k => 1000 + Z.of_nat k)
    (fun _ _ _ => Returned ADMINISTRATOR)
    (fun _ _ => Returned "https://t.me/+invite")
    (fun _ _ _ => Returned tt)
    (fun _ _ => Returned tt)
    (fun _ _ => Returned tt).

(** A text message without a command entity, as Telegram delivers a text
    that does not begin with a slash.  Only the dispatch reads the entity,
    the handlers do not. *)
Definition text_message (t : string) : Message := mkMessage t None [] None None.
Definition forward_message (chat : Z) : Message :=
  mkMessage EmptyString (Some chat) [] None None.
Definition photo_message (file : string) : Message :=
  mkMessage EmptyString None [file] None None.
(** The command [/c], sent to this bot. *)
Definition command_message (c : string) : Message :=
  mkMessage ("/" ++ c) None [] None (Some (mkBotCommand c true)).

(** The admin registers the channel "VIP Content" priced 200. *)
Definition vip_world : World :=
  exec (conversation env_ok CHANNEL_NAME admin
          [text_message "VIP Content"; text_message "200"; text_message "skip";
           forward_message (-1001)])
       (initial_world (setup_database 0)).

Definition with_events (w : World) (evs : list Event) : World :=
  mkWorld (store w) (sessions w) (tick w) evs.

(** The store the dialogue above leaves, in a world with no history. *)
Definition vip_start : World := initial_world (store vip_world).

(** The buyer checks out "VIP Content" and sends a payment screenshot. *)
Definition checkout_world : World :=
  exec (button_callback env_ok buyer "purchase_vip_content") vip_start.

Definition submitted_world : World :=
  exec (handle_payment_proof env_ok buyer (photo_message "file1")) checkout_world.

(** The admin runs [/approve 42 vip_content], and then runs it again. *)
Definition approved_world : World :=
  exec (approve_payment env_ok admin ["42"; "vip_content"]) submitted_world.

Definition approved_twice_world : World :=
  exec (approve_payment env_ok admin ["42"; "vip_content"]) approved_world.

(** Two checkouts of the same plan before the screenshot is sent. *)
Definition double_checkout_world : World :=
  exec (handle_payment_proof env_ok buyer (photo_message "file1"))
    (exec (button_callback env_ok buyer "purchase_vip_content") checkout_world).

(** One complete run of the [/addchannel] dialogue: the command, then the
    name, the price, the demo link and the forwarded message. *)
Definition onboarding (env : Env) (u : User) (name_text price_text demo_text : string)
    (chat : Z) : M ConvState :=
  bind (add_channel_start env u (command_message "addchannel"))
    (fun st => conversation env st u
                 [text_message name_text; text_message price_text;
                  text_message demo_text; forward_message chat]).

(** The reason [reject_payment] sends for the words after the plan key. *)
Definition reject_reason (rest : list string) : string :=
  match rest with
  | [] => "Payment verification failed"
  | _ => PyStr.join " " rest
  end.

(** An environment in which the membership grant fails for the channel
    [-1001] and everything else succeeds. *)
Definition env_flaky : Env :=
  mkEnv [1] 99 (fun k => 1000 + Z.of_nat k)
    (fun _ _ _ => Returned ADMINISTRATOR)
    (fun _ _ => Returned "https://t.me/+invite")
    (fun _ chat _ => if Z.eqb chat (-1001) then Failed BadRequest "Chat not found"
                     else Returned tt)
    (fun _ _ => Returned tt)
    (fun _ _ => Returned tt).

(** A second channel, "News", next to "VIP Content"; then the buyer checks
    out the server plan and sends a screenshot. *)
Definition two_channels_world : World :=
  initial_world
    (store (exec (onboarding env_ok admin "News" "100" "skip" (-1002)) vip_start)).

Definition all_access_submitted_world : World :=
  exec (handle_payment_proof env_flaky buyer (photo_message "file2"))
    (exec (button_callback env_flaky buyer "purchase_server_premium")
       two_channels_world).

(** ** Observations used by the statements *)

Definition count_payments (uid : Z) (key : string) (st : Status) (s : Store) : nat :=
  List.length (filter (payment_matches uid key st) (pending_payments s)).

(** The plan a decision names can be bought: the server plan is active, or
    the key is the key of an active channel. *)
Definition plan_available (key : string) (s : Store) : bool :=
  if String.eqb key "server_premium" then
    match select_active_server_plan s with Some _ => true | None => false end
  else existsb (fun c => String.eqb (Channel.channel_key c) key)
         (select_active_channels s).

(** The UNIQUE constraint on [channels.channel_key]. *)
Definition unique_keys (s : Store) : Prop :=
  NoDup (map Channel.channel_key (channels s)).

(** The membership grants attempted, in order. *)
Fixpoint unban_attempts (evs : list Event) : list (Z * Z) :=
  match evs with
  | [] => []
  | Api (unban_chat_member_call chat user) _ :: r => (chat, user) :: unban_attempts r
  | _ :: r => unban_attempts r
  end.

(** The grants that raised, and the failures written to the log. *)
Fixpoint unban_failures (evs : list Event) : nat :=
  match evs with
  | [] => O
  | Api (unban_chat_member_call _ _) (Some _) :: r => S (unban_failures r)
  | _ :: r => unban_failures r
  end.

Fixpoint logged_grant_failures (evs : list Event) : nat :=
  match evs with
  | [] => O
  | LogError (FailedToAddUserTo _) _ :: r => S (logged_grant_failures r)
  | _ :: r => logged_grant_failures r
  end.

(** The plan entries a listing shows. *)
Fixpoint listed_entries (evs : list Event) : list PlanEntry :=
  match evs with
  | [] => []
  | Reply (MsgPlans entries _) :: r => (entries ++ listed_entries r)%list
  | Edit (MsgPlans entries _) :: r => (entries ++ listed_entries r)%list
  | _ :: r => listed_entries r
  end.

(** The dict [get_channels_from_db] returns on store [s]. *)
Definition channels_dict (s : Store) : dict ChannelInfo :=
  fold_left (fun d c => dict_set (Channel.channel_key c) (info_of c) d)
    (select_active_channels s) [].

(** The channels whose membership an approval of [key] grants: every entry
    of the dict for the server plan, else the entry of the key. *)
Definition granted_channels (key : string) (s : Store) : list ChannelInfo :=
  if String.eqb key "server_premium" then map snd (channels_dict s)
  else match dict_get key (channels_dict s) with
       | Some info => [info]
       | None => []
       end.

(** The row an approval inserts. *)
Definition approved_subscription (uid : Z) (key : string) (start_date end_date : datetime)
  : Subscription.row :=
  Subscription.mk uid key start_date end_date true true false.

(** *** The listing as the specification words it *)

Record Offer : Type := mkOffer {
  offer_key : string;
  offer_name : string;
  offer_price : PyNum.pyfloat;
  offer_demo_link : option string
}.

Definition offer_of_channel (c : Channel.row) : Offer :=
  mkOffer (Channel.channel_key c) (Channel.channel_name c) (Channel.price c)
    (if PyStr.truthy (Channel.demo_link c) then Some (Channel.demo_link c) else None).

Definition all_access_offer (sp : ServerPlan.row) : Offer :=
  mkOffer "all-access" (ServerPlan.plan_name sp) (ServerPlan.price sp) None.

(** One offer per active channel in creation order, then the all-access
    offer when that plan is active. *)
Definition listOffers_spec (s : Store) : list Offer :=
  (map offer_of_channel (select_active_channels s)
   ++ match select_active_server_plan s with
      | Some sp => [all_access_offer sp]
      | None => []
      end)%list.

(** What the listing text shows of an offer and of an entry: the name, the
    price and the demo link.  The key is not part of the text. *)
Definition offer_shown (o : Offer) : string * PyNum.pyfloat * option string :=
  (offer_name o, offer_price o, offer_demo_link o).

Definition entry_shown (e : PlanEntry) : string * PyNum.pyfloat * option string :=
  match e with
  | ChannelEntry n p d => (n, p, d)
  | ServerEntry n p => (n, p, None)
  end.

(** ** Further observations *)



(** [sqlite3] binds a Python [int] to an INTEGER column or parameter when
    it fits a signed 64-bit integer and raises [OverflowError] when it does
    not. *)
Definition sqlite_int64 (z : Z) : bool :=
  (- 2 ^ 63 <=? z) && (z <? 2 ^ 63).

(** A text the dialogue takes as the answer to its question: it is not
    empty, as [filters.TEXT] asks, and it does not begin with the slash of
    a command, so that Telegram marks no command at its start and
    [~filters.COMMAND] holds. *)
Definition answer_text (t : string) : bool :=
  PyStr.truthy t && negb (PyStr.startswith "/" t).

(** The admins a proof was sent to, with the file sent, in order. *)
Fixpoint photo_attempts (evs : list Event) : list (Z * string) :=
  match evs with
  | [] => []
  | Api (send_photo_call chat file _) _ :: r => (chat, file) :: photo_attempts r
  | _ :: r => photo_attempts r
  end.

(** The forwarded message is turned down by [add_channel_forward]: it has
    no channel of origin, the bot is not administrator there, the
    membership query raises [BadRequest] or [Forbidden], or the invite link
    cannot be created.  [k] is the clock position at which the handler
    starts. *)
Definition forward_rejected (env : Env) (k : nat) (m : Message) : bool :=
  match forward_from_chat m with
  | None => true
  | Some chat =>
      match get_chat_member env k chat (bot_id env) with
      | Returned ADMINISTRATOR =>
          match create_chat_invite_link env (S k) chat with
          | Returned _ => false
          | Failed _ _ => true
          end
      | Returned _ => true
      | Failed BadRequest _ => true
      | Failed Forbidden _ => true
      | Failed OtherTelegramError _ => false
      end
  end.

(** What [channel_key_of] makes of one character. *)
Definition key_char (c : ascii) : ascii :=
  let l := PyStr.lower_char c in
  let s := if Ascii.eqb l " " then "_"%char else l in
  if Ascii.eqb s "-" then "_"%char else s.

(** ** Configuration and start-up *)

(** The text is ASCII.  Outside ASCII [str.isdigit] accepts characters, the
    superscript digits among them, that [int] refuses. *)
Fixpoint is_ascii_text (s : string) : bool :=
  match s with
  | EmptyString => true
  | String c r => (PyStr.code c <? 128)%N && is_ascii_text r
  end.

(** [sys.get_int_max_str_digits()] by default: from Python 3.11 on, [int]
    raises [ValueError] on a decimal text with more digits. *)
Definition INT_MAX_STR_DIGITS : nat := 4300.

(** [s.isdigit()] on ASCII text: not empty, and decimal digits only. *)
Fixpoint all_digits (s : string) : bool :=
  match s with
  | EmptyString => true
  | String c r => PyNum.is_digit c && all_digits r
  end.

Definition isdigit (s : string) : bool :=
  match s with
  | EmptyString => false
  | _ => all_digits s
  end.

(** The number a string of decimal digits denotes, after the digits [acc]. *)
Fixpoint decimal_value (acc : N) (s : string) : N :=
  match s with
  | EmptyString => acc
  | String c r => decimal_value (10 * acc + PyNum.digit_val c)%N r
  end.

(** [[int(id.strip()) for id in parts if id.strip().isdigit()]], for parts
    of ASCII text within the digit limit of [int]; [None] stands for a
    [ValueError] of [int]. *)
Fixpoint admin_ids_of (parts : list string) : option (list Z) :=
  match parts with
  | [] => Some []
  | p :: r =>
      if isdigit (PyStr.strip p) then
        match PyNum.parse_int (PyStr.strip p) with
        | Some z =>
            match admin_ids_of r with
            | Some ids => Some (z :: ids)
            | None => None
            end
        | None => None
        end
      else admin_ids_of r
  end.

(** [ADMIN_IDS], computed from the text of the environment variable. *)
Definition parse_ADMIN_IDS (ADMIN_IDS_STR : string) : option (list Z) :=
  admin_ids_of (PyStr.split "," ADMIN_IDS_STR).

(** [setup_database] on a database that exists: [CREATE TABLE IF NOT
    EXISTS] keeps the tables, and [INSERT OR IGNORE INTO server_plans] meets
    no constraint it could violate, so the default plan is inserted again. *)
Definition setup_database_again (t : datetime) (s : Store) : Store :=
  mkStore (channels s) (subscriptions s) (pending_payments s)
    (server_plans s
     ++ [ServerPlan.mk "Server Premium" (PyNum.FNum false 599 0) "[]" true t]).

(** Table [users]; [user_id] is its primary key.  No handler of the store
    above reads it; [start] writes it and the admin's list of pending
    payments joins it, so it is passed to those two. *)
Module UserRow.
Record row : Type := mk {
  user_id : Z;
  username : option string;
  first_name : string;
  join_date : datetime;
  is_active : bool
}.
End UserRow.

(** [INSERT OR REPLACE INTO users (user_id, username, first_name, join_date)]:
    a row with the same primary key is deleted first; [is_active] takes its
    default 1. *)
Definition insert_or_replace_user (r : UserRow.row) (users : list UserRow.row)
  : list UserRow.row :=
  filter (fun x => negb (Z.eqb (UserRow.user_id x) (UserRow.user_id r))) users ++ [r].

(** ** Listings *)

(** [ORDER BY key DESC].  SQLite leaves the order of rows with equal keys
    open; the embedding keeps them in rowid order. *)
Fixpoint insert_desc {A} (key : A -> Z) (x : A) (l : list A) : list A :=
  match l with
  | [] => [x]
  | y :: r => if Z.ltb (key y) (key x) then x :: y :: r else y :: insert_desc key x r
  end.

Definition order_by_desc {A} (key : A -> Z) (l : list A) : list A :=
  fold_left (fun acc x => insert_desc key x acc) l [].

(** [timedelta(days=1)], in microseconds. *)
Definition ONE_DAY : Z := 86400 * 1000000.

(** [channels.get(channel_key, {}).get('name', 'Unknown Channel')], or the
    fixed name of the server plan. *)
Definition plan_name_of (chs : dict ChannelInfo) (key : string) : string :=
  if String.eqb key "server_premium" then "Server Premium"
  else match dict_get key chs with
       | Some info => name info
       | None => "Unknown Channel"
       end.

(** The welcome [start] sends, with the keyboard that goes with it. *)
Inductive Welcome : Type :=
| WelcomeAdmin (first_name : string)    (* with [get_admin_keyboard] *)
| WelcomeUser (first_name : string).    (* with [get_main_keyboard] *)

Record ManageEntry : Type := mkManageEntry {
  me_name : string;
  me_price : PyNum.pyfloat;
  me_channel_id : Z;
  me_key : string;
  me_demo_link : option string;
  me_invite_link : string
}.

Inductive ManageReply : Type :=
| ManageNotAuthorized
| ManageNoChannels
| ManageList (entries : list ManageEntry).

Inductive SubStatus : Type := Green | Yellow | Red.

Record SubEntry : Type := mkSubEntry {
  se_status : SubStatus;
  se_plan_name : string;
  se_started : datetime;
  se_expires : datetime;
  se_days_left : Z
}.

Inductive SubsReply : Type :=
| NoActiveSubscriptions
| SubsList (entries : list SubEntry).

Record PendingEntry : Type := mkPendingEntry {
  pe_first_name : option string;   (* NULL when the user has no [users] row *)
  pe_username : option string;
  pe_user_id : Z;
  pe_plan_name : string;
  pe_amount : PyNum.pyfloat;
  pe_channel_key : string          (* with [pe_user_id], the /approve arguments *)
}.

Inductive PendingReply : Type :=
| PendingNotAuthorized
| NoPendingPayments
| PendingList (entries : list PendingEntry).

(** The remaining handlers send one message and write to none of the
    tables of the store; the embedding returns what the message shows, and
    for [start] the table [users] it leaves. *)
Section Listings.
Variable env : Env.

Definition start (u : User) (users : list UserRow.row)
  : M (list UserRow.row * Welcome) :=
  bind (datetime_now env)
    (fun t =>
       ret (insert_or_replace_user
              (UserRow.mk (id u) (username u) (first_name u) t true) users,
            if is_admin env (id u) then WelcomeAdmin (first_name u)
            else WelcomeUser (first_name u))).

Definition manage_entry (kv : string * ChannelInfo) : ManageEntry :=
  mkManageEntry (name (snd kv)) (info_price (snd kv)) (info_channel_id (snd kv))
    (fst kv)
    (if PyStr.truthy (info_demo_link (snd kv)) then Some (info_demo_link (snd kv))
     else None)
    (info_invite_link (snd kv)).

Definition manage_channels (u : User) : M ManageReply :=
  if negb (is_admin env (id u)) then ret ManageNotAuthorized
  else
    bind get_channels_from_db
      (fun chs =>
         match chs with
         | [] => ret ManageNoChannels
         | _ => ret (ManageList (map manage_entry chs))
         end).

(** The demo lines of [demo_links]; the list is empty exactly when the
    message says that no demo links are available. *)
Definition demo_links : M (list (string * string)) :=
  bind get_channels_from_db
    (fun chs =>
       ret (map (fun kv : string * ChannelInfo =>
                   (name (snd kv), info_demo_link (snd kv)))
              (filter (fun kv : string * ChannelInfo =>
                         PyStr.truthy (info_demo_link (snd kv))) chs))).

(** One block of [my_subscriptions], for the clock reading [t]:
    [days_left = (end_dt - datetime.now()).days]. *)
Definition subscription_entry (chs : dict ChannelInfo) (t : datetime)
    (r : Subscription.row) : SubEntry :=
  let days_left := (Subscription.end_date r - t) / ONE_DAY in
  mkSubEntry
    (if 3 <? days_left then Green else if 0 <? days_left then Yellow else Red)
    (plan_name_of chs (Subscription.channel_key r))
    (Subscription.start_date r)
    (Subscription.end_date r)
    (Z.max 0 days_left).

Fixpoint subscription_entries (chs : dict ChannelInfo) (rows : list Subscription.row)
  : M (list SubEntry) :=
  match rows with
  | [] => ret []
  | r :: rest =>
      bind (datetime_now env)
        (fun t =>
           bind (subscription_entries chs rest)
             (fun es => ret (subscription_entry chs t r :: es)))
  end.

(** [SELECT ... FROM subscriptions WHERE user_id = ? AND is_active = 1
    ORDER BY end_date DESC] *)
Definition select_active_subscriptions (uid : Z) (s : Store) : list Subscription.row :=
  order_by_desc Subscription.end_date
    (filter (fun r => Z.eqb (Subscription.user_id r) uid && Subscription.is_active r)
       (subscriptions s)).

Definition my_subscriptions (u : User) : M SubsReply :=
  bind get_store
    (fun s =>
       match select_active_subscriptions (id u) s with
       | [] => ret NoActiveSubscriptions
       | rows =>
           bind get_channels_from_db
             (fun chs =>
                bind (subscription_entries chs rows)
                  (fun es => ret (SubsList es)))
       end).

(** [SELECT pp.user_id, pp.channel_key, pp.amount, pp.timestamp,
    u.first_name, u.username FROM pending_payments pp LEFT JOIN users u ON
    pp.user_id = u.user_id WHERE pp.status = 'submitted'
    ORDER BY pp.timestamp DESC] *)
Definition select_submitted_payments (s : Store) : list PendingPayment.row :=
  order_by_desc PendingPayment.timestamp
    (filter (fun p => Status_eqb (PendingPayment.status p) submitted)
       (pending_payments s)).

Definition pending_entry (users : list UserRow.row) (chs : dict ChannelInfo)
    (p : PendingPayment.row) : PendingEntry :=
  let joined :=
    find (fun x => Z.eqb (UserRow.user_id x) (PendingPayment.user_id p)) users in
  mkPendingEntry
    (match joined with Some x => Some (UserRow.first_name x) | None => None end)
    (match joined with Some x => UserRow.username x | None => None end)
    (PendingPayment.user_id p)
    (plan_name_of chs (PendingPayment.channel_key p))
    (PendingPayment.amount p)
    (PendingPayment.channel_key p).

(** The handler [pending_payments]; the store has a field of that name. *)
Definition pending_payments_command (u : User) (users : list UserRow.row)
  : M PendingReply :=
  if negb (is_admin env (id u)) then ret PendingNotAuthorized
  else
    bind get_store
      (fun s =>
         match select_submitted_payments s with
         | [] => ret NoPendingPayments
         | rows =>
             bind get_channels_from_db
               (fun chs => ret (PendingList (map (pending_entry users chs) rows)))
         end).

End Listings.

(** The payments a list of pending payments shows, as the arguments of
    [/approve] and [/reject]. *)
Definition listed_payments (r : PendingReply) : list (Z * string) :=
  match r with
  | PendingList es => map (fun e => (pe_user_id e, pe_channel_key e)) es
  | _ => []
  end.

(** The value returned by a handler that does not raise. *)
Definition value_or {A} (d : A) (o : Outcome A) : A :=
  match o with Val a => a | Exc _ => d end.

(** * Properties *)

(** ** Sanity checks of the Python primitives *)

Example split_all_ex : PyStr.split "_" "plan_vip_content" = ["plan"; "vip"; "content"].
Proof. reflexivity. Qed.

Example split_max_ex : PyStr.split_max "_" 1 "purchase_vip_content" = ["purchase"; "vip_content"].
Proof. reflexivity. Qed.

Example float_ex1 : PyNum.parse_float " 1_0.50e-1 " = Some (PyNum.FNum false 1050 (-3)).
Proof. reflexivity. Qed.

Example float_ex2 : PyNum.parse_float "-5" = Some (PyNum.FNum true 5 0).
Proof. reflexivity. Qed.

Example float_ex3 : PyNum.parse_float "abc" = None /\ PyNum.parse_float "1__0" = None
  /\ PyNum.parse_float "." = None /\ PyNum.parse_float "1." = Some (PyNum.FNum false 1 0)
  /\ PyNum.parse_float "-Inf" = Some (PyNum.FInf true) /\ PyNum.parse_float EmptyString = None.
Proof. repeat split; reflexivity. Qed.

Example int_ex : PyNum.parse_int " 42 " = Some 42 /\ PyNum.parse_int "4x" = None
  /\ PyNum.parse_int "-007" = Some (-7).
Proof. repeat split; reflexivity. Qed.

(** ** Basic facts about the monad and the store *)

(** Closed statements are decided by evaluating both sides. *)
Ltac by_evaluation :=
  repeat match goal with |- _ /\ _ => split end; vm_compute; reflexivity.

(** Runs the monad's own operations, and nothing else. *)
Ltac mrun :=
  cbv beta iota zeta delta
    [bind ret raise try_except emit get_store put_store get_user_data
     put_user_data next_tick exec result store sessions tick events fst snd
     any_exception is_ValueError is_IntegrityError is_BadRequest_or_Forbidden].

Lemma bind_val {A B} (m : M A) (k : A -> M B) (w w' : World) (a : A) :
  m w = (Val a, w') -> bind m k w = k a w'.
Proof. intros H. unfold bind. now rewrite H. Qed.

Lemma update_session_same (ses : Z -> UserData) (uid : Z) (d : UserData) :
  update_session ses uid d uid = d.
Proof. unfold update_session. now rewrite Z.eqb_refl. Qed.

Lemma dict_set_fresh {V} (k : string) (v : V) (d : dict V) :
  ~ In k (map fst d) -> dict_set k v d = (d ++ [(k, v)])%list.
Proof.
  induction d as [|[k' v'] d IH]; simpl; intros Hn; [reflexivity|].
  destruct (String.eqb_spec k k') as [->|Hne].
  - exfalso. apply Hn. now left.
  - rewrite IH; [reflexivity|]. intros Hin. apply Hn. now right.
Qed.

(** With unique keys the dict of [get_channels_from_db] has one entry per
    row, in row order. *)
Lemma dict_of_rows (l : list Channel.row) (acc : dict ChannelInfo) :
  NoDup (map fst acc ++ map Channel.channel_key l) ->
  fold_left (fun d c => dict_set (Channel.channel_key c) (info_of c) d) l acc
  = (acc ++ map (fun c => (Channel.channel_key c, info_of c)) l)%list.
Proof.
  revert acc. induction l as [|c l IH]; intros acc Hnd; simpl.
  - now rewrite app_nil_r.
  - rewrite dict_set_fresh.
    + rewrite IH.
      * now rewrite <- app_assoc.
      * rewrite map_app. simpl. rewrite <- app_assoc. exact Hnd.
    + simpl in Hnd. apply NoDup_remove_2 in Hnd.
      intros Hin. apply Hnd. apply in_or_app. now left.
Qed.

(** The keys of the active rows are unique when the keys of all rows are. *)
Lemma active_keys_unique (rows : list Channel.row) :
  NoDup (map Channel.channel_key rows) ->
  NoDup (map Channel.channel_key (filter Channel.is_active rows)).
Proof.
  induction rows as [|c rows IH]; cbn [map filter]; intros Hrows.
  - constructor.
  - apply NoDup_cons_iff in Hrows. destruct Hrows as [Hfresh Hrest].
    destruct (Channel.is_active c); [|exact (IH Hrest)].
    cbn [map]. apply NoDup_cons; [|exact (IH Hrest)].
    contradict Hfresh.
    apply in_map_iff in Hfresh. destruct Hfresh as [c' [Hkey Hin]].
    apply in_map_iff. exists c'. split; [exact Hkey|].
    apply filter_In in Hin. apply Hin.
Qed.

Lemma get_channels_unique (w : World) :
  unique_keys (store w) ->
  get_channels_from_db w
  = (Val (map (fun c => (Channel.channel_key c, info_of c))
            (select_active_channels (store w))), w).
Proof.
  intros Hu. unfold get_channels_from_db. mrun.
  rewrite dict_of_rows; [reflexivity|].
  cbn [map app]. unfold select_active_channels. now apply active_keys_unique.
Qed.

(** ** Proof submission without a pending plan *)

(** C10: with no ['awaiting_payment'] key in the sender's [user_data],
    [handle_payment_proof] returns at once: the store, the sessions and the
    event log are those it was given, so no row is written and no message
    is sent. *)
Theorem handle_payment_proof_without_marker :
  forall (env : Env) (u : User) (m : Message) (w : World),
    awaiting_payment (sessions w (id u)) = None ->
    handle_payment_proof env u m w = (Val tt, w).
Proof.
  intros env u m w Hnone.
  unfold handle_payment_proof, bind, get_user_data.
  rewrite Hnone. reflexivity.
Qed.

Lemma handle_payment_proof_without_marker_witness :
  awaiting_payment (sessions vip_start (id buyer)) = None
  /\ handle_payment_proof env_ok buyer (photo_message "file1") vip_start
     = (Val tt, vip_start).
Proof.
  split.
  - reflexivity.
  - apply (handle_payment_proof_without_marker env_ok buyer
             (photo_message "file1") vip_start).
    reflexivity.
Defined.

(** ** The price step of the onboarding dialogue *)



(** ** Channel onboarding *)

Lemma answer_text_is_text (t : string) :
  answer_text t = true -> PyStr.truthy t = true.
Proof. unfold answer_text. intros H. now apply andb_prop in H. Qed.

(** The next message of the dialogue is a text without command entity:
    the text filter of the state passes. *)
Ltac dispatch_text H :=
  cbn [conversation conversation_step];
  unfold filters_TEXT, filters_COMMAND;
  cbn [text bot_command text_message negb];
  rewrite H; cbn [andb].

(** The command and the three text steps of the dialogue, for an
    administrator and a price [float()] accepts: the collected fields are in
    the session when the forwarded message is handled. *)
Lemma onboarding_reaches_forward (env : Env) (u : User)
    (name_text price_text demo_text : string) (price : PyNum.pyfloat) (chat : Z)
    (w : World) :
  is_admin env (id u) = true ->
  PyStr.truthy name_text = true ->
  PyStr.truthy demo_text = true ->
  PyNum.parse_float (PyStr.strip price_text) = Some price ->
  exists w3,
    onboarding env u name_text price_text demo_text chat w
    = bind (add_channel_forward env u (forward_message chat)) (fun st => ret st) w3
    /\ store w3 = store w
    /\ channel_name (sessions w3 (id u)) = Some (PyStr.strip name_text)
    /\ channel_price (sessions w3 (id u)) = Some price
    /\ exists demo, channel_demo (sessions w3 (id u)) = Some demo.
Proof.
  intros Hadmin Hname Hdemo Hprice.
  assert (Hptext : PyStr.truthy price_text = true).
  { destruct price_text; [vm_compute in Hprice; discriminate|reflexivity]. }
  unfold onboarding, add_channel_start. rewrite Hadmin. cbn [negb].
  mrun. dispatch_text Hname.
  unfold add_channel_name. cbn [text text_message]. mrun.
  dispatch_text Hptext.
  unfold add_channel_price, py_float. cbn [text text_message].
  rewrite Hprice. mrun.
  dispatch_text Hdemo.
  unfold add_channel_demo. cbn [text text_message]. mrun.
  cbn [conversation conversation_step].
  unfold filters_COMMAND. cbn [bot_command forward_message negb].
  eexists. split; [reflexivity|].
  cbn [store sessions]. rewrite !update_session_same.
  cbn [channel_name channel_price channel_demo].
  repeat split. eexists. reflexivity.
Qed.

(** The forwarded message, when the bot is administrator of the channel and
    the invite link is created: the row is inserted when the key is free,
    and the collision is reported when it is taken. *)
Lemma add_channel_forward_run (env : Env) (u : User) (chat : Z) (url : string)
    (cname demo : string) (price : PyNum.pyfloat) (w : World) :
  (forall k, get_chat_member env k chat (bot_id env) = Returned ADMINISTRATOR) ->
  (forall k, create_chat_invite_link env k chat = Returned url) ->
  channel_name (sessions w (id u)) = Some cname ->
  channel_price (sessions w (id u)) = Some price ->
  channel_demo (sessions w (id u)) = Some demo ->
  let taken :=
    existsb (fun c => String.eqb (Channel.channel_key c) (channel_key_of cname))
      (channels (store w)) in
  let row :=
    Channel.mk (channel_key_of cname) cname chat price demo url true
      (now env (S (S (tick w)))) (id u) in
  let w' := exec (add_channel_forward env u (forward_message chat)) w in
  result (add_channel_forward env u (forward_message chat)) w = Val END
  /\ channels (store w')
     = (if taken then channels (store w) else channels (store w) ++ [row])%list
  /\ last (events w') Answer
     = (if taken then Reply (MsgKeyExists (channel_key_of cname))
        else Reply (MsgChannelAdded cname chat price demo)).
Proof.
  intros Hstatus Hlink Hname Hprice Hdemo taken row w'.
  subst w' taken row.
  destruct w as [s ses k evs]. cbn [sessions store tick] in *.
  unfold add_channel_forward. cbn [forward_from_chat forward_message].
  unfold bot_get_chat_member, bot_create_chat_invite_link, call_api.
  mrun. rewrite Hstatus. mrun. rewrite Hlink. mrun.
  rewrite Hname, Hprice, Hdemo. unfold user_data_item. mrun.
  unfold datetime_now, execute_insert_channel, insert_channel. mrun.
  destruct (existsb _ (channels s)); mrun.
  - repeat split. now rewrite last_last.
  - repeat split. now rewrite last_last.
Qed.

Lemma existsb_key_count (key : string) (l : list Channel.row) :
  existsb (fun c => String.eqb (Channel.channel_key c) key) l = false ->
  filter (fun c => String.eqb (Channel.channel_key c) key) l = [].
Proof.
  induction l as [|c l IH]; simpl; [reflexivity|].
  intros H. apply orb_false_iff in H. destruct H as [Hc Hl].
  rewrite Hc. now apply IH.
Qed.

(** C6: a run of the onboarding dialogue by an administrator, with a name
    and a demo text that the dialogue takes (not empty, no command; the name
    ASCII), a price [float()] accepts and a forward from a channel where the
    bot is administrator and the invite link is created, adds exactly one
    row to [channels] when the key is free; its key is the stripped name,
    lowercased, with spaces and hyphens replaced by underscores.  A second
    run with the same name hits the UNIQUE constraint: it reports the key
    collision, leaves [channels] as it was, and the key still names one
    row. *)
Theorem onboarding_creates_one_channel_then_conflict :
  forall (env : Env) (u : User) (name_text price_text demo_text : string)
         (price_text2 demo_text2 : string) (price price2 : PyNum.pyfloat)
         (chat : Z) (url : string) (w : World),
    is_admin env (id u) = true ->
    answer_text name_text = true ->
    is_ascii_text name_text = true ->
    answer_text demo_text = true ->
    answer_text demo_text2 = true ->
    PyNum.parse_float (PyStr.strip price_text) = Some price ->
    PyNum.parse_float (PyStr.strip price_text2) = Some price2 ->
    (forall k, get_chat_member env k chat (bot_id env) = Returned ADMINISTRATOR) ->
    (forall k, create_chat_invite_link env k chat = Returned url) ->
    existsb (fun c => String.eqb (Channel.channel_key c)
                        (channel_key_of (PyStr.strip name_text)))
      (channels (store w)) = false ->
    let key :=
      PyStr.replace "-" "_" (PyStr.replace " " "_" (PyStr.lower (PyStr.strip name_text))) in
    let run1 := onboarding env u name_text price_text demo_text chat in
    let run2 := onboarding env u name_text price_text2 demo_text2 chat in
    let w1 := exec run1 w in
    let w2 := exec run2 w1 in
    result run1 w = Val END
    /\ (exists row,
          channels (store w1) = (channels (store w) ++ [row])%list
          /\ Channel.channel_key row = key
          /\ Channel.channel_name row = PyStr.strip name_text
          /\ Channel.price row = price
          /\ Channel.is_active row = true)
    /\ result run2 w1 = Val END
    /\ channels (store w2) = channels (store w1)
    /\ last (events w2) Answer = Reply (MsgKeyExists key)
    /\ List.length (filter (fun c => String.eqb (Channel.channel_key c) key)
                      (channels (store w2))) = 1%nat.
Proof.
  intros env u name_text price_text demo_text price_text2 demo_text2 price price2
    chat url w Hadmin Hname _ Hdemo Hdemo2 Hprice Hprice2 Hstatus Hlink Hfresh
    key run1 run2 w1 w2.
  apply answer_text_is_text in Hname, Hdemo, Hdemo2.
  fold (channel_key_of (PyStr.strip name_text)) in key.
  (* the first run *)
  destruct (onboarding_reaches_forward env u name_text price_text demo_text price
              chat w Hadmin Hname Hdemo Hprice) as [wa [Hruna [Hsa [Hna [Hpa [da Hda]]]]]].
  destruct (add_channel_forward_run env u chat url _ _ _ wa Hstatus Hlink Hna Hpa Hda)
    as [Hres1 [Hch1 _]].
  rewrite Hsa, Hfresh in Hch1.
  assert (Hrun1 : run1 w = add_channel_forward env u (forward_message chat) wa).
  { subst run1. rewrite Hruna. unfold bind, ret.
    destruct (add_channel_forward env u (forward_message chat) wa) as [[st|e] wz];
      reflexivity. }
  assert (Hw1 : w1 = exec (add_channel_forward env u (forward_message chat)) wa)
    by (subst w1; unfold exec; now rewrite Hrun1).
  (* the second run *)
  destruct (onboarding_reaches_forward env u name_text price_text2 demo_text2 price2
              chat w1 Hadmin Hname Hdemo2 Hprice2)
    as [wb [Hrunb [Hsb [Hnb [Hpb [db Hdb]]]]]].
  destruct (add_channel_forward_run env u chat url _ _ _ wb Hstatus Hlink Hnb Hpb Hdb)
    as [Hres2 [Hch2 Hlast2]].
  assert (Htaken : existsb (fun c => String.eqb (Channel.channel_key c)
                                       (channel_key_of (PyStr.strip name_text)))
                     (channels (store wb)) = true).
  { rewrite Hsb, Hw1, Hch1, existsb_app. simpl.
    now rewrite String.eqb_refl, orb_true_r. }
  rewrite Htaken in Hch2, Hlast2.
  assert (Hrun2 : run2 w1 = add_channel_forward env u (forward_message chat) wb).
  { subst run2. rewrite Hrunb. unfold bind, ret.
    destruct (add_channel_forward env u (forward_message chat) wb) as [[st|e] wz];
      reflexivity. }
  assert (Hw2 : w2 = exec (add_channel_forward env u (forward_message chat)) wb)
    by (subst w2; unfold exec; now rewrite Hrun2).
  split; [unfold result; rewrite Hrun1; exact Hres1|].
  split.
  { rewrite Hw1, Hch1. eexists. split; [reflexivity|]. repeat split. }
  split; [unfold result; rewrite Hrun2; exact Hres2|].
  split; [rewrite Hw2, Hch2, Hsb; reflexivity|].
  split; [rewrite Hw2; exact Hlast2|].
  subst key.
  rewrite Hw2, Hch2, Hsb, Hw1, Hch1, filter_app, length_app.
  rewrite (existsb_key_count _ _ Hfresh). simpl.
  now rewrite String.eqb_refl.
Qed.

Lemma onboarding_creates_one_channel_then_conflict_witness :
  List.length (filter (fun c => String.eqb (Channel.channel_key c) "vip_content")
                 (channels (store
                    (exec (onboarding env_ok admin "VIP Content" "999" "skip" (-1001))
                       (exec (onboarding env_ok admin "VIP Content" "200" "skip" (-1001))
                          (initial_world (setup_database 0))))))) = 1%nat.
Proof.
  apply (onboarding_creates_one_channel_then_conflict env_ok admin
           "VIP Content" "200" "skip" "999" "skip"
           (PyNum.FNum false 200 0) (PyNum.FNum false 999 0) (-1001)
           "https://t.me/+invite" (initial_world (setup_database 0)));
    try reflexivity; intros; reflexivity.
Defined.
(** ** Rejection *)

(** C7, against the claim: with no PendingPayment at all for the user and
    the plan, [/reject 42 vip_content] does not fail: the buyer is sent the
    rejection notice and the admin is told the payment was rejected. *)
Lemma reject_without_submission_reports_success :
  count_payments 42 "vip_content" submitted (store vip_start) = 0%nat
  /\ reject_payment env_ok admin ["42"; "vip_content"] vip_start
     = (Val tt,
        mkWorld (store vip_start) (sessions vip_start) 1
          [Api (send_message_call 42 (MsgRejectNotice "Payment verification failed")) None;
           Reply (MsgRejected 42)]).
Proof. by_evaluation. Qed.

(** C7, as amended: for an administrator and a user id [int()] accepts
    and SQLite can bind, [reject_payment] never fails and does not look for
    a submitted payment.
    It marks every submitted PendingPayment of the user and the plan
    rejected (none when there is none) and leaves every other row as it
    was, creates no Subscription, sends the buyer the notice with the given
    reason or the default one, logging a failed send, and then confirms the
    rejection to the admin. *)
Theorem reject_payment_marks_and_notifies :
  forall (env : Env) (u : User) (a0 key : string) (rest : list string)
         (uid : Z) (w : World),
    is_admin env (id u) = true ->
    PyNum.parse_int a0 = Some uid ->
    sqlite_int64 uid = true ->
    let w' := exec (reject_payment env u (a0 :: key :: rest)) w in
    result (reject_payment env u (a0 :: key :: rest)) w = Val tt
    /\ pending_payments (store w')
       = map (fun p => if payment_matches uid key submitted p
                       then set_status rejected p else p)
           (pending_payments (store w))
    /\ subscriptions (store w') = subscriptions (store w)
    /\ channels (store w') = channels (store w)
    /\ exists outcome,
         events w'
         = (events w
            ++ [Api (send_message_call uid (MsgRejectNotice (reject_reason rest))) outcome]
            ++ match outcome with
               | Some e => [LogError FailedToNotifyUser e]
               | None => []
               end
            ++ [Reply (MsgRejected uid)])%list.
Proof.
  intros env u a0 key rest uid w Hadmin Hint _ w'. subst w'.
  destruct w as [s ses k evs].
  unfold reject_payment. rewrite Hadmin. cbn [negb].
  unfold py_index, py_int. cbn [nth_error List.length Nat.ltb Nat.leb skipn].
  mrun. rewrite Hint.
  replace (if match List.length rest with O => false | S _ => true end
           then PyStr.join " " rest else "Payment verification failed")
    with (reject_reason rest) by (destruct rest; reflexivity).
  unfold bot_send_message, call_api, update_payment_status, update_where.
  mrun.
  destruct (send_message env k uid) as [[]|kind msg]; mrun; repeat split.
  - exists None. cbn [app]. now rewrite <- app_assoc.
  - exists (Some (TelegramError kind msg)). cbn [app]. now rewrite <- !app_assoc.
Qed.

Lemma reject_payment_marks_and_notifies_witness :
  subscriptions (store (exec (reject_payment env_ok admin ["42"; "vip_content"; "blurry"])
                          submitted_world)) = subscriptions (store submitted_world).
Proof.
  apply (reject_payment_marks_and_notifies env_ok admin "42" "vip_content"
           ["blurry"] 42 submitted_world); reflexivity.
Defined.

(** ** The plan listing *)

(** C3, against the claim: on a new database, where the default all-access
    plan is active and no channel exists, the specified listing has the
    all-access offer, but [show_plans] answers that no plan is available
    and lists nothing. *)
Lemma show_plans_without_channels_hides_all_access :
  listOffers_spec (setup_database 0)
  = [mkOffer "all-access" "Server Premium" (PyNum.FNum false 599 0) None]
  /\ show_plans (MessageUpdate buyer (text_message "/plans"))
       (initial_world (setup_database 0))
     = (Val tt, with_events (initial_world (setup_database 0)) [Reply MsgNoPlans])
  /\ listed_entries
       (events (exec (show_plans (MessageUpdate buyer (text_message "/plans")))
                  (initial_world (setup_database 0)))) = [].
Proof. by_evaluation. Qed.

(** C3, as amended: [show_plans] lists nothing when no channel is active,
    whether or not the all-access plan is active; when at least one channel
    is active it lists the name, price and demo link of every active channel
    in creation order, followed by the all-access plan when that plan is
    active. *)
Theorem show_plans_lists_offers_when_a_channel_is_active :
  forall (u : Update) (s : Store) (ses : Z -> UserData) (k : nat),
    unique_keys s ->
    map entry_shown
      (listed_entries (events (exec (show_plans u) (mkWorld s ses k []))))
    = match select_active_channels s with
      | [] => []
      | _ :: _ => map offer_shown (listOffers_spec s)
      end.
Proof.
  intros u s ses k Hu.
  unfold show_plans, exec.
  rewrite (bind_val _ _ _ _ _ (get_channels_unique (mkWorld s ses k []) Hu)).
  cbn [store]. unfold listOffers_spec.
  destruct (select_active_channels s) as [|c l]; cbn [map].
  - destruct u; reflexivity.
  - unfold get_plans_keyboard, asyncio_run, reply_text. mrun.
    destruct (select_active_server_plan s) as [sp|]; destruct u;
      cbn [listed_entries app map];
      rewrite ?app_nil_r, ?map_app, ?map_map; reflexivity.
Qed.

Lemma show_plans_lists_offers_when_a_channel_is_active_witness :
  map entry_shown
    (listed_entries
       (events (exec (show_plans (MessageUpdate buyer (text_message "/plans")))
                  (mkWorld (store vip_world) (fun _ => user_data_clear) 0 []))))
  = [("VIP Content", PyNum.FNum false 200 0, None);
     ("Server Premium", PyNum.FNum false 599 0, None)].
Proof.
  apply (show_plans_lists_offers_when_a_channel_is_active
           (MessageUpdate buyer (text_message "/plans")) (store vip_world)
           (fun _ => user_data_clear) 0%nat).
  unfold unique_keys. vm_compute. constructor; [intros []|constructor].
Defined.

(** The keyboard under the listing: built inside the running event loop,
    it has no channel buttons. *)
Lemma get_plans_keyboard_in_event_loop (w : World) :
  get_plans_keyboard true w
  = (Val (match select_active_server_plan (store w) with
          | Some sp =>
              [[CallbackButton (LabelServer (ServerPlan.plan_name sp) (ServerPlan.price sp))
                  "plan_server_premium"];
               [CallbackButton LabelBackToMainMenu "main_menu"]]
          | None => [[CallbackButton LabelBackToMainMenu "main_menu"]]
          end), w).
Proof.
  unfold get_plans_keyboard, asyncio_run. mrun.
  destruct (select_active_server_plan _); destruct w; reflexivity.
Qed.

(** ** Callback payloads *)

(** [split('_', 1)[1]] gives back the whole key after the action token,
    whatever underscores the key has. *)
Lemma split_max_recovers_key (key : string) :
  nth_error (PyStr.split_max "_" 1 ("purchase_" ++ key)) 1 = Some key.
Proof.
  simpl. destruct key; reflexivity.
Qed.

(** [split(sep)] cuts at the first separator, and goes on cutting. *)
Lemma split_at_first_separator (sep : ascii) (a b : string) :
  PyStr.contains sep a = false ->
  PyStr.split sep (a ++ String sep b) = a :: PyStr.split sep b.
Proof.
  induction a as [|c a IH]; cbn [PyStr.contains append PyStr.split]; intros Hno.
  - now rewrite Ascii.eqb_refl.
  - apply orb_false_iff in Hno. destruct Hno as [Hc Ha].
    rewrite Hc, (IH Ha). reflexivity.
Qed.

(** [split('_')[1]] of the plan callback of a key is the key only up to
    its first underscore. *)
Lemma plan_key_is_cut_at_underscore (a b : string) :
  PyStr.contains "_" a = false ->
  nth_error (PyStr.split "_" ("plan_" ++ a ++ "_" ++ b)) 1 = Some a.
Proof.
  intros Hno.
  change ("plan_" ++ a ++ "_" ++ b) with ("plan" ++ String "_" (a ++ String "_" b)).
  rewrite (split_at_first_separator "_" "plan") by reflexivity.
  rewrite (split_at_first_separator "_" a b Hno). reflexivity.
Qed.

(** C2, at the failing input: the channel "VIP Content" is active under the
    key [vip_content]; pressing its plan button is answered with "no longer
    available", because [plan_selected] takes [split('_')[1]], which is
    [vip]; the purchase callback of the same key, decoded with
    [split('_', 1)], reaches the channel. *)
Theorem plan_selected_loses_key_after_underscore :
  map Channel.channel_key (select_active_channels (store vip_start)) = ["vip_content"]
  /\ nth_error (PyStr.split "_" "plan_vip_content") 1 = Some "vip"
  /\ button_callback env_ok buyer "plan_vip_content" vip_start
     = (Val tt, with_events vip_start [Answer; Edit MsgPlanUnavailable])
  /\ events (exec (button_callback env_ok buyer "purchase_vip_content") vip_start)
     = [Answer; Edit (MsgPurchase "VIP Content" (PyNum.FNum false 200 0))].
Proof. by_evaluation. Qed.

(** ** Facts about dicts and loops *)

Lemma dict_get_set_same {V} (k : string) (v : V) (d : dict V) :
  dict_get k (dict_set k v d) = Some v.
Proof.
  induction d as [|[k' v'] d IH]; simpl.
  - now rewrite String.eqb_refl.
  - destruct (String.eqb_spec k k') as [->|Hne]; simpl.
    + now rewrite String.eqb_refl.
    + destruct (String.eqb_spec k k'); [contradiction|exact IH].
Qed.

Lemma dict_get_set_other {V} (k k0 : string) (v : V) (d : dict V) :
  k <> k0 -> dict_get k (dict_set k0 v d) = dict_get k d.
Proof.
  intros Hne. induction d as [|[k' v'] d IH]; simpl.
  - destruct (String.eqb_spec k k0); [contradiction|reflexivity].
  - destruct (String.eqb_spec k0 k') as [->|Hne']; simpl.
    + destruct (String.eqb_spec k k'); [contradiction|reflexivity].
    + destruct (String.eqb_spec k k'); [reflexivity|exact IH].
Qed.

(** A key is in the dict of [get_channels_from_db] exactly when it is the
    key of an active channel. *)
Lemma dict_mem_channels (key : string) (l : list Channel.row) (acc : dict ChannelInfo) :
  dict_mem key
    (fold_left (fun d c => dict_set (Channel.channel_key c) (info_of c) d) l acc)
  = dict_mem key acc
    || existsb (fun c => String.eqb (Channel.channel_key c) key) l.
Proof.
  revert acc. induction l as [|c l IH]; intros acc; simpl.
  - now rewrite orb_false_r.
  - rewrite IH. unfold dict_mem.
    destruct (String.eqb_spec (Channel.channel_key c) key) as [<-|Hne].
    + rewrite dict_get_set_same. simpl. now rewrite orb_true_r.
    + rewrite dict_get_set_other by congruence. reflexivity.
Qed.

Lemma available_channel_in_dict (key : string) (s : Store) :
  existsb (fun c => String.eqb (Channel.channel_key c) key)
    (select_active_channels s) = true ->
  exists info,
    dict_get key
      (fold_left (fun d c => dict_set (Channel.channel_key c) (info_of c) d)
         (select_active_channels s) []) = Some info.
Proof.
  intros Hex.
  pose proof (dict_mem_channels key (select_active_channels s) []) as Hmem.
  rewrite Hex in Hmem. simpl in Hmem. unfold dict_mem in Hmem.
  destruct (dict_get key _) as [info|]; [now exists info|discriminate].
Qed.

(** The loop that notifies the admins changes neither the store nor the
    sessions, and does not raise. *)
Lemma notify_admins_loop (env : Env) (file : string) (caption : Msg) :
  forall (admins : list Z) (w : World),
  exists evs,
    for_each admins
      (fun admin_id =>
         try_except (bot_send_photo env admin_id file caption) any_exception
           (fun e => emit (LogError (FailedToNotifyAdmin admin_id) e))) w
    = (Val tt, mkWorld (store w) (sessions w) (tick w + List.length admins)%nat
                 (events w ++ evs)).
Proof.
  induction admins as [|a admins IH]; intros w.
  - exists []. destruct w. cbn [for_each]. mrun. cbn [List.length].
    now rewrite Nat.add_0_r, app_nil_r.
  - cbn [for_each].
    assert (Hstep : exists ev1,
               try_except (bot_send_photo env a file caption) any_exception
                 (fun e => emit (LogError (FailedToNotifyAdmin a) e)) w
               = (Val tt, mkWorld (store w) (sessions w) (S (tick w))
                            (events w ++ ev1))).
    { unfold bot_send_photo, call_api. mrun.
      destruct (send_photo env _ a) as [[]|kind msg]; mrun; eexists;
        [reflexivity|rewrite <- app_assoc; reflexivity]. }
    destruct Hstep as [ev1 Hstep]. rewrite (bind_val _ _ _ _ _ Hstep).
    destruct (IH (mkWorld (store w) (sessions w) (S (tick w)) (events w ++ ev1)))
      as [evs Hevs].
    rewrite Hevs. cbn [store sessions tick events List.length].
    exists (ev1 ++ evs)%list. now rewrite app_assoc, Nat.add_succ_r.
Qed.

Lemma notify_admins_run (env : Env) (file : string) (caption : Msg) (w : World) :
  exists k' evs,
    notify_admins env file caption w
    = (Val tt, mkWorld (store w) (sessions w) k' (events w ++ evs)).
Proof.
  unfold notify_admins.
  destruct (notify_admins_loop env file caption (ADMIN_IDS env) w) as [evs Hevs].
  rewrite Hevs. now do 2 eexists.
Qed.

(** ** Pending payments *)

Lemma row_after_proof (file : string) (uid : Z) (key : string)
    (p : PendingPayment.row) :
  let p' := if payment_matches uid key pending p then set_proof file p else p in
  payment_matches uid key submitted p'
  = payment_matches uid key pending p || payment_matches uid key submitted p
  /\ payment_matches uid key pending p' = false
  /\ payment_matches uid key pending p && payment_matches uid key submitted p = false.
Proof.
  destruct p as [u' k' amt pr ts st].
  unfold payment_matches, set_proof.
  cbn [PendingPayment.user_id PendingPayment.channel_key PendingPayment.status
       PendingPayment.amount PendingPayment.payment_proof PendingPayment.timestamp].
  destruct (Z.eqb u' uid) eqn:Eu; destruct (String.eqb k' key) eqn:Ek;
    destruct st; cbn; rewrite ?Eu, ?Ek; cbn; auto.
Qed.

Lemma submitted_after_proof (file : string) (uid : Z) (key : string)
    (l : list PendingPayment.row) :
  List.length (filter (payment_matches uid key submitted)
                 (update_where (payment_matches uid key pending) (set_proof file) l))
  = (List.length (filter (payment_matches uid key pending) l)
     + List.length (filter (payment_matches uid key submitted) l))%nat
  /\ List.length (filter (payment_matches uid key pending)
                    (update_where (payment_matches uid key pending) (set_proof file) l))
     = 0%nat.
Proof.
  unfold update_where.
  induction l as [|p l [IH1 IH2]]; [split; reflexivity|].
  cbn [map filter].
  destruct (row_after_proof file uid key p) as [Hs [Hp Hdisj]].
  cbv zeta in Hs, Hp. rewrite Hs, Hp.
  destruct (payment_matches uid key pending p),
           (payment_matches uid key submitted p);
    try discriminate; cbn [orb List.length]; rewrite ?IH1, ?IH2; split; lia.
Qed.

(** C5, against the claim: two checkouts of the same plan followed by one
    proof submission leave two submitted PendingPayment rows for the same
    user and plan. *)
Lemma double_checkout_leaves_two_submitted :
  count_payments 42 "vip_content" submitted (store double_checkout_world) = 2%nat.
Proof. by_evaluation. Qed.

(** C5, as amended: nothing limits the submitted rows of a user and a plan
    to one.  A proof submission that is accepted (the plan recorded in the
    session is the server plan or an active channel, and the message carries
    a file) turns every pending row of the user and that plan into a
    submitted one: afterwards no row of them is pending, and their submitted
    rows number the pending and the submitted rows there were before. *)
Theorem proof_submission_submits_every_pending_row :
  forall (env : Env) (u : User) (m : Message) (key file : string) (w : World),
    awaiting_payment (sessions w (id u)) = Some key ->
    String.eqb key "server_premium" || plan_available key (store w) = true ->
    truthy_file_id (proof_file_id m) = Some file ->
    let w' := exec (handle_payment_proof env u m) w in
    count_payments (id u) key submitted (store w')
    = (count_payments (id u) key pending (store w)
       + count_payments (id u) key submitted (store w))%nat
    /\ count_payments (id u) key pending (store w') = 0%nat.
Proof.
  intros env u m key file w Hmark Hplan Hfile w'.
  assert (Hstore : pending_payments (store w')
                   = update_where (payment_matches (id u) key pending) (set_proof file)
                       (pending_payments (store w))).
  { subst w'. destruct w as [s ses k evs]. cbn [sessions store] in Hmark, Hplan.
    unfold handle_payment_proof. mrun. rewrite Hmark.
    unfold plan_available in Hplan.
    destruct (String.eqb key "server_premium") eqn:Ekey.
    - destruct (select_active_server_plan s) as [sp|]; rewrite Hfile;
        unfold datetime_now; mrun;
        match goal with
        | |- context [notify_admins env ?f ?c ?w0] =>
            destruct (notify_admins_run env f c w0) as [k' [evs' Hloop]];
            rewrite Hloop
        end; reflexivity.
    - cbn [orb] in Hplan.
      destruct (available_channel_in_dict key s Hplan) as [info Hinfo].
      unfold get_channels_from_db. mrun. rewrite Hinfo, Hfile.
      unfold datetime_now; mrun.
      match goal with
      | |- context [notify_admins env ?f ?c ?w0] =>
          destruct (notify_admins_run env f c w0) as [k' [evs' Hloop]];
          rewrite Hloop
      end; reflexivity. }
  unfold count_payments. rewrite Hstore.
  apply submitted_after_proof.
Qed.

Lemma proof_submission_submits_every_pending_row_witness :
  count_payments 42 "vip_content" submitted (store submitted_world) = 1%nat
  /\ count_payments 42 "vip_content" pending (store submitted_world) = 0%nat.
Proof.
  apply (proof_submission_submits_every_pending_row env_ok buyer
           (photo_message "file1") "vip_content" "file1" checkout_world);
    vm_compute; reflexivity.
Defined.

(** ** Approval *)

Lemma unban_attempts_app (a b : list Event) :
  unban_attempts (a ++ b) = (unban_attempts a ++ unban_attempts b)%list.
Proof.
  induction a as [|e a IH]; cbn [app unban_attempts]; [reflexivity|].
  destruct e as [| | |c r|]; try exact IH.
  destruct c; try exact IH. cbn [app]. now rewrite IH.
Qed.

Lemma unban_failures_app (a b : list Event) :
  unban_failures (a ++ b) = (unban_failures a + unban_failures b)%nat.
Proof.
  induction a as [|e a IH]; cbn [app unban_failures]; [reflexivity|].
  destruct e as [| | |c r|]; try exact IH.
  destruct c; try exact IH. destruct r; cbn [Nat.add]; now rewrite IH.
Qed.

Lemma logged_grant_failures_app (a b : list Event) :
  logged_grant_failures (a ++ b)
  = (logged_grant_failures a + logged_grant_failures b)%nat.
Proof.
  induction a as [|e a IH]; cbn [app logged_grant_failures]; [reflexivity|].
  destruct e as [| | | |what e]; try exact IH.
  destruct what; try exact IH. cbn [Nat.add]. now rewrite IH.
Qed.

Lemma get_channels_run (w : World) :
  get_channels_from_db w = (Val (channels_dict (store w)), w).
Proof. reflexivity. Qed.

(** The all-access grant loop: one [unban_chat_member] call per entry of
    the dict, in order, whatever the calls before it did; every call that
    raises is logged; the loop itself never raises and touches neither the
    store nor the sessions. *)
Lemma add_user_to_all_channels_run (env : Env) (uid : Z) :
  forall (chs : dict ChannelInfo) (w : World),
  exists evs,
    add_user_to_all_channels env chs uid w
    = (Val tt, mkWorld (store w) (sessions w) (tick w + List.length chs)%nat
                 (events w ++ evs))
    /\ unban_attempts evs = map (fun kv => (info_channel_id (snd kv), uid)) chs
    /\ logged_grant_failures evs = unban_failures evs.
Proof.
  unfold add_user_to_all_channels.
  induction chs as [|[key info] chs IH]; intros w.
  - exists []. destruct w. cbn [for_each]. mrun. cbn [List.length map].
    now rewrite Nat.add_0_r, app_nil_r.
  - cbn [for_each snd].
    assert (Hstep : exists ev1,
               try_except (bot_unban_chat_member env (info_channel_id info) uid)
                 any_exception
                 (fun e => emit (LogError (FailedToAddUserTo (name info)) e)) w
               = (Val tt, mkWorld (store w) (sessions w) (S (tick w))
                            (events w ++ ev1))
               /\ unban_attempts ev1 = [(info_channel_id info, uid)]
               /\ logged_grant_failures ev1 = unban_failures ev1).
    { unfold bot_unban_chat_member, call_api. mrun.
      destruct (unban_chat_member env _ (info_channel_id info) uid)
        as [[]|kind msg]; mrun.
      - exists [Api (unban_chat_member_call (info_channel_id info) uid) None].
        repeat split.
      - exists [Api (unban_chat_member_call (info_channel_id info) uid)
                  (Some (TelegramError kind msg));
                LogError (FailedToAddUserTo (name info)) (TelegramError kind msg)].
        rewrite <- app_assoc. repeat split. }
    destruct Hstep as [ev1 [Hstep [Hatt1 Hlog1]]].
    rewrite (bind_val _ _ _ _ _ Hstep).
    destruct (IH (mkWorld (store w) (sessions w) (S (tick w)) (events w ++ ev1)))
      as [evs [Hrun [Hatt Hlog]]].
    rewrite Hrun. cbn [store sessions tick events List.length map snd].
    exists (ev1 ++ evs)%list.
    rewrite app_assoc, Nat.add_succ_r, unban_attempts_app,
      logged_grant_failures_app, unban_failures_app, Hatt1, Hatt, Hlog1, Hlog.
    repeat split.
Qed.

Lemma set_invoice_sent_idem (cond : Subscription.row -> bool)
    (l : list Subscription.row) :
  map set_invoice_sent (update_where cond set_invoice_sent l)
  = map set_invoice_sent l.
Proof.
  unfold update_where. rewrite map_map. apply map_ext.
  intros r. destruct (cond r); reflexivity.
Qed.

(** Sending the invoice never raises, makes no membership call, and changes
    nothing in the store but [invoice_sent] flags. *)
Lemma send_invoice_run (env : Env) (uid : Z) (key : string) (w : World) :
  exists subs' k' evs,
    send_invoice_with_links env uid key w
    = (Val tt,
       mkWorld (mkStore (channels (store w)) subs' (pending_payments (store w))
                  (server_plans (store w)))
         (sessions w) k' (events w ++ evs))
    /\ map set_invoice_sent subs' = map set_invoice_sent (subscriptions (store w))
    /\ unban_attempts evs = []
    /\ unban_failures evs = 0%nat
    /\ logged_grant_failures evs = 0%nat.
Proof.
  destruct w as [[chs subs pps plans] ses k evs0].
  unfold send_invoice_with_links, get_channels_from_db, datetime_now,
    bot_send_message, call_api, update_invoice_sent.
  cbn [store channels subscriptions pending_payments server_plans sessions events].
  destruct (String.eqb key "server_premium"); mrun;
    cbn [channels subscriptions pending_payments server_plans].
  - destruct (select_active_server_plan _) as [sp|].
    + destruct (send_message env (S k) uid) as [[]|kind msg].
      * do 3 eexists. split; [reflexivity|].
        rewrite set_invoice_sent_idem. repeat split.
      * do 3 eexists. split; [rewrite <- app_assoc; reflexivity|].
        repeat split.
    + exists subs, k, []. rewrite app_nil_r. repeat split.
  - destruct (dict_get key _) as [info|].
    + destruct (send_message env (S k) uid) as [[]|kind msg].
      * do 3 eexists. split; [reflexivity|].
        rewrite set_invoice_sent_idem. repeat split.
      * do 3 eexists. split; [rewrite <- app_assoc; reflexivity|].
        repeat split.
    + exists subs, k, []. rewrite app_nil_r. repeat split.
Qed.

Lemma available_channel_dict_get (key : string) (s : Store) :
  existsb (fun c => String.eqb (Channel.channel_key c) key)
    (select_active_channels s) = true ->
  exists info, dict_get key (channels_dict s) = Some info.
Proof. exact (available_channel_in_dict key s). Qed.

(** What one run of [/approve] does, for an administrator, a user id
    [int()] accepts and a plan that can be bought. *)
Lemma approve_payment_run (env : Env) (u : User) (a0 key : string)
    (rest : list string) (uid : Z) (w : World) :
  is_admin env (id u) = true ->
  PyNum.parse_int a0 = Some uid ->
  plan_available key (store w) = true ->
  exists subs' k' grant_evs inv_evs plan_name plan_price,
    approve_payment env u (a0 :: key :: rest) w
    = (Val tt,
       mkWorld
         (mkStore (channels (store w)) subs'
            (update_where (payment_matches uid key submitted) (set_status approved)
               (pending_payments (store w)))
            (server_plans (store w)))
         (sessions w) k'
         (events w ++ grant_evs ++ inv_evs
          ++ [Reply (MsgApproved uid plan_name plan_price
                       (now env (tick w) + THIRTY_DAYS))]))
    /\ map set_invoice_sent subs'
       = map set_invoice_sent
           (subscriptions (store w)
            ++ [approved_subscription uid key (now env (S (tick w)))
                  (now env (tick w) + THIRTY_DAYS)])
    /\ unban_attempts grant_evs
       = map (fun i => (info_channel_id i, uid)) (granted_channels key (store w))
    /\ unban_attempts inv_evs = []
    /\ unban_failures inv_evs = 0%nat
    /\ logged_grant_failures inv_evs = 0%nat
    /\ (String.eqb key "server_premium" = true ->
        logged_grant_failures grant_evs = unban_failures grant_evs).
Proof.
  intros Hadmin Hint Hplan.
  destruct w as [[chs subs pps plans] ses k evs].
  unfold plan_available in Hplan. cbn [store] in Hplan.
  unfold approve_payment. rewrite Hadmin. cbn [negb].
  unfold py_index, py_int. cbn [nth_error List.length Nat.ltb Nat.leb].
  mrun. rewrite Hint. mrun.
  unfold granted_channels.
  destruct (String.eqb key "server_premium") eqn:Ekey.
  - apply String.eqb_eq in Ekey. subst key.
    destruct (select_active_server_plan _) as [sp|] eqn:Esp; [|discriminate].
    unfold execute_insert_subscription, insert_subscription, datetime_now,
      update_payment_status.
    mrun. rewrite get_channels_run. mrun.
    match goal with
    | |- context [add_user_to_all_channels env ?d ?x ?w0] =>
        destruct (add_user_to_all_channels_run env x d w0)
          as [gevs [Hloop [Hatt Hlog]]]; rewrite Hloop
    end.
    mrun.
    match goal with
    | |- context [send_invoice_with_links env ?x ?y ?w0] =>
        destruct (send_invoice_run env x y w0)
          as [subs' [k' [ievs [Hinv [Hsubs [Hi1 [Hi2 Hi3]]]]]]]; rewrite Hinv
    end.
    mrun. cbn [channels subscriptions pending_payments server_plans] in *.
    exists subs', k', gevs, ievs, (ServerPlan.plan_name sp), (ServerPlan.price sp).
    rewrite <- !app_assoc.
    split; [reflexivity|].
    split; [exact Hsubs|].
    split; [rewrite Hatt, map_map; reflexivity|].
    repeat split; auto.
  - destruct (available_channel_dict_get key _ Hplan) as [info Hinfo].
    rewrite get_channels_run. mrun.
    cbn [store] in Hinfo.
    rewrite Hinfo.
    unfold execute_insert_subscription, insert_subscription, datetime_now,
      update_payment_status, bot_unban_chat_member, call_api.
    mrun.
    destruct (unban_chat_member env (S (S k)) (info_channel_id info) uid)
      as [[]|kind msg]; mrun;
      match goal with
      | |- context [send_invoice_with_links env ?x ?y ?w0] =>
          destruct (send_invoice_run env x y w0)
            as [subs' [k' [ievs [Hinv [Hsubs [Hi1 [Hi2 Hi3]]]]]]]; rewrite Hinv
      end;
      mrun; cbn [channels subscriptions pending_payments server_plans] in *.
    + exists subs', k',
        [Api (unban_chat_member_call (info_channel_id info) uid) None],
        ievs, (name info), (info_price info).
      rewrite <- !app_assoc.
      split; [reflexivity|]. split; [exact Hsubs|].
      repeat split; auto; discriminate.
    + exists subs', k',
        [Api (unban_chat_member_call (info_channel_id info) uid)
           (Some (TelegramError kind msg));
         LogError FailedToAddUserToChannel (TelegramError kind msg)],
        ievs, (name info), (info_price info).
      rewrite <- !app_assoc.
      split; [reflexivity|]. split; [exact Hsubs|].
      repeat split; auto; discriminate.
Qed.

Lemma channels_dict_unique (s : Store) :
  unique_keys s ->
  channels_dict s
  = map (fun c => (Channel.channel_key c, info_of c)) (select_active_channels s).
Proof.
  intros Hu. unfold channels_dict.
  rewrite dict_of_rows; [reflexivity|].
  cbn [map app]. unfold select_active_channels. now apply active_keys_unique.
Qed.

Lemma map_set_invoice_sent_length (l l' : list Subscription.row) :
  map set_invoice_sent l' = map set_invoice_sent l -> List.length l' = List.length l.
Proof.
  intros H. rewrite <- (length_map set_invoice_sent l'), H. apply length_map.
Qed.

(** The row an approval inserts takes [end_date] from the first reading of
    the clock, plus thirty days, and [start_date] from the next reading. *)
Lemma approve_payment_reads_clock_twice (env : Env) (u : User) (a0 key : string)
    (rest : list string) (uid : Z) (w : World) (d : Subscription.row) :
  is_admin env (id u) = true ->
  PyNum.parse_int a0 = Some uid ->
  plan_available key (store w) = true ->
  let r := last (subscriptions (store (exec (approve_payment env u (a0 :: key :: rest)) w))) d in
  Subscription.user_id r = uid
  /\ Subscription.channel_key r = key
  /\ Subscription.end_date r = now env (tick w) + THIRTY_DAYS
  /\ Subscription.start_date r = now env (S (tick w))
  /\ Subscription.payment_confirmed r = true.
Proof.
  intros Hadmin Hint Hplan r.
  destruct (approve_payment_run env u a0 key rest uid w Hadmin Hint Hplan)
    as [subs' [k' [gevs [ievs [pn [pp [Hrun [Hsubs _]]]]]]]].
  subst r. unfold exec. rewrite Hrun. cbn [snd store subscriptions].
  destruct (exists_last (l := subs')) as [front [r Hr]].
  { intros ->. apply map_set_invoice_sent_length in Hsubs.
    rewrite length_app in Hsubs. cbn in Hsubs. lia. }
  subst subs'. rewrite last_last.
  rewrite !map_app in Hsubs. cbn [map] in Hsubs.
  apply app_inj_tail in Hsubs. destruct Hsubs as [_ Hlast].
  destruct r as [ru rk rs re ra rc ri].
  unfold set_invoice_sent, approved_subscription in Hlast. cbn in Hlast.
  inversion Hlast; subst. cbn. repeat split.
Qed.

(** C1, against the claim: once the payment of user 42 for [vip_content] is
    approved, no PendingPayment of them is submitted; running [/approve]
    again does not fail: it answers with the approval message and adds a
    second Subscription. *)
Lemma approve_retry_adds_second_subscription :
  count_payments 42 "vip_content" submitted (store approved_world) = 0%nat
  /\ count_payments 42 "vip_content" approved (store approved_world) = 1%nat
  /\ List.length (subscriptions (store approved_world)) = 1%nat
  /\ approve_payment env_ok admin ["42"; "vip_content"] approved_world
     = (Val tt, approved_twice_world)
  /\ List.length (subscriptions (store approved_twice_world)) = 2%nat
  /\ last (events approved_twice_world) Answer
     = Reply (MsgApproved 42 "VIP Content" (PyNum.FNum false 200 0) 2592000001008).
Proof. by_evaluation. Qed.

(** C1, as amended: [approve_payment] does not look at the PendingPayment.
    For an administrator, a user id [int()] accepts and SQLite can bind,
    and a plan that can be bought (the active server plan or an active
    channel), it never fails: it
    adds exactly one Subscription, marks every submitted PendingPayment of
    the user and the plan approved (none when there is none) and leaves the
    other rows as they were, and answers with the approval message. *)
Theorem approve_payment_ignores_payment_status :
  forall (env : Env) (u : User) (a0 key : string) (rest : list string)
         (uid : Z) (w : World),
    is_admin env (id u) = true ->
    PyNum.parse_int a0 = Some uid ->
    sqlite_int64 uid = true ->
    plan_available key (store w) = true ->
    let w' := exec (approve_payment env u (a0 :: key :: rest)) w in
    result (approve_payment env u (a0 :: key :: rest)) w = Val tt
    /\ List.length (subscriptions (store w'))
       = S (List.length (subscriptions (store w)))
    /\ pending_payments (store w')
       = map (fun p => if payment_matches uid key submitted p
                       then set_status approved p else p)
           (pending_payments (store w))
    /\ exists plan_name plan_price until,
         last (events w') Answer = Reply (MsgApproved uid plan_name plan_price until).
Proof.
  intros env u a0 key rest uid w Hadmin Hint _ Hplan w'.
  destruct (approve_payment_run env u a0 key rest uid w Hadmin Hint Hplan)
    as [subs' [k' [gevs [ievs [pn [pp [Hrun [Hsubs _]]]]]]]].
  subst w'. unfold exec, result. rewrite Hrun.
  cbn [fst snd store subscriptions pending_payments events].
  split; [reflexivity|].
  split.
  { rewrite (map_set_invoice_sent_length _ _ Hsubs), length_app.
    cbn [List.length]. lia. }
  split; [reflexivity|].
  exists pn, pp, (now env (tick w) + THIRTY_DAYS).
  rewrite !app_assoc. apply last_last.
Qed.

Lemma approve_payment_ignores_payment_status_witness :
  List.length (subscriptions (store approved_twice_world)) = 2%nat.
Proof.
  apply (approve_payment_ignores_payment_status env_ok admin "42" "vip_content"
           [] 42 approved_world); vm_compute; reflexivity.
Defined.

(** C4, at the failing input: the buyer checks out "VIP Content", sends the
    screenshot and the admin approves, with a clock that advances by one
    microsecond per reading.  One Subscription exists, confirmed, but its
    [end_date] is one microsecond short of [start_date] plus thirty days:
    [approve_payment] reads the clock once for [end_date] and again for
    [start_date]. *)
Theorem approved_subscription_is_short_of_thirty_days :
  subscriptions (store approved_world)
  = [Subscription.mk 42 "vip_content" 1004 2592000001003 true true true]
  /\ 2592000001003 = 1004 + THIRTY_DAYS - 1
  /\ 2592000001003 <> 1004 + THIRTY_DAYS.
Proof.
  split; [vm_compute; reflexivity|].
  split; [reflexivity|].
  vm_compute. discriminate.
Qed.

(** C9: approving the server plan for a user id SQLite can bind, with the
    plan active, calls [unban_chat_member] once for every active channel,
    in creation order, whether or not earlier calls raised; every call that
    raised is in the log; the approval goes on to its end: the Subscription
    is added and the admin gets the approval message. *)
Theorem all_access_grant_attempts_every_channel :
  forall (env : Env) (u : User) (a0 : string) (rest : list string)
         (uid : Z) (w : World),
    is_admin env (id u) = true ->
    PyNum.parse_int a0 = Some uid ->
    sqlite_int64 uid = true ->
    select_active_server_plan (store w) <> None ->
    unique_keys (store w) ->
    let w' := exec (approve_payment env u (a0 :: "server_premium" :: rest)) w in
    unban_attempts (events w')
    = (unban_attempts (events w)
       ++ map (fun c => (Channel.channel_id c, uid))
            (select_active_channels (store w)))%list
    /\ (exists failed,
          unban_failures (events w') = (unban_failures (events w) + failed)%nat
          /\ logged_grant_failures (events w')
             = (logged_grant_failures (events w) + failed)%nat)
    /\ result (approve_payment env u (a0 :: "server_premium" :: rest)) w = Val tt
    /\ List.length (subscriptions (store w'))
       = S (List.length (subscriptions (store w)))
    /\ exists plan_name plan_price until,
         last (events w') Answer = Reply (MsgApproved uid plan_name plan_price until).
Proof.
  intros env u a0 rest uid w Hadmin Hint _ Hactive Hu w'.
  assert (Hplan : plan_available "server_premium" (store w) = true).
  { unfold plan_available. cbn [String.eqb Ascii.eqb Bool.eqb andb].
    destruct (select_active_server_plan (store w)); [reflexivity|congruence]. }
  destruct (approve_payment_run env u a0 "server_premium" rest uid w Hadmin Hint Hplan)
    as [subs' [k' [gevs [ievs [pn [pp [Hrun [Hsubs [Hatt [Hi1 [Hi2 [Hi3 Hlog]]]]]]]]]]]].
  specialize (Hlog eq_refl).
  subst w'. unfold exec, result. rewrite Hrun.
  cbn [fst snd store subscriptions events].
  split.
  { rewrite !unban_attempts_app, Hatt, Hi1. cbn [unban_attempts].
    rewrite !app_nil_r. f_equal.
    unfold granted_channels. cbn [String.eqb Ascii.eqb Bool.eqb andb].
    rewrite (channels_dict_unique _ Hu), !map_map. reflexivity. }
  split.
  { exists (unban_failures gevs).
    rewrite !unban_failures_app, !logged_grant_failures_app, Hi2, Hi3, Hlog.
    cbn [unban_failures logged_grant_failures]. split; lia. }
  split; [reflexivity|].
  split.
  { rewrite (map_set_invoice_sent_length _ _ Hsubs), length_app.
    cbn [List.length]. lia. }
  exists pn, pp, (now env (tick w) + THIRTY_DAYS).
  rewrite !app_assoc. apply last_last.
Qed.

Lemma all_access_grant_attempts_every_channel_witness :
  unban_attempts
    (events (exec (approve_payment env_flaky admin ["42"; "server_premium"])
               all_access_submitted_world))
  = [(-1001, 42); (-1002, 42)].
Proof.
  apply (all_access_grant_attempts_every_channel env_flaky admin "42" [] 42
           all_access_submitted_world).
  - vm_compute. reflexivity.
  - vm_compute. reflexivity.
  - vm_compute. reflexivity.
  - vm_compute. discriminate.
  - unfold unique_keys. vm_compute.
    repeat constructor; cbn; intuition discriminate.
Defined.

(** The trace of that approval: the grant for "VIP Content" raises and is
    logged, the grant for "News" is made all the same, and the invoice and
    the approval message follow. *)
Example all_access_approval_with_a_failing_grant :
  events (exec (approve_payment env_flaky admin ["42"; "server_premium"])
            (with_events all_access_submitted_world []))
  = [Api (unban_chat_member_call (-1001) 42)
       (Some (TelegramError BadRequest "Chat not found"));
     LogError (FailedToAddUserTo "VIP Content") (TelegramError BadRequest "Chat not found");
     Api (unban_chat_member_call (-1002) 42) None;
     Api (send_message_call 42
            (MsgInvoiceServer "Server Premium" (PyNum.FNum false 599 0) 2592000001007
               [("VIP Content", "https://t.me/+invite"); ("News", "https://t.me/+invite")]))
       None;
     Reply (MsgApproved 42 "Server Premium" (PyNum.FNum false 599 0) 2592000001003)].
Proof. by_evaluation. Qed.

(** * Further properties of the handlers *)

(** ** Refused decisions *)

Lemma unavailable_channel_not_in_dict (key : string) (s : Store) :
  existsb (fun c => String.eqb (Channel.channel_key c) key)
    (select_active_channels s) = false ->
  dict_get key (channels_dict s) = None.
Proof.
  intros Hex.
  pose proof (dict_mem_channels key (select_active_channels s) []) as Hmem.
  rewrite Hex in Hmem. cbn in Hmem. unfold dict_mem in Hmem.
  unfold channels_dict. destruct (dict_get key _); [discriminate|reflexivity].
Qed.





(** ** Checkout *)

Lemma dict_get_rows (key : string) (rows : list Channel.row) :
  dict_get key (map (fun c => (Channel.channel_key c, info_of c)) rows)
  = option_map info_of
      (find (fun c => String.eqb (Channel.channel_key c) key) rows).
Proof.
  induction rows as [|c rows IH]; cbn [map dict_get find]; [reflexivity|].
  rewrite String.eqb_sym.
  destruct (String.eqb (Channel.channel_key c) key); [reflexivity|exact IH].
Qed.

Lemma purchase_routing (key : string) :
  String.eqb ("purchase_" ++ key) "show_plans" = false
  /\ PyStr.startswith "plan_" ("purchase_" ++ key) = false
  /\ PyStr.startswith "purchase_" ("purchase_" ++ key) = true.
Proof.
  split; [reflexivity|]. split; [reflexivity|].
  unfold PyStr.startswith. cbn [append String.prefix].
  repeat (destruct (ascii_dec _ _) as [_|Hne]; [|now elim Hne]).
  destruct key; reflexivity.
Qed.

(** X3: the purchase button of an active channel whose key is not
    [server_premium] checks out that channel, whatever underscores the key
    has: one PendingPayment is appended for the presser and the key,
    pending, without proof, with the channel's current price and the time
    of the call; the key is recorded as the plan awaited; the payment
    instructions are shown.  The key [server_premium], which a channel
    named "Server Premium" gets, is excluded: its purchase button is that
    of the server plan. *)
Theorem purchase_callback_checks_out_channel :
  forall (env : Env) (u : User) (key : string) (c : Channel.row) (w : World),
    unique_keys (store w) ->
    String.eqb key "server_premium" = false ->
    find (fun c => String.eqb (Channel.channel_key c) key)
      (select_active_channels (store w)) = Some c ->
    button_callback env u ("purchase_" ++ key) w
    = (Val tt,
       mkWorld
         (mkStore (channels (store w)) (subscriptions (store w))
            (pending_payments (store w)
             ++ [PendingPayment.mk (id u) key (Channel.price c) None
                   (now env (tick w)) pending])
            (server_plans (store w)))
         (update_session (sessions w) (id u)
            (mkUserData (channel_name (sessions w (id u)))
               (channel_price (sessions w (id u)))
               (channel_demo (sessions w (id u))) (Some key)))
         (S (tick w))
         (events w
          ++ [Answer; Edit (MsgPurchase (Channel.channel_name c) (Channel.price c))])).
Proof.
  intros env u key c w Hu Hkey Hfind.
  destruct (purchase_routing key) as [R1 [R2 R3]].
  unfold button_callback. mrun. rewrite R1, R2, R3.
  unfold initiate_purchase, py_index. rewrite split_max_recovers_key.
  mrun. rewrite Hkey. rewrite get_channels_run. mrun.
  destruct w as [s ses k evs]. cbn [store] in *.
  rewrite (channels_dict_unique _ Hu), dict_get_rows, Hfind.
  cbn [option_map]. unfold execute_insert_pending_payment, datetime_now,
    insert_pending_payment.
  mrun. rewrite <- app_assoc. reflexivity.
Qed.

Lemma purchase_callback_checks_out_channel_witness :
  count_payments 42 "vip_content" pending
    (store (exec (button_callback env_ok buyer ("purchase_" ++ "vip_content")) vip_start))
  = 1%nat.
Proof.
  unfold exec.
  rewrite (purchase_callback_checks_out_channel env_ok buyer "vip_content"
             (Channel.mk "vip_content" "VIP Content" (-1001) (PyNum.FNum false 200 0)
                EmptyString "https://t.me/+invite" true 1002 1) vip_start).
  - vm_compute. reflexivity.
  - unfold unique_keys. vm_compute. constructor; [intros []|constructor].
  - reflexivity.
  - vm_compute. reflexivity.
Defined.

(** X4: the purchase button of the server plan, when that plan is active,
    appends one PendingPayment with the key [server_premium] and the plan's
    price and records [server_premium] as the plan awaited. *)
Theorem purchase_callback_checks_out_server_plan :
  forall (env : Env) (u : User) (sp : ServerPlan.row) (w : World),
    select_active_server_plan (store w) = Some sp ->
    button_callback env u "purchase_server_premium" w
    = (Val tt,
       mkWorld
         (mkStore (channels (store w)) (subscriptions (store w))
            (pending_payments (store w)
             ++ [PendingPayment.mk (id u) "server_premium" (ServerPlan.price sp) None
                   (now env (tick w)) pending])
            (server_plans (store w)))
         (update_session (sessions w) (id u)
            (mkUserData (channel_name (sessions w (id u)))
               (channel_price (sessions w (id u)))
               (channel_demo (sessions w (id u))) (Some "server_premium")))
         (S (tick w))
         (events w
          ++ [Answer; Edit (MsgPurchase (ServerPlan.plan_name sp) (ServerPlan.price sp))])).
Proof.
  intros env u sp w Hsp.
  destruct w as [s ses k evs]. cbn [store] in *.
  unfold button_callback. mrun.
  change (String.eqb "purchase_server_premium" "show_plans") with false.
  change (PyStr.startswith "plan_" "purchase_server_premium") with false.
  change (PyStr.startswith "purchase_" "purchase_server_premium") with true.
  cbv iota.
  unfold initiate_purchase, py_index.
  change (nth_error (PyStr.split_max "_" 1 "purchase_server_premium") 1)
    with (Some "server_premium").
  mrun.
  change (String.eqb "server_premium" "server_premium") with true. mrun.
  rewrite Hsp.
  unfold execute_insert_pending_payment, datetime_now, insert_pending_payment.
  mrun. rewrite <- app_assoc. reflexivity.
Qed.

Lemma purchase_callback_checks_out_server_plan_witness :
  count_payments 42 "server_premium" pending
    (store (exec (button_callback env_ok buyer "purchase_server_premium") vip_start))
  = 1%nat.
Proof.
  unfold exec.
  rewrite (purchase_callback_checks_out_server_plan env_ok buyer
             (ServerPlan.mk "Server Premium" (PyNum.FNum false 599 0) "[]" true 0)
             vip_start).
  - vm_compute. reflexivity.
  - vm_compute. reflexivity.
Defined.

(** X5: a purchase callback for a plan that cannot be bought creates no
    PendingPayment and records no awaited plan.  For a channel key the
    buyer is told the plan is no longer available; for the server plan,
    when no server plan is active, the handler ends with an uncaught
    [UnboundLocalError]: [plan_name] was never assigned. *)
Theorem purchase_callback_of_unavailable_plan :
  forall (env : Env) (u : User) (key : string) (w : World),
    plan_available key (store w) = false ->
    button_callback env u ("purchase_" ++ key) w
    = if String.eqb key "server_premium"
      then (Exc (UnboundLocalError "plan_name"),
            with_events w (events w ++ [Answer]))
      else (Val tt,
            with_events w (events w ++ [Answer; Edit MsgPlanUnavailable])).
Proof.
  intros env u key w Hplan.
  destruct (purchase_routing key) as [R1 [R2 R3]].
  unfold button_callback. mrun. rewrite R1, R2, R3.
  unfold initiate_purchase, py_index. rewrite split_max_recovers_key.
  mrun. unfold plan_available in Hplan.
  destruct w as [s ses k evs]. cbn [store] in *. unfold with_events.
  destruct (String.eqb key "server_premium").
  - destruct (select_active_server_plan s); [discriminate|]. reflexivity.
  - rewrite get_channels_run. mrun.
    rewrite (unavailable_channel_not_in_dict key _ Hplan).
    mrun. rewrite <- app_assoc. reflexivity.
Qed.

Lemma purchase_callback_of_unavailable_plan_witness :
  button_callback env_ok buyer ("purchase_" ++ "gold") vip_start
  = (Val tt, with_events vip_start (events vip_start ++ [Answer; Edit MsgPlanUnavailable])).
Proof.
  apply (purchase_callback_of_unavailable_plan env_ok buyer "gold" vip_start).
  vm_compute. reflexivity.
Defined.

(** ** Browsing *)

Lemma split_without_separator (sep : ascii) (s : string) :
  PyStr.contains sep s = false -> PyStr.split sep s = [s].
Proof.
  induction s as [|c s IH]; cbn [PyStr.contains PyStr.split]; intros Hno;
    [reflexivity|].
  apply orb_false_iff in Hno. destruct Hno as [Hc Hs].
  rewrite Hc, (IH Hs). reflexivity.
Qed.

Lemma split_never_empty (sep : ascii) (s : string) :
  exists h t, PyStr.split sep s = h :: t.
Proof.
  induction s as [|c s [h [t IH]]]; cbn [PyStr.split].
  - now exists EmptyString, [].
  - destruct (Ascii.eqb c sep); [now do 2 eexists|].
    rewrite IH. now do 2 eexists.
Qed.

(** X6: the two browsing handlers only read.  Whatever the update,
    [show_plans] and [plan_selected] leave the store, the sessions and the
    clock position as they were; they add no row and record nothing. *)
Theorem browsing_changes_nothing :
  forall (u : User) (upd : Update) (data : string) (w : World),
    (store (exec (show_plans upd) w) = store w
     /\ sessions (exec (show_plans upd) w) = sessions w
     /\ tick (exec (show_plans upd) w) = tick w)
    /\ (store (exec (plan_selected u data) w) = store w
        /\ sessions (exec (plan_selected u data) w) = sessions w
        /\ tick (exec (plan_selected u data) w) = tick w).
Proof.
  intros u upd data w. destruct w as [s ses k evs]. split.
  - unfold show_plans, exec. rewrite (bind_val _ _ _ _ _ (get_channels_run _)).
    destruct (channels_dict _) as [|kv chs].
    + destruct upd; cbn; repeat split.
    + unfold get_store. unfold bind at 1.
      rewrite (bind_val _ _ _ _ _ (get_plans_keyboard_in_event_loop _)).
      destruct upd; cbn; repeat split.
  - unfold plan_selected, py_index, exec.
    destruct (nth_error (PyStr.split "_" data) 1) as [plan_key|]; mrun;
      [|repeat split].
    destruct (String.eqb plan_key "server" && _)%bool; mrun.
    + destruct (select_active_server_plan s); repeat split.
    + rewrite get_channels_run. mrun.
      destruct (dict_get plan_key _); repeat split.
Qed.

(** X7: a plan callback whose key begins with [server_] never reaches a
    channel: [plan_selected] sees the token [server] followed by more tokens
    and shows the server plan, with the purchase button of the server plan,
    even when a channel with that key is active. *)
Theorem plan_callback_with_server_prefix_shows_server_plan :
  forall (u : User) (suffix : string) (sp : ServerPlan.row) (w : World),
    select_active_server_plan (store w) = Some sp ->
    plan_selected u ("plan_server_" ++ suffix) w
    = (Val tt,
       with_events w
         (events w
          ++ [Edit (MsgServerPlanDetails (ServerPlan.plan_name sp) (ServerPlan.price sp)
                      [[CallbackButton (LabelPurchase (ServerPlan.plan_name sp))
                          "purchase_server_premium"];
                       [CallbackButton LabelBackToPlans "show_plans"]])])).
Proof.
  intros u suffix sp w Hsp.
  destruct w as [s ses k evs]. cbn [store] in Hsp.
  unfold plan_selected, py_index, with_events.
  change ("plan_server_" ++ suffix)
    with ("plan" ++ String "_" ("server" ++ String "_" suffix)).
  rewrite (split_at_first_separator "_" "plan") by reflexivity.
  rewrite (split_at_first_separator "_" "server") by reflexivity.
  destruct (split_never_empty "_" suffix) as [h [t Hsplit]]. rewrite Hsplit.
  cbn [nth_error List.length Nat.ltb Nat.leb]. mrun.
  change (String.eqb "server" "server") with true. cbn [andb]. mrun.
  rewrite Hsp. reflexivity.
Qed.

Lemma plan_callback_with_server_prefix_shows_server_plan_witness :
  exists kb,
    events (exec (plan_selected buyer ("plan_server_" ++ "tips")) vip_start)
    = [Edit (MsgServerPlanDetails "Server Premium" (PyNum.FNum false 599 0) kb)].
Proof.
  eexists. unfold exec.
  rewrite (plan_callback_with_server_prefix_shows_server_plan buyer "tips"
             (ServerPlan.mk "Server Premium" (PyNum.FNum false 599 0) "[]" true 0)
             vip_start).
  - vm_compute. reflexivity.
  - vm_compute. reflexivity.
Defined.

(** X8: the plan callback of an active channel whose key has no underscore
    shows that channel, with a purchase button that carries
    [purchase_<key>], a demo button when the channel has a demo link, and
    the way back to the plans. *)
Theorem plan_callback_without_underscore_shows_channel :
  forall (u : User) (key : string) (c : Channel.row) (w : World),
    unique_keys (store w) ->
    PyStr.contains "_" key = false ->
    find (fun c => String.eqb (Channel.channel_key c) key)
      (select_active_channels (store w)) = Some c ->
    plan_selected u ("plan_" ++ key) w
    = (Val tt,
       with_events w
         (events w
          ++ [Edit (MsgPlanDetails (Channel.channel_name c) (Channel.price c)
                      ([CallbackButton (LabelPurchase (Channel.channel_name c))
                          ("purchase_" ++ key)]
                       :: (if PyStr.truthy (Channel.demo_link c)
                           then [[UrlButton LabelViewDemo (Channel.demo_link c)]]
                           else [])
                       ++ [[CallbackButton LabelBackToPlans "show_plans"]])%list)])).
Proof.
  intros u key c w Hu Hno Hfind.
  destruct w as [s ses k evs]. cbn [store] in *.
  unfold plan_selected, py_index, with_events.
  change ("plan_" ++ key) with ("plan" ++ String "_" key).
  rewrite (split_at_first_separator "_" "plan") by reflexivity.
  rewrite (split_without_separator "_" key Hno).
  cbn [nth_error List.length Nat.ltb Nat.leb]. mrun. rewrite andb_false_r.
  rewrite get_channels_run. mrun.
  rewrite (channels_dict_unique _ Hu), dict_get_rows, Hfind.
  cbn [option_map info_of name info_price info_demo_link].
  destruct (PyStr.truthy (Channel.demo_link c)); reflexivity.
Qed.

Lemma plan_callback_without_underscore_shows_channel_witness :
  exists kb,
    events (exec (plan_selected buyer ("plan_" ++ "news")) two_channels_world)
    = [Edit (MsgPlanDetails "News" (PyNum.FNum false 100 0) kb)].
Proof.
  eexists. unfold exec.
  rewrite (plan_callback_without_underscore_shows_channel buyer "news"
             (Channel.mk "news" "News" (-1002) (PyNum.FNum false 100 0)
                EmptyString "https://t.me/+invite" true 1002 1) two_channels_world).
  - vm_compute. reflexivity.
  - unfold unique_keys. vm_compute.
    repeat constructor; cbn; intuition discriminate.
  - reflexivity.
  - vm_compute. reflexivity.
Defined.

(** ** Proof submission *)

Lemma update_where_nothing {A} (f : A -> A) (l : list A) :
  update_where (fun _ => false) f l = l.
Proof. unfold update_where. induction l as [|a l IH]; cbn; congruence. Qed.

Lemma payment_matches_fields (uid : Z) (key : string) (st : Status)
    (p : PendingPayment.row) :
  payment_matches uid key st p = true ->
  PendingPayment.user_id p = uid
  /\ PendingPayment.channel_key p = key
  /\ PendingPayment.status p = st.
Proof.
  unfold payment_matches. intros H.
  apply andb_true_iff in H. destruct H as [H Hst].
  apply andb_true_iff in H. destruct H as [Hu Hk].
  apply Z.eqb_eq in Hu. apply String.eqb_eq in Hk.
  repeat split; try assumption.
  destruct (PendingPayment.status p), st; (discriminate || reflexivity).
Qed.

(** The store [handle_payment_proof] leaves: the one it found, or that one
    after the UPDATE for the plan recorded in the session. *)
Lemma handle_payment_proof_store (env : Env) (u : User) (m : Message) (w : World) :
  store (exec (handle_payment_proof env u m) w) = store w
  \/ exists key file,
       awaiting_payment (sessions w (id u)) = Some key
       /\ store (exec (handle_payment_proof env u m) w)
          = update_payment_submitted file (id u) key (store w).
Proof.
  destruct w as [s ses k evs].
  unfold handle_payment_proof, exec. mrun.
  destruct (awaiting_payment (ses (id u))) as [key|] eqn:Hmark;
    [|left; reflexivity].
  destruct (String.eqb key "server_premium").
  - destruct (select_active_server_plan s) as [sp|];
      (destruct (truthy_file_id (proof_file_id m)) as [file|];
       [|left; reflexivity]);
      unfold datetime_now; mrun;
      match goal with
      | |- context [notify_admins env ?f ?c ?w0] =>
          destruct (notify_admins_run env f c w0) as [k' [evs' Hloop]];
          rewrite Hloop
      end; right; exists key, file; split; reflexivity.
  - rewrite get_channels_run. mrun.
    destruct (dict_get key _) as [info|]; [|left; reflexivity].
    destruct (truthy_file_id (proof_file_id m)) as [file|];
      [|left; reflexivity].
    unfold datetime_now; mrun.
    match goal with
    | |- context [notify_admins env ?f ?c ?w0] =>
        destruct (notify_admins_run env f c w0) as [k' [evs' Hloop]];
        rewrite Hloop
    end. right; exists key, file; split; reflexivity.
Qed.

(** X9: whatever it is sent, [handle_payment_proof] adds and removes no
    row and leaves channels, subscriptions and server plans alone.  The only
    rows it can change are the sender's own pending payments for the plan
    recorded in the sender's session, and of those only the proof and the
    status: every other PendingPayment is as it was. *)
Theorem handle_payment_proof_touches_only_own_pending_rows :
  forall (env : Env) (u : User) (m : Message) (w : World),
    let w' := exec (handle_payment_proof env u m) w in
    channels (store w') = channels (store w)
    /\ subscriptions (store w') = subscriptions (store w)
    /\ server_plans (store w') = server_plans (store w)
    /\ exists (touched : PendingPayment.row -> bool) (file : string),
         pending_payments (store w')
         = map (fun p => if touched p then set_proof file p else p)
             (pending_payments (store w))
         /\ forall p, touched p = true ->
              PendingPayment.user_id p = id u
              /\ PendingPayment.status p = pending
              /\ awaiting_payment (sessions w (id u))
                 = Some (PendingPayment.channel_key p).
Proof.
  intros env u m w w'. subst w'.
  destruct (handle_payment_proof_store env u m w) as [Hs|[key [file [Hmark Hs]]]];
    rewrite Hs.
  - repeat split.
    exists (fun _ => false), EmptyString. split; [|discriminate].
    symmetry. apply (update_where_nothing (set_proof EmptyString)).
  - repeat split.
    exists (payment_matches (id u) key pending), file. split; [reflexivity|].
    intros p Hp. apply payment_matches_fields in Hp.
    destruct Hp as [Hpu [Hpk Hps]]. rewrite Hmark, Hpk. repeat split; assumption.
Qed.

Lemma photo_attempts_app (a b : list Event) :
  photo_attempts (a ++ b) = (photo_attempts a ++ photo_attempts b)%list.
Proof.
  induction a as [|e a IH]; cbn [app photo_attempts]; [reflexivity|].
  destruct e as [| | |c r|]; try exact IH.
  destruct c; try exact IH. cbn [app]. now rewrite IH.
Qed.

(** The loop over the admins sends the proof to each of them once, in the
    order of [ADMIN_IDS], whether or not an earlier send raised. *)
Lemma notify_admins_attempts (env : Env) (file : string) (caption : Msg) :
  forall (admins : list Z) (w : World),
  exists evs,
    for_each admins
      (fun admin_id =>
         try_except (bot_send_photo env admin_id file caption) any_exception
           (fun e => emit (LogError (FailedToNotifyAdmin admin_id) e))) w
    = (Val tt, mkWorld (store w) (sessions w) (tick w + List.length admins)%nat
                 (events w ++ evs))
    /\ photo_attempts evs = map (fun a => (a, file)) admins.
Proof.
  induction admins as [|a admins IH]; intros w.
  - exists []. destruct w. cbn [for_each]. mrun. cbn [List.length map photo_attempts].
    now rewrite Nat.add_0_r, app_nil_r.
  - cbn [for_each].
    assert (Hstep : exists ev1,
               try_except (bot_send_photo env a file caption) any_exception
                 (fun e => emit (LogError (FailedToNotifyAdmin a) e)) w
               = (Val tt, mkWorld (store w) (sessions w) (S (tick w))
                            (events w ++ ev1))
               /\ photo_attempts ev1 = [(a, file)]).
    { unfold bot_send_photo, call_api. mrun.
      destruct (send_photo env _ a) as [[]|kind msg]; mrun.
      - exists [Api (send_photo_call a file caption) None]. now split.
      - exists [Api (send_photo_call a file caption) (Some (TelegramError kind msg));
                LogError (FailedToNotifyAdmin a) (TelegramError kind msg)].
        rewrite <- app_assoc. now split. }
    destruct Hstep as [ev1 [Hstep Hatt1]]. rewrite (bind_val _ _ _ _ _ Hstep).
    destruct (IH (mkWorld (store w) (sessions w) (S (tick w)) (events w ++ ev1)))
      as [evs [Hevs Hatt]].
    rewrite Hevs. cbn [store sessions tick events List.length map].
    exists (ev1 ++ evs)%list.
    rewrite app_assoc, Nat.add_succ_r, photo_attempts_app, Hatt1, Hatt.
    now split.
Qed.

(** X10: an accepted proof (a plan is awaited, it is the server plan or an
    active channel, and the message carries a file) is acknowledged to the
    buyer and then sent to every administrator of [ADMIN_IDS], once each and
    in order, also when sending to one of them raises; the handler does not
    raise, and the awaited plan is cleared from the session while the other
    session fields stay. *)
Theorem accepted_proof_reaches_every_admin :
  forall (env : Env) (u : User) (m : Message) (key file : string) (w : World),
    awaiting_payment (sessions w (id u)) = Some key ->
    String.eqb key "server_premium" || plan_available key (store w) = true ->
    truthy_file_id (proof_file_id m) = Some file ->
    let w' := exec (handle_payment_proof env u m) w in
    result (handle_payment_proof env u m) w = Val tt
    /\ (exists evs,
          events w' = (events w ++ Reply MsgProofSubmitted :: evs)%list
          /\ photo_attempts evs = map (fun a => (a, file)) (ADMIN_IDS env))
    /\ sessions w' (id u)
       = mkUserData (channel_name (sessions w (id u)))
           (channel_price (sessions w (id u)))
           (channel_demo (sessions w (id u))) None.
Proof.
  intros env u m key file w Hmark Hplan Hfile w'. subst w'.
  destruct w as [s ses k evs]. cbn [sessions store events] in *.
  unfold handle_payment_proof, exec, result. mrun. rewrite Hmark.
  unfold plan_available in Hplan.
  assert (Hend : forall (pn : string) (pp : PyNum.pyfloat),
             exists evs',
               notify_admins env file
                 (MsgAdminNotice (first_name u) (id u) (username u) pn pp
                    (now env k) key)
                 (mkWorld (update_payment_submitted file (id u) key s) ses (S k)
                    (evs ++ [Reply MsgProofSubmitted]))
               = (Val tt,
                  mkWorld (update_payment_submitted file (id u) key s) ses
                    (S k + List.length (ADMIN_IDS env))%nat
                    ((evs ++ [Reply MsgProofSubmitted]) ++ evs'))
               /\ photo_attempts evs' = map (fun a => (a, file)) (ADMIN_IDS env)).
  { intros pn pp. unfold notify_admins.
    destruct (notify_admins_attempts env file
                (MsgAdminNotice (first_name u) (id u) (username u) pn pp (now env k) key)
                (ADMIN_IDS env)
                (mkWorld (update_payment_submitted file (id u) key s) ses (S k)
                   (evs ++ [Reply MsgProofSubmitted]))) as [evs' [Hrun Hatt]].
    exists evs'. split; [exact Hrun|exact Hatt]. }
  destruct (String.eqb key "server_premium") eqn:Ekey.
  - destruct (select_active_server_plan s) as [sp|]; rewrite Hfile;
      unfold datetime_now; mrun;
      match goal with
      | |- context [notify_admins env file (MsgAdminNotice _ _ _ ?pn ?pp _ _) _] =>
          destruct (Hend pn pp) as [evs' [Hrun Hatt]]
      end;
      rewrite Hrun; mrun; rewrite update_session_same;
      (split; [reflexivity|]); (split; [|reflexivity]);
      exists evs'; rewrite <- app_assoc; (split; [reflexivity|exact Hatt]).
  - cbn [orb] in Hplan.
    destruct (available_channel_dict_get key s Hplan) as [info Hinfo].
    rewrite get_channels_run. mrun. rewrite Hinfo, Hfile.
    unfold datetime_now; mrun.
    destruct (Hend (name info) (info_price info)) as [evs' [Hrun Hatt]].
    rewrite Hrun; mrun; rewrite update_session_same.
    split; [reflexivity|]. split; [|reflexivity].
    exists evs'. rewrite <- app_assoc. split; [reflexivity|exact Hatt].
Qed.

Lemma accepted_proof_reaches_every_admin_witness :
  sessions submitted_world 42 = mkUserData None None None None.
Proof.
  apply (accepted_proof_reaches_every_admin env_ok buyer (photo_message "file1")
           "vip_content" "file1" checkout_world); vm_compute; reflexivity.
Defined.

(** X11: a proof that is not accepted changes no row and notifies no
    administrator.  When the awaited plan is a channel that is no longer
    active the buyer is told the plan is invalid; when the message carries
    no usable file nothing at all happens.  In both cases the awaited plan
    stays in the session. *)
Theorem refused_proof_changes_nothing :
  forall (env : Env) (u : User) (m : Message) (key : string) (w : World),
    awaiting_payment (sessions w (id u)) = Some key ->
    (String.eqb key "server_premium" || plan_available key (store w) = false ->
     handle_payment_proof env u m w
     = (Val tt, with_events w (events w ++ [Reply MsgInvalidPlan])))
    /\ (String.eqb key "server_premium" || plan_available key (store w) = true ->
        truthy_file_id (proof_file_id m) = None ->
        handle_payment_proof env u m w = (Val tt, w)).
Proof.
  intros env u m key w Hmark.
  destruct w as [s ses k evs]. cbn [sessions store events] in *.
  unfold handle_payment_proof, with_events, plan_available. mrun. rewrite Hmark.
  destruct (String.eqb key "server_premium"); cbn [orb]; split.
  - discriminate.
  - intros _ Hfile. destruct (select_active_server_plan s); rewrite Hfile; reflexivity.
  - intros Hgone. rewrite get_channels_run. mrun.
    now rewrite (unavailable_channel_not_in_dict key _ Hgone).
  - intros Hthere Hfile.
    destruct (available_channel_dict_get key s Hthere) as [info Hinfo].
    rewrite get_channels_run. mrun. now rewrite Hinfo, Hfile.
Qed.

Lemma refused_proof_changes_nothing_witness :
  handle_payment_proof env_ok buyer (text_message "hello") checkout_world
  = (Val tt, checkout_world).
Proof.
  apply (refused_proof_changes_nothing env_ok buyer (text_message "hello")
           "vip_content" checkout_world); vm_compute; reflexivity.
Defined.

(** ** The invoice *)

(** X12: [send_invoice_with_links] marks [invoice_sent] only after the
    message went out.  For a plan that can be bought, the active
    subscriptions of the user and the plan are flagged when [send_message]
    returns, and when it raises the store stays as it was and the failure is
    logged; for any other plan nothing is sent and nothing changes. *)
Theorem invoice_sent_only_after_send :
  forall (env : Env) (uid : Z) (key : string) (w : World),
    let w' := exec (send_invoice_with_links env uid key) w in
    if plan_available key (store w) then
      match send_message env (S (tick w)) uid with
      | Returned _ =>
          store w' = update_invoice_sent uid key (store w)
          /\ exists inv,
               events w' = (events w ++ [Api (send_message_call uid inv) None])%list
      | Failed kind text =>
          store w' = store w
          /\ exists inv,
               events w'
               = (events w
                  ++ [Api (send_message_call uid inv) (Some (TelegramError kind text));
                      LogError (FailedToSendInvoice uid) (TelegramError kind text)])%list
      end
    else send_invoice_with_links env uid key w = (Val tt, w).
Proof.
  intros env uid key w w'. subst w'.
  destruct w as [s ses k evs]. cbn [store tick events].
  unfold plan_available, send_invoice_with_links, exec, get_channels_from_db,
    bot_send_message, call_api, datetime_now, update_invoice_sent.
  destruct (String.eqb key "server_premium"); mrun.
  - destruct (select_active_server_plan s) as [sp|]; [|reflexivity].
    destruct (send_message env (S k) uid) as [[]|kind text].
    + split; [reflexivity|]. eexists. reflexivity.
    + split; [reflexivity|]. eexists. rewrite <- app_assoc. reflexivity.
  - destruct (existsb _ _) eqn:Hex.
    + destruct (available_channel_in_dict key s Hex) as [info Hinfo].
      rewrite Hinfo.
      destruct (send_message env (S k) uid) as [[]|kind text].
      * split; [reflexivity|]. eexists. reflexivity.
      * split; [reflexivity|]. eexists. rewrite <- app_assoc. reflexivity.
    + pose proof (unavailable_channel_not_in_dict key s Hex) as Hnone.
      unfold channels_dict in Hnone. rewrite Hnone. reflexivity.
Qed.

(** ** The forwarded message of the onboarding dialogue *)

(** X13: a forwarded message that is turned down leaves the dialogue where
    it is: the handler answers with the reason, returns [CHANNEL_FORWARD],
    creates no channel and keeps the collected name, price and demo link, so
    that the admin can forward again.  An error of the membership query
    other than [BadRequest] and [Forbidden] is not caught: it leaves the
    handler as an exception, again without any change. *)
Theorem rejected_forward_keeps_the_dialogue :
  forall (env : Env) (u : User) (m : Message) (w : World),
    let w' := exec (add_channel_forward env u m) w in
    (forward_rejected env (tick w) m = true ->
     result (add_channel_forward env u m) w = Val CHANNEL_FORWARD
     /\ store w' = store w
     /\ sessions w' = sessions w
     /\ (last (events w') Answer = Reply MsgForwardFromChannel
         \/ last (events w') Answer = Reply MsgNeedAdmin
         \/ last (events w') Answer = Reply MsgCannotAccess
         \/ exists e, last (events w') Answer = Reply (MsgInviteFailed e)))
    /\ (forall chat text,
          forward_from_chat m = Some chat ->
          get_chat_member env (tick w) chat (bot_id env)
          = Failed OtherTelegramError text ->
          result (add_channel_forward env u m) w
          = Exc (TelegramError OtherTelegramError text)
          /\ store w' = store w
          /\ sessions w' = sessions w).
Proof.
  intros env u m w w'. subst w'.
  destruct w as [s ses k evs]. cbn [tick store sessions].
  unfold forward_rejected, add_channel_forward, exec, result.
  destruct (forward_from_chat m) as [chat|].
  2: { split; [|discriminate]. intros _. mrun. rewrite last_last. tauto. }
  unfold bot_get_chat_member, bot_create_chat_invite_link, call_api. mrun.
  split.
  - destruct (get_chat_member env k chat (bot_id env)) as [status|kind text].
    + destruct status; mrun;
        try (intros _; rewrite last_last; repeat split; tauto).
      destruct (create_chat_invite_link env (S k) chat) as [url|kind text];
        [discriminate|]. intros _. mrun. rewrite last_last.
      repeat split. right. right. right. now eexists.
    + destruct kind; mrun; try discriminate;
        intros _; rewrite last_last; repeat split; tauto.
  - intros chat' text Hchat Hfail. injection Hchat as <-.
    rewrite Hfail. mrun. repeat split.
Qed.

Lemma rejected_forward_keeps_the_dialogue_witness :
  result (add_channel_forward env_ok admin (text_message "hello")) vip_start
  = Val CHANNEL_FORWARD.
Proof.
  apply (rejected_forward_keeps_the_dialogue env_ok admin (text_message "hello")
           vip_start).
  vm_compute. reflexivity.
Defined.

(** Every way [add_channel_forward] can end. *)
Lemma add_channel_forward_cases (env : Env) (u : User) (m : Message) (w : World) :
  let o := result (add_channel_forward env u m) w in
  let w' := exec (add_channel_forward env u m) w in
  subscriptions (store w') = subscriptions (store w)
  /\ pending_payments (store w') = pending_payments (store w)
  /\ server_plans (store w') = server_plans (store w)
  /\ (channels (store w') = channels (store w)
      \/ exists r,
           existsb (fun c => String.eqb (Channel.channel_key c) (Channel.channel_key r))
             (channels (store w)) = false
           /\ channels (store w') = (channels (store w) ++ [r])%list)
  /\ (forall v, v <> id u -> sessions w' v = sessions w v)
  /\ (o = Val END -> sessions w' (id u) = user_data_clear).
Proof.
  destruct w as [s ses k evs]. cbn zeta.
  unfold add_channel_forward, exec, result.
  assert (Hother : forall v, v <> id u ->
                     update_session ses (id u) user_data_clear v = ses v).
  { intros v Hv. unfold update_session.
    destruct (Z.eqb_spec v (id u)); [contradiction|reflexivity]. }
  destruct (forward_from_chat m) as [chat|];
    [|mrun; repeat split; (tauto || discriminate)].
  unfold bot_get_chat_member, bot_create_chat_invite_link, call_api. mrun.
  destruct (get_chat_member env k chat (bot_id env)) as [status|kind text].
  2: { destruct kind; mrun; repeat split; (tauto || discriminate). }
  destruct status; mrun; try (repeat split; (tauto || discriminate)).
  destruct (create_chat_invite_link env (S k) chat) as [url|kind text]; mrun;
    [|repeat split; (tauto || discriminate)].
  unfold user_data_item.
  destruct (channel_name (ses (id u))) as [cname|]; mrun;
    [|repeat split; (tauto || discriminate)].
  destruct (channel_price (ses (id u))) as [price|]; mrun;
    [|repeat split; (tauto || discriminate)].
  destruct (channel_demo (ses (id u))) as [demo|]; mrun;
    [|repeat split; (tauto || discriminate)].
  unfold datetime_now, execute_insert_channel, insert_channel. mrun.
  destruct (existsb _ (channels s)) eqn:Hex; mrun.
  - repeat split; try tauto; try exact Hother.
    intros _. apply update_session_same.
  - repeat split; try exact Hother.
    + right. eexists. split; [exact Hex|reflexivity].
    + intros _. apply update_session_same.
Qed.

(** X14: when [add_channel_forward] ends the dialogue, with the channel
    created or with the key collision reported, the whole session of the
    admin is cleared: the collected fields and also a plan the admin was
    awaiting payment proof for.  The sessions of other users are never
    touched. *)
Theorem ending_the_dialogue_clears_the_session :
  forall (env : Env) (u : User) (m : Message) (w : World),
    let w' := exec (add_channel_forward env u m) w in
    (forall v, v <> id u -> sessions w' v = sessions w v)
    /\ (result (add_channel_forward env u m) w = Val END ->
        sessions w' (id u) = user_data_clear
        /\ awaiting_payment (sessions w' (id u)) = None).
Proof.
  intros env u m w w'. subst w'.
  destruct (add_channel_forward_cases env u m w) as [_ [_ [_ [_ [Hother Hend]]]]].
  split; [exact Hother|].
  intros Hres. rewrite (Hend Hres). split; reflexivity.
Qed.

Lemma ending_the_dialogue_clears_the_session_witness :
  awaiting_payment
    (sessions (exec (button_callback env_ok admin "purchase_vip_content") vip_start) 1)
  = Some "vip_content"
  /\ sessions
       (exec (add_channel_forward env_ok admin (forward_message (-1003)))
          (exec (conversation env_ok CHANNEL_NAME admin
                   [text_message "Gold"; text_message "5"; text_message "skip"])
             (exec (button_callback env_ok admin "purchase_vip_content") vip_start))) 1
     = user_data_clear.
Proof.
  split; [vm_compute; reflexivity|].
  apply (ending_the_dialogue_clears_the_session env_ok admin (forward_message (-1003))
           (exec (conversation env_ok CHANNEL_NAME admin
                    [text_message "Gold"; text_message "5"; text_message "skip"])
              (exec (button_callback env_ok admin "purchase_vip_content") vip_start))).
  vm_compute. reflexivity.
Defined.

Lemma unique_keys_after_insert (rows : list Channel.row) (r : Channel.row) :
  NoDup (map Channel.channel_key rows) ->
  existsb (fun c => String.eqb (Channel.channel_key c) (Channel.channel_key r)) rows
  = false ->
  NoDup (map Channel.channel_key (rows ++ [r])).
Proof.
  intros Hnd Hex. rewrite map_app. cbn [map].
  apply NoDup_app; [exact Hnd|now repeat constructor|].
  intros key Hin [Hkey|[]]. subst key.
  apply in_map_iff in Hin. destruct Hin as [c [Hc Hin]].
  assert (Htrue : existsb
                    (fun c => String.eqb (Channel.channel_key c) (Channel.channel_key r))
                    rows = true).
  { apply existsb_exists. exists c. split; [exact Hin|]. now apply String.eqb_eq. }
  congruence.
Qed.

(** One step of the dialogue keeps the keys unique and the payments,
    subscriptions and server plans untouched. *)
Lemma conversation_step_keeps_store (env : Env) (st : ConvState) (u : User)
    (m : Message) (w : World) :
  let w' := exec (conversation_step env st u m) w in
  (unique_keys (store w) -> unique_keys (store w'))
  /\ subscriptions (store w') = subscriptions (store w)
  /\ pending_payments (store w') = pending_payments (store w)
  /\ server_plans (store w') = server_plans (store w).
Proof.
  assert (Hfallback :
            let w' := exec (conversation_fallback st u m) w in
            (unique_keys (store w) -> unique_keys (store w'))
            /\ subscriptions (store w') = subscriptions (store w)
            /\ pending_payments (store w') = pending_payments (store w)
            /\ server_plans (store w') = server_plans (store w)).
  { destruct w. unfold conversation_fallback, cancel_add_channel, exec.
    destruct (is_command "cancel" m); mrun; tauto. }
  destruct st; cbn [conversation_step].
  - destruct (filters_TEXT m && negb (filters_COMMAND m)); [|exact Hfallback].
    destruct w. unfold add_channel_name, exec. mrun. tauto.
  - destruct (filters_TEXT m && negb (filters_COMMAND m)); [|exact Hfallback].
    destruct w. unfold add_channel_price, py_float, exec.
    destruct (PyNum.parse_float _); mrun; tauto.
  - destruct (filters_TEXT m && negb (filters_COMMAND m)); [|exact Hfallback].
    destruct w. unfold add_channel_demo, exec. mrun. tauto.
  - destruct (negb (filters_COMMAND m)); [|exact Hfallback].
    destruct (add_channel_forward_cases env u m w)
      as [Hsub [Hpp [Hsp [[Hch|[r [Hex Hch]]] _]]]]; cbv zeta;
      (split; [|tauto]); unfold unique_keys; rewrite Hch; [tauto|].
    intros Hnd. now apply unique_keys_after_insert.
  - destruct w. unfold exec. mrun. tauto.
Qed.

(** X15: the onboarding dialogue keeps the UNIQUE constraint of
    [channels.channel_key], whatever messages it is fed from whatever state
    and whatever the Bot API answers, and it never touches a subscription, a
    PendingPayment or a server plan. *)
Theorem conversation_keeps_keys_unique :
  forall (env : Env) (u : User) (ms : list Message) (st : ConvState) (w : World),
    unique_keys (store w) ->
    let w' := exec (conversation env st u ms) w in
    unique_keys (store w')
    /\ subscriptions (store w') = subscriptions (store w)
    /\ pending_payments (store w') = pending_payments (store w)
    /\ server_plans (store w') = server_plans (store w).
Proof.
  intros env u ms. induction ms as [|m ms IH]; intros st w Hu.
  - destruct w. cbn. tauto.
  - cbn [conversation]. cbv zeta. unfold exec, bind.
    pose proof (conversation_step_keeps_store env st u m w) as Hstep.
    cbv zeta in Hstep. unfold exec in Hstep.
    destruct (conversation_step env st u m w) as [[st'|e] w1]; cbn [snd] in *.
    + destruct Hstep as [Hu1 [Hs1 [Hp1 Hsp1]]].
      specialize (IH st' w1 (Hu1 Hu)). cbv zeta in IH. unfold exec in IH.
      destruct IH as [Hu2 [Hs2 [Hp2 Hsp2]]].
      repeat split; [exact Hu2|congruence|congruence|congruence].
    + destruct Hstep as [Hu1 [Hs1 [Hp1 Hsp1]]]. repeat split; auto.
Qed.

Lemma conversation_keeps_keys_unique_witness :
  unique_keys (store vip_world).
Proof.
  apply (conversation_keeps_keys_unique env_ok admin
           [text_message "VIP Content"; text_message "200"; text_message "skip";
            forward_message (-1001)]
           CHANNEL_NAME (initial_world (setup_database 0))).
  unfold unique_keys. vm_compute. constructor.
Defined.

(** ** Commands during the dialogue *)

(** X30: a command never reaches the handlers of the dialogue, so the text
    of a command is never taken as a name, a price or a demo link.  From
    every state [/cancel] ends the dialogue: the session of the sender is
    cleared, the cancellation is confirmed and no channel is created.  Any
    other command is not for the dialogue, which keeps its state and does
    nothing. *)
Theorem command_never_reaches_the_dialogue_handlers :
  forall (env : Env) (st : ConvState) (u : User) (m : Message) (w : World),
    filters_COMMAND m = true ->
    st <> END ->
    conversation_step env st u m w
    = if is_command "cancel" m
      then (Val END,
            mkWorld (store w) (update_session (sessions w) (id u) user_data_clear)
              (tick w) (events w ++ [Reply MsgCancelled]))
      else (Val st, w).
Proof.
  intros env st u m w Hcmd Hst.
  assert (Hstep : conversation_step env st u m = conversation_fallback st u m).
  { destruct st; cbn [conversation_step]; rewrite ?Hcmd, ?andb_false_r;
      cbn [negb]; (reflexivity || congruence). }
  rewrite Hstep. unfold conversation_fallback, cancel_add_channel.
  destruct w as [s ses k evs].
  destruct (is_command "cancel" m); mrun; reflexivity.
Qed.

Lemma command_never_reaches_the_dialogue_handlers_witness :
  conversation_step env_ok CHANNEL_PRICE admin (command_message "cancel") checkout_world
  = (Val END,
     mkWorld (store checkout_world)
       (update_session (sessions checkout_world) (id admin) user_data_clear)
       (tick checkout_world) (events checkout_world ++ [Reply MsgCancelled])).
Proof.
  apply (command_never_reaches_the_dialogue_handlers env_ok CHANNEL_PRICE admin
           (command_message "cancel") checkout_world).
  - reflexivity.
  - discriminate.
Defined.

(** ** Channel keys *)

Lemma map_chars_compose (f g : ascii -> ascii) (s : string) :
  PyStr.map_chars g (PyStr.map_chars f s) = PyStr.map_chars (fun c => g (f c)) s.
Proof. induction s as [|c s IH]; cbn [PyStr.map_chars]; congruence. Qed.

Lemma channel_key_by_char (n : string) :
  channel_key_of n = PyStr.map_chars key_char n.
Proof.
  unfold channel_key_of, PyStr.replace, PyStr.lower.
  rewrite !map_chars_compose. reflexivity.
Qed.

Lemma key_char_is_normal (c : ascii) :
  Ascii.eqb (key_char c) " " = false
  /\ Ascii.eqb (key_char c) "-" = false
  /\ PyStr.lower_char (key_char c) = key_char c
  /\ key_char (key_char c) = key_char c.
Proof.
  destruct c as [[] [] [] [] [] [] [] []]; vm_compute; repeat split.
Qed.

(** X16: the key derived from a channel name has no space, no hyphen and
    no uppercase ASCII letter, and deriving a key from a key gives the key
    back. *)
Theorem channel_key_is_normal :
  forall (channel_name : string),
    let key := channel_key_of channel_name in
    PyStr.contains " " key = false
    /\ PyStr.contains "-" key = false
    /\ PyStr.lower key = key
    /\ channel_key_of key = key.
Proof.
  intros n. cbv zeta. rewrite !channel_key_by_char. unfold PyStr.lower.
  induction n as [|c n [IH1 [IH2 [IH3 IH4]]]];
    cbn [PyStr.map_chars PyStr.contains]; [repeat split|].
  destruct (key_char_is_normal c) as [Hs [Hh [Hl Hk]]].
  rewrite Hs, Hh, Hl, Hk, IH1, IH2, IH3, IH4. repeat split.
Qed.

(** * Configuration, start-up and the listings *)

(** ** [ADMIN_IDS] *)

Lemma digit_is_no_blank_or_sign (c : ascii) :
  PyNum.is_digit c = true ->
  PyNum.is_blank c = false /\ Ascii.eqb c "-" = false /\ Ascii.eqb c "+" = false.
Proof.
  destruct c as [[] [] [] [] [] [] [] []]; vm_compute; intros H;
    first [discriminate H | repeat split].
Qed.

Lemma digits_more_of_digits (r : string) :
  forall (acc : N) (cnt : nat),
    all_digits r = true ->
    PyNum.digits_more acc cnt r
    = (decimal_value acc r, (cnt + String.length r)%nat, EmptyString).
Proof.
  induction r as [|c r IH]; intros acc cnt Hd;
    cbn [PyNum.digits_more decimal_value String.length].
  - now rewrite Nat.add_0_r.
  - cbn [all_digits] in Hd. apply andb_true_iff in Hd. destruct Hd as [Hc Hr].
    rewrite Hc, (IH _ _ Hr). now rewrite Nat.add_succ_r.
Qed.

Lemma digits_end_without_blank (s : string) :
  all_digits s = true -> PyNum.drop_blanks_at_end s = s.
Proof.
  induction s as [|c r IH]; cbn [all_digits PyNum.drop_blanks_at_end]; intros Hd;
    [reflexivity|].
  apply andb_true_iff in Hd. destruct Hd as [Hc Hr].
  rewrite (IH Hr). destruct (digit_is_no_blank_or_sign c Hc) as [Hs _].
  destruct r; [now rewrite Hs|reflexivity].
Qed.

(** [int()] accepts every text [isdigit()] accepts, and gives the number
    its digits denote. *)
Lemma parse_int_of_digits (s : string) :
  isdigit s = true -> PyNum.parse_int s = Some (Z.of_N (decimal_value 0 s)).
Proof.
  destruct s as [|c r]; [discriminate|]. intros Hd.
  assert (Hall : all_digits (String c r) = true) by exact Hd.
  cbn [all_digits] in Hd. apply andb_true_iff in Hd. destruct Hd as [Hc Hr].
  destruct (digit_is_no_blank_or_sign c Hc) as [Hs [Hm Hp]].
  unfold PyNum.parse_int, PyNum.unblank.
  cbn [PyNum.skip_blanks]. rewrite Hs, (digits_end_without_blank _ Hall).
  unfold PyNum.parse_sign. rewrite Hm, Hp.
  unfold PyNum.digitpart. rewrite Hc, (digits_more_of_digits r _ _ Hr).
  reflexivity.
Qed.

(** X17: on ASCII text within the digit limit of [int], computing
    [ADMIN_IDS] does not raise: the comma-separated entries that are decimal
    digits only (after stripping blanks) give their numbers, in order, and
    every other entry (empty, signed, with a letter or an inner blank) is
    dropped silently.  No admin id is negative. *)
Theorem parse_ADMIN_IDS_drops_what_is_not_digits :
  forall (ADMIN_IDS_STR : string),
    is_ascii_text ADMIN_IDS_STR = true ->
    (String.length ADMIN_IDS_STR <= INT_MAX_STR_DIGITS)%nat ->
    parse_ADMIN_IDS ADMIN_IDS_STR
    = Some (map (fun p => Z.of_N (decimal_value 0 (PyStr.strip p)))
              (filter (fun p => isdigit (PyStr.strip p))
                 (PyStr.split "," ADMIN_IDS_STR)))
    /\ forall ids, parse_ADMIN_IDS ADMIN_IDS_STR = Some ids ->
                   Forall (fun z => 0 <= z) ids.
Proof.
  intros s _ _.
  assert (Heq : forall parts,
             admin_ids_of parts
             = Some (map (fun p => Z.of_N (decimal_value 0 (PyStr.strip p)))
                       (filter (fun p => isdigit (PyStr.strip p)) parts))).
  { induction parts as [|p parts IH]; cbn [admin_ids_of filter map]; [reflexivity|].
    destruct (isdigit (PyStr.strip p)) eqn:Hd; [|exact IH].
    rewrite (parse_int_of_digits _ Hd), IH. reflexivity. }
  unfold parse_ADMIN_IDS. split; [apply Heq|].
  intros ids Hids. rewrite Heq in Hids. injection Hids as <-.
  apply Forall_forall. intros z Hz. apply in_map_iff in Hz.
  destruct Hz as [p [<- _]]. apply N2Z.is_nonneg.
Qed.

Lemma parse_ADMIN_IDS_drops_what_is_not_digits_witness :
  parse_ADMIN_IDS "123456789, 42 ,-7,4x2,,0017" = Some [123456789; 42; 17].
Proof.
  destruct (parse_ADMIN_IDS_drops_what_is_not_digits "123456789, 42 ,-7,4x2,,0017")
    as [H _].
  - vm_compute. reflexivity.
  - apply Nat.leb_le. vm_compute. reflexivity.
  - rewrite H. vm_compute. reflexivity.
Defined.

(** ** Start-up *)

(** X18: every further start of the bot appends one more default server
    plan to [server_plans] and touches nothing else.  The plan the handlers
    use, the first active one, stays the one it was; only when no plan was
    active does the first new default row become the plan. *)
Theorem restart_appends_default_plan :
  forall (ts : list datetime) (s : Store),
    let s' := fold_left (fun s t => setup_database_again t s) ts s in
    server_plans s'
    = (server_plans s
       ++ map (fun t => ServerPlan.mk "Server Premium" (PyNum.FNum false 599 0)
                          "[]" true t) ts)%list
    /\ channels s' = channels s
    /\ subscriptions s' = subscriptions s
    /\ pending_payments s' = pending_payments s
    /\ select_active_server_plan s'
       = match select_active_server_plan s with
         | Some sp => Some sp
         | None =>
             match ts with
             | [] => None
             | t :: _ =>
                 Some (ServerPlan.mk "Server Premium" (PyNum.FNum false 599 0)
                         "[]" true t)
             end
         end.
Proof.
  intros ts s s'.
  assert (Hplans : server_plans s'
                   = (server_plans s
                      ++ map (fun t => ServerPlan.mk "Server Premium"
                                         (PyNum.FNum false 599 0) "[]" true t) ts)%list
                   /\ channels s' = channels s
                   /\ subscriptions s' = subscriptions s
                   /\ pending_payments s' = pending_payments s).
  { subst s'. revert s. induction ts as [|t ts IH]; intros s; cbn [fold_left map].
    - now rewrite app_nil_r.
    - destruct (IH (setup_database_again t s)) as [H1 [H2 [H3 H4]]].
      rewrite H1, H2, H3, H4. unfold setup_database_again.
      cbn [server_plans channels subscriptions pending_payments].
      now rewrite <- app_assoc. }
  destruct Hplans as [H1 [H2 [H3 H4]]]. repeat split; try assumption.
  unfold select_active_server_plan. rewrite H1.
  clear. generalize (server_plans s) as l.
  induction l as [|sp l IH]; cbn [app find].
  - destruct ts; reflexivity.
  - destruct (ServerPlan.is_active sp); [reflexivity|exact IH].
Qed.

Lemma users_key_after_replace (r : UserRow.row) (users : list UserRow.row) :
  NoDup (map UserRow.user_id users) ->
  NoDup (map UserRow.user_id (insert_or_replace_user r users)).
Proof.
  intros Hnd. unfold insert_or_replace_user. rewrite map_app. cbn [map].
  apply NoDup_app.
  - induction users as [|x users IH]; cbn [filter map]; [constructor|].
    cbn [map] in Hnd. apply NoDup_cons_iff in Hnd. destruct Hnd as [Hx Hrest].
    destruct (negb _); [|exact (IH Hrest)].
    cbn [map]. apply NoDup_cons; [|exact (IH Hrest)].
    contradict Hx. apply in_map_iff in Hx. destruct Hx as [y [Hy Hin]].
    apply in_map_iff. exists y. split; [exact Hy|].
    apply filter_In in Hin. apply Hin.
  - repeat constructor. intros [].
  - intros k Hin [<-|[]].
    apply in_map_iff in Hin. destruct Hin as [y [Hy Hin]].
    apply filter_In in Hin. destruct Hin as [_ Hne].
    rewrite Hy, Z.eqb_refl in Hne. discriminate.
Qed.

Lemma find_user_after_replace (r : UserRow.row) (users : list UserRow.row) (v : Z) :
  find (fun x => Z.eqb (UserRow.user_id x) v) (insert_or_replace_user r users)
  = if Z.eqb (UserRow.user_id r) v then Some r
    else find (fun x => Z.eqb (UserRow.user_id x) v) users.
Proof.
  unfold insert_or_replace_user.
  induction users as [|x users IH]; cbn [filter app find].
  - destruct (Z.eqb (UserRow.user_id r) v); reflexivity.
  - destruct (Z.eqb_spec (UserRow.user_id x) (UserRow.user_id r)) as [Hxr|Hxr];
      cbn [negb app find].
    + rewrite IH, Hxr. destruct (Z.eqb (UserRow.user_id r) v); reflexivity.
    + destruct (Z.eqb_spec (UserRow.user_id x) v) as [Hxv|Hxv]; [|exact IH].
      destruct (Z.eqb_spec (UserRow.user_id r) v); [congruence|reflexivity].
Qed.

(** X19: [/start] leaves exactly one [users] row for the sender, with the
    current username and first name and with the time of this call as join
    date, so an earlier join date is overwritten; the rows of all other
    users, the primary key and the store are as before.  Administrators are
    welcomed with the admin keyboard, everybody else with the main one. *)
Theorem start_replaces_the_user_row :
  forall (env : Env) (u : User) (users : list UserRow.row) (w : World),
    NoDup (map UserRow.user_id users) ->
    exists users',
      start env u users w
      = (Val (users',
              if is_admin env (id u) then WelcomeAdmin (first_name u)
              else WelcomeUser (first_name u)),
         mkWorld (store w) (sessions w) (S (tick w)) (events w))
      /\ NoDup (map UserRow.user_id users')
      /\ find (fun x => Z.eqb (UserRow.user_id x) (id u)) users'
         = Some (UserRow.mk (id u) (username u) (first_name u) (now env (tick w)) true)
      /\ forall v, v <> id u ->
           find (fun x => Z.eqb (UserRow.user_id x) v) users'
           = find (fun x => Z.eqb (UserRow.user_id x) v) users.
Proof.
  intros env u users w Hnd.
  exists (insert_or_replace_user
            (UserRow.mk (id u) (username u) (first_name u) (now env (tick w)) true)
            users).
  split; [destruct w; unfold start, datetime_now; mrun; reflexivity|].
  split; [now apply users_key_after_replace|].
  split.
  - rewrite find_user_after_replace. cbn [UserRow.user_id]. now rewrite Z.eqb_refl.
  - intros v Hv. rewrite find_user_after_replace. cbn [UserRow.user_id].
    destruct (Z.eqb_spec (id u) v); [congruence|reflexivity].
Qed.

Lemma start_replaces_the_user_row_witness :
  exists users',
    fst (start env_ok buyer [UserRow.mk 42 None "Bob" 5 true] vip_start)
    = Val (users', WelcomeUser "Bo")
    /\ find (fun x => Z.eqb (UserRow.user_id x) 42) users'
       = Some (UserRow.mk 42 (Some "bo") "Bo" 1000 true).
Proof.
  destruct (start_replaces_the_user_row env_ok buyer [UserRow.mk 42 None "Bob" 5 true]
              vip_start) as [users' [Hrun [_ [Hfind _]]]].
  - cbn. repeat constructor. intros [].
  - exists users'. rewrite Hrun. split; [reflexivity|exact Hfind].
Defined.

(** ** The listings of channels *)

(** X20: [/managechannels] answers an administrator with one entry per
    active channel, in creation order, giving its name, price, chat id, key,
    demo link (when it has one) and invite link, or with the notice that no
    channel exists; anybody else is refused.  It changes nothing. *)
Theorem manage_channels_lists_active_channels :
  forall (env : Env) (u : User) (w : World),
    unique_keys (store w) ->
    manage_channels env u w
    = (Val (if is_admin env (id u) then
              match select_active_channels (store w) with
              | [] => ManageNoChannels
              | rows =>
                  ManageList
                    (map (fun c => manage_entry (Channel.channel_key c, info_of c)) rows)
              end
            else ManageNotAuthorized),
       w).
Proof.
  intros env u w Hu. unfold manage_channels.
  destruct (is_admin env (id u)); cbn [negb]; [|reflexivity].
  rewrite (bind_val _ _ _ _ _ (get_channels_run w)).
  rewrite (channels_dict_unique _ Hu).
  destruct (select_active_channels (store w)) as [|c rows]; cbn [map];
    [reflexivity|].
  rewrite map_map. reflexivity.
Qed.

Lemma manage_channels_lists_active_channels_witness :
  manage_channels env_ok admin vip_start
  = (Val (ManageList
            [mkManageEntry "VIP Content" (PyNum.FNum false 200 0) (-1001) "vip_content"
               None "https://t.me/+invite"]),
     vip_start).
Proof.
  rewrite (manage_channels_lists_active_channels env_ok admin vip_start).
  - vm_compute. reflexivity.
  - unfold unique_keys. vm_compute. constructor; [intros []|constructor].
Defined.

(** The row a complete onboarding run inserts: the demo link is empty when
    the admin answered [skip], in any case and with blanks around it. *)
Lemma onboarding_inserts_row (env : Env) (u : User)
    (name_text price_text demo_text : string) (price : PyNum.pyfloat) (chat : Z)
    (url : string) (w : World) :
  is_admin env (id u) = true ->
  PyStr.truthy name_text = true ->
  PyStr.truthy demo_text = true ->
  PyNum.parse_float (PyStr.strip price_text) = Some price ->
  (forall k, get_chat_member env k chat (bot_id env) = Returned ADMINISTRATOR) ->
  (forall k, create_chat_invite_link env k chat = Returned url) ->
  existsb (fun c => String.eqb (Channel.channel_key c)
                      (channel_key_of (PyStr.strip name_text)))
    (channels (store w)) = false ->
  store (exec (onboarding env u name_text price_text demo_text chat) w)
  = mkStore
      (channels (store w)
       ++ [Channel.mk (channel_key_of (PyStr.strip name_text)) (PyStr.strip name_text)
             chat price
             (if String.eqb (PyStr.lower (PyStr.strip demo_text)) "skip"
              then EmptyString else PyStr.strip demo_text)
             url true (now env (S (S (tick w)))) (id u)])
      (subscriptions (store w)) (pending_payments (store w)) (server_plans (store w)).
Proof.
  intros Hadmin Hname Hdemo Hprice Hstatus Hlink Hfresh.
  assert (Hptext : PyStr.truthy price_text = true).
  { destruct price_text; [vm_compute in Hprice; discriminate|reflexivity]. }
  destruct w as [s ses k evs]. cbn [store tick] in *.
  unfold onboarding, add_channel_start, exec. rewrite Hadmin. cbn [negb].
  mrun. dispatch_text Hname.
  unfold add_channel_name. cbn [text text_message]. mrun.
  dispatch_text Hptext.
  unfold add_channel_price, py_float. cbn [text text_message].
  rewrite Hprice. mrun.
  dispatch_text Hdemo.
  unfold add_channel_demo. cbn [text text_message]. mrun.
  cbn [conversation conversation_step].
  unfold filters_COMMAND. cbn [bot_command forward_message negb].
  unfold add_channel_forward. cbn [forward_from_chat forward_message].
  unfold bot_get_chat_member, bot_create_chat_invite_link, call_api.
  mrun. rewrite Hstatus. mrun. rewrite Hlink. mrun.
  rewrite !update_session_same. cbn [channel_name channel_price channel_demo].
  unfold user_data_item. mrun.
  unfold datetime_now, execute_insert_channel, insert_channel. mrun.
  cbn [Channel.channel_key]. rewrite Hfresh. mrun. reflexivity.
Qed.

Lemma demo_links_run (w : World) :
  demo_links w
  = (Val (map (fun kv : string * ChannelInfo =>
                 (name (snd kv), info_demo_link (snd kv)))
            (filter (fun kv : string * ChannelInfo =>
                       PyStr.truthy (info_demo_link (snd kv)))
               (channels_dict (store w)))), w).
Proof. reflexivity. Qed.

(** X21: [/demo] after an onboarding whose name and demo text the
    dialogue takes (ASCII, not empty, no command).  A channel registered
    with a demo text other than [skip] is added at the end of the demo
    links, under its name and with the stripped text as link; a channel
    registered with [skip], in any case and with blanks around it, gets no
    demo line, and the demo links stay as they were. *)
Theorem onboarded_channel_in_demo_links :
  forall (env : Env) (u : User) (name_text price_text demo_text : string)
         (price : PyNum.pyfloat) (chat : Z) (url : string) (w : World),
    unique_keys (store w) ->
    is_admin env (id u) = true ->
    answer_text name_text = true ->
    is_ascii_text name_text = true ->
    answer_text demo_text = true ->
    is_ascii_text demo_text = true ->
    PyNum.parse_float (PyStr.strip price_text) = Some price ->
    (forall k, get_chat_member env k chat (bot_id env) = Returned ADMINISTRATOR) ->
    (forall k, create_chat_invite_link env k chat = Returned url) ->
    existsb (fun c => String.eqb (Channel.channel_key c)
                        (channel_key_of (PyStr.strip name_text)))
      (channels (store w)) = false ->
    let w' := exec (onboarding env u name_text price_text demo_text chat) w in
    value_or [] (result demo_links w')
    = (value_or [] (result demo_links w)
       ++ if String.eqb (PyStr.lower (PyStr.strip demo_text)) "skip"
             || negb (PyStr.truthy (PyStr.strip demo_text))
          then []
          else [(PyStr.strip name_text, PyStr.strip demo_text)])%list.
Proof.
  intros env u name_text price_text demo_text price chat url w
    Hu Hadmin Hname _ Hdemo _ Hprice Hstatus Hlink Hfresh w'.
  apply answer_text_is_text in Hname, Hdemo.
  pose proof (onboarding_inserts_row env u name_text price_text demo_text price
                chat url w Hadmin Hname Hdemo Hprice Hstatus Hlink Hfresh) as Hstore.
  fold w' in Hstore.
  assert (Hu' : unique_keys (store w')).
  { unfold unique_keys. rewrite Hstore. cbn [channels].
    apply unique_keys_after_insert; [exact Hu|exact Hfresh]. }
  unfold result. rewrite !demo_links_run. cbn [fst value_or].
  rewrite (channels_dict_unique _ Hu), (channels_dict_unique _ Hu').
  unfold select_active_channels. rewrite Hstore. cbn [channels].
  rewrite filter_app. cbn [filter Channel.is_active].
  rewrite map_app, filter_app, map_app. f_equal.
  cbn [map filter snd info_of info_demo_link name Channel.channel_name
       Channel.demo_link].
  destruct (String.eqb (PyStr.lower (PyStr.strip demo_text)) "skip");
    cbn [orb PyStr.truthy]; [reflexivity|].
  destruct (PyStr.truthy (PyStr.strip demo_text)); reflexivity.
Qed.

Lemma onboarded_channel_in_demo_links_witness :
  value_or [] (result demo_links
                 (exec (onboarding env_ok admin "Gold" "5" "https://t.me/golddemo" (-1003))
                    vip_start))
  = [("Gold", "https://t.me/golddemo")].
Proof.
  apply (onboarded_channel_in_demo_links env_ok admin "Gold" "5"
           "https://t.me/golddemo" (PyNum.FNum false 5 0) (-1003)
           "https://t.me/+invite" vip_start).
  - unfold unique_keys. vm_compute. constructor; [intros []|constructor].
  - reflexivity.
  - reflexivity.
  - reflexivity.
  - reflexivity.
  - reflexivity.
  - vm_compute. reflexivity.
  - intros. reflexivity.
  - intros. reflexivity.
  - vm_compute. reflexivity.
Defined.

(** ** The list of pending payments *)

Lemma insert_desc_perm {A} (key : A -> Z) (x : A) (l : list A) :
  Permutation (insert_desc key x l) (x :: l).
Proof.
  induction l as [|y l IH]; cbn [insert_desc]; [reflexivity|].
  destruct (Z.ltb (key y) (key x)); [reflexivity|].
  rewrite IH. apply perm_swap.
Qed.

Lemma order_by_desc_perm {A} (key : A -> Z) (l : list A) :
  Permutation (order_by_desc key l) l.
Proof.
  unfold order_by_desc.
  assert (H : forall acc,
             Permutation (fold_left (fun acc x => insert_desc key x acc) l acc)
               (acc ++ l)).
  { induction l as [|x l IH]; intros acc; cbn [fold_left].
    - now rewrite app_nil_r.
    - rewrite IH, insert_desc_perm. apply Permutation_middle. }
  apply H.
Qed.

Lemma insert_desc_sorted {A} (key : A -> Z) (x : A) (l : list A) :
  StronglySorted (fun a b => key b <= key a) l ->
  StronglySorted (fun a b => key b <= key a) (insert_desc key x l).
Proof.
  induction l as [|y l IH]; cbn [insert_desc]; intros Hs.
  - repeat constructor.
  - apply StronglySorted_inv in Hs. destruct Hs as [Hl Hy].
    destruct (Z.ltb_spec (key y) (key x)) as [Hlt|Hge].
    + constructor; [now constructor|].
      constructor; [lia|]. eapply Forall_impl; [|exact Hy]. cbn. intros; lia.
    + constructor; [now apply IH|].
      apply (Permutation_Forall (Permutation_sym (insert_desc_perm key x l))).
      constructor; [exact Hge|exact Hy].
Qed.

Lemma order_by_desc_sorted {A} (key : A -> Z) (l : list A) :
  StronglySorted (fun a b => key b <= key a) (order_by_desc key l).
Proof.
  unfold order_by_desc.
  assert (H : forall acc,
             StronglySorted (fun a b => key b <= key a) acc ->
             StronglySorted (fun a b => key b <= key a)
               (fold_left (fun acc x => insert_desc key x acc) l acc)).
  { induction l as [|x l IH]; intros acc Hacc; cbn [fold_left]; [exact Hacc|].
    apply IH. now apply insert_desc_sorted. }
  apply H. constructor.
Qed.

Lemma pending_command_run (env : Env) (u : User) (users : list UserRow.row)
    (w : World) :
  pending_payments_command env u users w
  = (Val (if is_admin env (id u) then
            match select_submitted_payments (store w) with
            | [] => NoPendingPayments
            | rows => PendingList (map (pending_entry users (channels_dict (store w))) rows)
            end
          else PendingNotAuthorized),
     w).
Proof.
  unfold pending_payments_command.
  destruct (is_admin env (id u)); cbn [negb]; [|reflexivity].
  unfold bind, get_store.
  destruct (select_submitted_payments (store w)); reflexivity.
Qed.

Lemma listed_payments_of_rows (env : Env) (u : User) (users : list UserRow.row)
    (w : World) :
  is_admin env (id u) = true ->
  listed_payments (value_or NoPendingPayments
                     (result (pending_payments_command env u users) w))
  = map (fun p => (PendingPayment.user_id p, PendingPayment.channel_key p))
      (select_submitted_payments (store w)).
Proof.
  intros Hadmin. unfold result. rewrite pending_command_run, Hadmin.
  cbn [fst value_or].
  destruct (select_submitted_payments (store w)) as [|p rows]; [reflexivity|].
  cbn [listed_payments]. rewrite map_map. reflexivity.
Qed.

(** X22: [/pending] shows an administrator every PendingPayment in status
    [submitted] exactly once, and no other payment, newest first, each with
    the user id and the plan key that [/approve] and [/reject] take; it
    changes nothing.  Anybody else is refused.  The rows shown are the
    submitted rows of the store, rearranged so that no row comes before a
    newer one, and the entries follow these rows in this order. *)
Theorem pending_list_shows_the_submitted_payments :
  forall (env : Env) (u : User) (users : list UserRow.row) (w : World),
    exists reply,
      pending_payments_command env u users w = (Val reply, w)
      /\ (is_admin env (id u) = false -> reply = PendingNotAuthorized)
      /\ (is_admin env (id u) = true ->
          Permutation (listed_payments reply)
            (map (fun p => (PendingPayment.user_id p, PendingPayment.channel_key p))
               (filter (fun p => Status_eqb (PendingPayment.status p) submitted)
                  (pending_payments (store w))))
          /\ exists rows,
               Permutation rows
                 (filter (fun p => Status_eqb (PendingPayment.status p) submitted)
                    (pending_payments (store w)))
               /\ StronglySorted
                    (fun a b => PendingPayment.timestamp b <= PendingPayment.timestamp a)
                    rows
               /\ listed_payments reply
                  = map (fun p => (PendingPayment.user_id p, PendingPayment.channel_key p))
                      rows).
Proof.
  intros env u users w. eexists. split; [apply pending_command_run|].
  split; [intros ->; reflexivity|].
  intros Hadmin. rewrite Hadmin.
  assert (Hlist : listed_payments
                    match select_submitted_payments (store w) with
                    | [] => NoPendingPayments
                    | rows =>
                        PendingList
                          (map (pending_entry users (channels_dict (store w))) rows)
                    end
                  = map (fun p => (PendingPayment.user_id p,
                                   PendingPayment.channel_key p))
                      (select_submitted_payments (store w))).
  { destruct (select_submitted_payments (store w)); [reflexivity|].
    cbn [listed_payments]. rewrite map_map. reflexivity. }
  rewrite Hlist. split.
  - apply Permutation_map. apply order_by_desc_perm.
  - exists (select_submitted_payments (store w)).
    split; [apply order_by_desc_perm|].
    split; [apply order_by_desc_sorted|].
    reflexivity.
Qed.

Lemma decided_payment_is_not_submitted (uid : Z) (key : string) (st : Status)
    (l : list PendingPayment.row) :
  st <> submitted ->
  ~ In (uid, key)
      (map (fun p => (PendingPayment.user_id p, PendingPayment.channel_key p))
         (filter (fun p => Status_eqb (PendingPayment.status p) submitted)
            (update_where (payment_matches uid key submitted) (set_status st) l))).
Proof.
  intros Hst Hin. apply in_map_iff in Hin. destruct Hin as [p [Hp Hin]].
  apply filter_In in Hin. destruct Hin as [Hin Hsub].
  unfold update_where in Hin. apply in_map_iff in Hin.
  destruct Hin as [p0 [Hp0 Hin0]].
  destruct (payment_matches uid key submitted p0) eqn:Hm.
  - subst p. cbn in Hsub. destruct st; (discriminate || congruence).
  - subst p0. injection Hp as Hu Hk.
    unfold payment_matches in Hm. rewrite Hu, Hk, Z.eqb_refl, String.eqb_refl, Hsub in Hm.
    discriminate.
Qed.

Lemma reject_payment_store (env : Env) (u : User) (a0 key : string)
    (rest : list string) (uid : Z) (w : World) :
  is_admin env (id u) = true ->
  PyNum.parse_int a0 = Some uid ->
  store (exec (reject_payment env u (a0 :: key :: rest)) w)
  = update_payment_status rejected uid key (store w).
Proof.
  intros Hadmin Hint. destruct w as [s ses k evs].
  unfold reject_payment, exec. rewrite Hadmin. cbn [negb].
  unfold py_index, py_int. cbn [nth_error List.length Nat.ltb Nat.leb skipn].
  mrun. rewrite Hint.
  unfold bot_send_message, call_api. mrun.
  destruct (send_message env k uid) as [[]|kind msg]; reflexivity.
Qed.

(** X23: once an administrator's [/approve] or [/reject] of a user and a
    plan has been accepted, [/pending] no longer lists a payment of that user
    for that plan, whoever asks for the list. *)
Theorem decided_payment_leaves_the_pending_list :
  forall (env : Env) (u viewer : User) (users : list UserRow.row)
         (a0 key : string) (rest : list string) (uid : Z) (w : World),
    is_admin env (id u) = true ->
    PyNum.parse_int a0 = Some uid ->
    (plan_available key (store w) = true ->
     ~ In (uid, key)
         (listed_payments
            (value_or NoPendingPayments
               (result (pending_payments_command env viewer users)
                  (exec (approve_payment env u (a0 :: key :: rest)) w)))))
    /\ ~ In (uid, key)
         (listed_payments
            (value_or NoPendingPayments
               (result (pending_payments_command env viewer users)
                  (exec (reject_payment env u (a0 :: key :: rest)) w)))).
Proof.
  intros env u viewer users a0 key rest uid w Hadmin Hint.
  assert (Hview : forall w' st,
             st <> submitted ->
             pending_payments (store w')
             = update_where (payment_matches uid key submitted) (set_status st)
                 (pending_payments (store w)) ->
             ~ In (uid, key)
                 (listed_payments
                    (value_or NoPendingPayments
                       (result (pending_payments_command env viewer users) w')))).
  { intros w' st Hst Hpp. unfold result. rewrite pending_command_run.
    cbn [fst value_or].
    destruct (is_admin env (id viewer)); [|intros []].
    intros Hin.
    apply (decided_payment_is_not_submitted uid key st
             (pending_payments (store w)) Hst).
    rewrite <- Hpp.
    eapply Permutation_in;
      [apply Permutation_map; apply (order_by_desc_perm PendingPayment.timestamp)|].
    fold (select_submitted_payments (store w')).
    destruct (select_submitted_payments (store w')) as [|p rows]; [destruct Hin|].
    cbn [listed_payments] in Hin. rewrite map_map in Hin. exact Hin. }
  split.
  - intros Hplan.
    destruct (approve_payment_run env u a0 key rest uid w Hadmin Hint Hplan)
      as [subs' [k' [gevs [ievs [pn [pp [Hrun _]]]]]]].
    apply (Hview _ approved); [discriminate|].
    unfold exec. rewrite Hrun. reflexivity.
  - apply (Hview _ rejected); [discriminate|].
    rewrite (reject_payment_store env u a0 key rest uid w Hadmin Hint). reflexivity.
Qed.

Lemma decided_payment_leaves_the_pending_list_witness :
  ~ In (42, "vip_content")
      (listed_payments
         (value_or NoPendingPayments
            (result (pending_payments_command env_ok admin [])
               (exec (reject_payment env_ok admin ["42"; "vip_content"])
                  submitted_world)))).
Proof.
  apply (decided_payment_leaves_the_pending_list env_ok admin admin []
           "42" "vip_content" [] 42 submitted_world); reflexivity.
Defined.

Lemma accepted_proof_store (env : Env) (u : User) (m : Message) (key file : string)
    (w : World) :
  awaiting_payment (sessions w (id u)) = Some key ->
  String.eqb key "server_premium" || plan_available key (store w) = true ->
  truthy_file_id (proof_file_id m) = Some file ->
  store (exec (handle_payment_proof env u m) w)
  = update_payment_submitted file (id u) key (store w).
Proof.
  intros Hmark Hplan Hfile.
  destruct w as [s ses k evs]. cbn [sessions store] in *.
  unfold handle_payment_proof, exec. mrun. rewrite Hmark.
  unfold plan_available in Hplan.
  destruct (String.eqb key "server_premium").
  - destruct (select_active_server_plan s) as [sp|]; rewrite Hfile;
      unfold datetime_now; mrun;
      match goal with
      | |- context [notify_admins env ?f ?c ?w0] =>
          destruct (notify_admins_run env f c w0) as [k' [evs' Hloop]];
          rewrite Hloop
      end; reflexivity.
  - cbn [orb] in Hplan.
    destruct (available_channel_in_dict key s Hplan) as [info Hinfo].
    unfold get_channels_from_db. mrun. rewrite Hinfo, Hfile.
    unfold datetime_now; mrun.
    match goal with
    | |- context [notify_admins env ?f ?c ?w0] =>
        destruct (notify_admins_run env f c w0) as [k' [evs' Hloop]];
        rewrite Hloop
    end; reflexivity.
Qed.

(** X24: a checkout followed by an accepted proof shows up in [/pending]:
    when the sender has a pending payment for the awaited plan, the
    administrator's list has an entry with the sender's id and the plan key
    after the proof was handled. *)
Theorem submitted_proof_enters_the_pending_list :
  forall (env : Env) (u viewer : User) (users : list UserRow.row) (m : Message)
         (key file : string) (w : World),
    awaiting_payment (sessions w (id u)) = Some key ->
    String.eqb key "server_premium" || plan_available key (store w) = true ->
    truthy_file_id (proof_file_id m) = Some file ->
    (0 < count_payments (id u) key pending (store w))%nat ->
    is_admin env (id viewer) = true ->
    In (id u, key)
      (listed_payments
         (value_or NoPendingPayments
            (result (pending_payments_command env viewer users)
               (exec (handle_payment_proof env u m) w)))).
Proof.
  intros env u viewer users m key file w Hmark Hplan Hfile Hcount Hadmin.
  rewrite (listed_payments_of_rows env viewer users _ Hadmin).
  rewrite (accepted_proof_store env u m key file w Hmark Hplan Hfile).
  unfold count_payments in Hcount.
  destruct (filter (payment_matches (id u) key pending) (pending_payments (store w)))
    as [|p0 rest] eqn:Hf; [cbn in Hcount; lia|].
  assert (Hin0 : In p0 (filter (payment_matches (id u) key pending)
                          (pending_payments (store w))))
    by (rewrite Hf; now left).
  apply filter_In in Hin0. destruct Hin0 as [Hin0 Hm0].
  destruct (payment_matches_fields _ _ _ _ Hm0) as [Hu0 [Hk0 _]].
  eapply Permutation_in;
    [apply Permutation_sym, Permutation_map,
       (order_by_desc_perm PendingPayment.timestamp)|].
  apply in_map_iff. exists (set_proof file p0). split.
  - cbn. now rewrite Hu0, Hk0.
  - apply filter_In. split; [|reflexivity].
    unfold update_payment_submitted, update_where. cbn [pending_payments].
    apply in_map_iff. exists p0. now rewrite Hm0.
Qed.

Lemma submitted_proof_enters_the_pending_list_witness :
  In (42, "vip_content")
    (listed_payments
       (value_or NoPendingPayments
          (result (pending_payments_command env_ok admin [])
             (exec (handle_payment_proof env_ok buyer (photo_message "file1"))
                checkout_world)))).
Proof.
  apply (submitted_proof_enters_the_pending_list env_ok buyer admin []
           (photo_message "file1") "vip_content" "file1" checkout_world);
    vm_compute; reflexivity.
Defined.

(** ** The list of a user's subscriptions *)

(** X25: how [my_subscriptions] shows the time left.  With [left] the time
    from the clock reading to the end date, the entry is green exactly when
    at least four whole days are left and red exactly when less than one day
    is left; the days shown are never negative, and they are zero exactly
    when less than one day is left, whether or not the end date has
    passed. *)
Theorem subscription_status_by_time_left :
  forall (chs : dict ChannelInfo) (t : datetime) (r : Subscription.row),
    let left := Subscription.end_date r - t in
    let e := subscription_entry chs t r in
    (se_status e = Green <-> 4 * ONE_DAY <= left)
    /\ (se_status e = Yellow <-> ONE_DAY <= left < 4 * ONE_DAY)
    /\ (se_status e = Red <-> left < ONE_DAY)
    /\ 0 <= se_days_left e
    /\ (se_days_left e = 0 <-> left < ONE_DAY)
    /\ (ONE_DAY <= left -> se_days_left e = left / ONE_DAY).
Proof.
  intros chs t r left e. subst e. unfold subscription_entry.
  fold left. cbn [se_status se_days_left].
  assert (Hday : 0 < ONE_DAY) by (unfold ONE_DAY; lia).
  set (d := left / ONE_DAY).
  assert (Hlow : ONE_DAY * d <= left) by (apply Z.mul_div_le; exact Hday).
  assert (Hhigh : left < ONE_DAY * (d + 1)).
  { pose proof (Z.mod_pos_bound left ONE_DAY Hday) as Hmod.
    pose proof (Z.div_mod left ONE_DAY) as Hdm. fold d in Hdm. lia. }
  destruct (Z.ltb_spec 3 d) as [H3|H3]; [|destruct (Z.ltb_spec 0 d) as [H0|H0]].
  - repeat split; intros; try discriminate; try lia; try nia.
  - repeat split; intros; try discriminate; try lia; try nia.
  - repeat split; intros; try discriminate; try lia; try nia.
Qed.

Lemma subscription_entries_run (env : Env) (chs : dict ChannelInfo) :
  forall (rows : list Subscription.row) (w : World),
    subscription_entries env chs rows w
    = (Val (map (fun kr => subscription_entry chs (now env (fst kr)) (snd kr))
              (combine (seq (tick w) (List.length rows)) rows)),
       mkWorld (store w) (sessions w) (tick w + List.length rows)%nat (events w)).
Proof.
  induction rows as [|r rows IH]; intros w; destruct w as [s ses k evs];
    cbn [subscription_entries List.length seq combine map].
  - mrun. now rewrite Nat.add_0_r.
  - unfold datetime_now. mrun.
    rewrite (IH (mkWorld s ses (S k) evs)). cbn [store sessions tick events fst snd].
    now rewrite Nat.add_succ_r.
Qed.

Lemma sorted_map_desc {A} (key : A -> Z) (l : list A) :
  StronglySorted (fun a b => key b <= key a) l ->
  StronglySorted (fun a b => b <= a) (map key l).
Proof.
  induction 1 as [|a l Hl IH Ha]; cbn [map]; constructor; [exact IH|].
  apply Forall_map. exact Ha.
Qed.

Lemma entries_expire_as_rows (env : Env) (chs : dict ChannelInfo)
    (rows : list Subscription.row) :
  forall k,
    map se_expires
      (map (fun kr => subscription_entry chs (now env (fst kr)) (snd kr))
         (combine (seq k (List.length rows)) rows))
    = map Subscription.end_date rows.
Proof.
  induction rows as [|r rows IH]; intros k; cbn [List.length seq combine map];
    [reflexivity|].
  now rewrite IH.
Qed.

(** X26: [my_subscriptions] lists every subscription of the caller whose
    [is_active] flag is set, latest end date first, and only those: end
    dates that have passed are listed like the others.  Each entry is
    computed from its row and from a reading of the clock made during the
    call, one reading per entry.  Without such a subscription the caller is
    told so.  The store is not changed. *)
Theorem my_subscriptions_lists_active_rows :
  forall (env : Env) (u : User) (w : World),
    let rows :=
      filter (fun r => Z.eqb (Subscription.user_id r) (id u) && Subscription.is_active r)
        (subscriptions (store w)) in
    exists reply,
      my_subscriptions env u w
      = (Val reply,
         mkWorld (store w) (sessions w) (tick w + List.length rows)%nat (events w))
      /\ match rows with
         | [] => reply = NoActiveSubscriptions
         | _ =>
             exists es,
               reply = SubsList es
               /\ Permutation (map se_expires es) (map Subscription.end_date rows)
               /\ StronglySorted (fun a b => b <= a) (map se_expires es)
               /\ Forall (fun e =>
                            exists k r,
                              (tick w <= k < tick w + List.length rows)%nat
                              /\ In r rows
                              /\ e = subscription_entry (channels_dict (store w))
                                       (now env k) r) es
         end.
Proof.
  intros env u w rows.
  pose proof (order_by_desc_perm Subscription.end_date rows) as Hperm.
  pose proof (order_by_desc_sorted Subscription.end_date rows) as Hsorted.
  unfold my_subscriptions, select_active_subscriptions.
  rewrite (bind_val _ _ _ _ _ (eq_refl : get_store w = (Val (store w), w))).
  fold rows. clearbody rows.
  destruct (order_by_desc Subscription.end_date rows) as [|r0 sorted] eqn:Hsort.
  - apply Permutation_nil in Hperm. subst rows.
    destruct w. exists NoActiveSubscriptions. cbn [List.length].
    rewrite Nat.add_0_r. split; reflexivity.
  - rewrite (bind_val _ _ _ _ _ (get_channels_run w)).
    rewrite (bind_val _ _ _ _ _ (subscription_entries_run env _ (r0 :: sorted) w)).
    rewrite (Permutation_length Hperm).
    eexists. split; [reflexivity|].
    destruct rows as [|r1 rows1] eqn:Hrows.
    { apply Permutation_sym, Permutation_nil in Hperm. discriminate. }
    eexists. split; [reflexivity|].
    rewrite <- (Permutation_length Hperm).
    rewrite entries_expire_as_rows.
    split; [now apply Permutation_map|].
    split; [now apply sorted_map_desc|].
    apply Forall_forall. intros e He. apply in_map_iff in He.
    destruct He as [[k r] [He Hin]]. cbn [fst snd] in He.
    exists k, r. split; [|split; [|now symmetry]].
    + apply in_combine_l in Hin. apply in_seq in Hin. exact Hin.
    + apply in_combine_r in Hin. eapply Permutation_in; [exact Hperm|exact Hin].
Qed.

(** The buyer's list right after the approval of the scenario: the new
    subscription, bought for thirty days, is shown with 29 days left. *)
Example my_subscriptions_after_approval :
  result (my_subscriptions env_ok buyer) approved_world
  = Val (SubsList [mkSubEntry Green "VIP Content" 1004 2592000001003 29]).
Proof. vm_compute. reflexivity. Qed.

(** ** More on the plan buttons and on the approved term *)

(** X27: the keyboard [show_plans] puts under the listing never has a
    channel button.  It is built by [get_plans_keyboard], which calls
    [asyncio.run] inside the running event loop and swallows the
    [RuntimeError]: whatever channels are listed in the text, the buttons
    are the server plan, when it is active, and the way back. *)
Theorem listing_keyboard_has_no_channel_button :
  forall (upd : Update) (w : World) (entries : list PlanEntry) (kb : Keyboard),
    In (Reply (MsgPlans entries kb)) (events (exec (show_plans upd) (with_events w [])))
    \/ In (Edit (MsgPlans entries kb)) (events (exec (show_plans upd) (with_events w []))) ->
    kb = match select_active_server_plan (store w) with
         | Some sp =>
             [[CallbackButton (LabelServer (ServerPlan.plan_name sp) (ServerPlan.price sp))
                 "plan_server_premium"];
              [CallbackButton LabelBackToMainMenu "main_menu"]]
         | None => [[CallbackButton LabelBackToMainMenu "main_menu"]]
         end.
Proof.
  intros upd w entries kb.
  destruct w as [s ses k evs]. unfold with_events. cbn [store sessions tick].
  unfold show_plans, exec.
  rewrite (bind_val _ _ _ _ _ (get_channels_run _)).
  destruct (channels_dict _) as [|kv chs].
  - destruct upd; cbn; intuition discriminate.
  - unfold get_store. unfold bind at 1.
    rewrite (bind_val _ _ _ _ _ (get_plans_keyboard_in_event_loop _)).
    cbn [store].
    destruct upd; mrun; cbn [app In];
      intros [[H|[]]|[H|[]]]; try discriminate H;
      injection H as _ Hkb; rewrite <- Hkb;
      destruct (select_active_server_plan s); reflexivity.
Qed.

Lemma listing_keyboard_has_no_channel_button_witness :
  let entries := [ChannelEntry "VIP Content" (PyNum.FNum false 200 0) None;
                  ServerEntry "Server Premium" (PyNum.FNum false 599 0)] in
  let kb := [[CallbackButton (LabelServer "Server Premium" (PyNum.FNum false 599 0))
                "plan_server_premium"];
             [CallbackButton LabelBackToMainMenu "main_menu"]] in
  In (Reply (MsgPlans entries kb))
    (events (exec (show_plans (MessageUpdate buyer (text_message "/plans")))
               (with_events vip_start [])))
  /\ kb = match select_active_server_plan (store vip_start) with
          | Some sp =>
              [[CallbackButton (LabelServer (ServerPlan.plan_name sp) (ServerPlan.price sp))
                  "plan_server_premium"];
               [CallbackButton LabelBackToMainMenu "main_menu"]]
          | None => [[CallbackButton LabelBackToMainMenu "main_menu"]]
          end.
Proof.
  intros entries kb.
  assert (Hin : In (Reply (MsgPlans entries kb))
                  (events (exec (show_plans (MessageUpdate buyer (text_message "/plans")))
                             (with_events vip_start [])))).
  { vm_compute. left. reflexivity. }
  split; [exact Hin|].
  apply (listing_keyboard_has_no_channel_button
           (MessageUpdate buyer (text_message "/plans")) vip_start entries kb).
  left. exact Hin.
Defined.

(** X28: for every accepted approval of a user id SQLite can bind, the
    term written to the new Subscription is thirty days less the time the
    clock advanced between the two readings [approve_payment] makes; the row
    is active and confirmed.  The term is thirty days exactly when the two
    readings agree. *)
Theorem approved_term_is_thirty_days_less_clock_advance :
  forall (env : Env) (u : User) (a0 key : string) (rest : list string)
         (uid : Z) (w : World) (d : Subscription.row),
    is_admin env (id u) = true ->
    PyNum.parse_int a0 = Some uid ->
    sqlite_int64 uid = true ->
    plan_available key (store w) = true ->
    let r := last (subscriptions (store (exec (approve_payment env u (a0 :: key :: rest)) w))) d in
    Subscription.end_date r - Subscription.start_date r
    = THIRTY_DAYS - (now env (S (tick w)) - now env (tick w))
    /\ Subscription.user_id r = uid
    /\ Subscription.channel_key r = key
    /\ Subscription.is_active r = true
    /\ Subscription.payment_confirmed r = true
    /\ (Subscription.end_date r = Subscription.start_date r + THIRTY_DAYS
        <-> now env (S (tick w)) = now env (tick w)).
Proof.
  intros env u a0 key rest uid w d Hadmin Hint _ Hplan r.
  destruct (approve_payment_run env u a0 key rest uid w Hadmin Hint Hplan)
    as [subs' [k' [gevs [ievs [pn [pp [Hrun [Hsubs _]]]]]]]].
  subst r. unfold exec. rewrite Hrun. cbn [snd store subscriptions].
  destruct (exists_last (l := subs')) as [front [r Hr]].
  { intros ->. apply map_set_invoice_sent_length in Hsubs.
    rewrite length_app in Hsubs. cbn in Hsubs. lia. }
  subst subs'. rewrite last_last.
  rewrite !map_app in Hsubs. cbn [map] in Hsubs.
  apply app_inj_tail in Hsubs. destruct Hsubs as [_ Hlast].
  destruct r as [ru rk rs re ra rc ri].
  unfold set_invoice_sent, approved_subscription in Hlast. cbn in Hlast.
  inversion Hlast; subst.
  cbn [Subscription.end_date Subscription.start_date Subscription.user_id
       Subscription.channel_key Subscription.is_active
       Subscription.payment_confirmed].
  unfold THIRTY_DAYS.
  split; [lia|]. split; [reflexivity|]. split; [reflexivity|].
  split; [reflexivity|]. split; [reflexivity|]. split; lia.
Qed.

Lemma approved_term_is_thirty_days_less_clock_advance_witness :
  let r := last (subscriptions (store approved_world))
             (approved_subscription 0 EmptyString 0 0) in
  Subscription.end_date r - Subscription.start_date r
  = THIRTY_DAYS - (now env_ok (S (tick submitted_world)) - now env_ok (tick submitted_world)).
Proof.
  apply (approved_term_is_thirty_days_less_clock_advance env_ok admin "42"
           "vip_content" [] 42 submitted_world
           (approved_subscription 0 EmptyString 0 0));
    vm_compute; reflexivity.
Defined.

(** X29: the plan callback of a key with an underscore is looked up under
    the part of the key before its first underscore.  Unless that part is
    [server], the buyer is told the plan is no longer available when no
    active channel has that part as its key, whatever channel the button
    was built for. *)
Theorem plan_callback_with_underscore_misses_channel :
  forall (u : User) (a b : string) (w : World),
    PyStr.contains "_" a = false ->
    String.eqb a "server" = false ->
    existsb (fun c => String.eqb (Channel.channel_key c) a)
      (select_active_channels (store w)) = false ->
    plan_selected u ("plan_" ++ a ++ "_" ++ b) w
    = (Val tt, with_events w (events w ++ [Edit MsgPlanUnavailable])).
Proof.
  intros u a b w Hno Hserver Hgone.
  destruct w as [s ses k evs]. cbn [store] in *.
  unfold plan_selected, py_index, with_events.
  rewrite (plan_key_is_cut_at_underscore a b Hno). mrun.
  rewrite Hserver. cbn [andb]. rewrite get_channels_run. mrun.
  rewrite (unavailable_channel_not_in_dict a _ Hgone). reflexivity.
Qed.

Lemma plan_callback_with_underscore_misses_channel_witness :
  plan_selected buyer ("plan_" ++ "vip" ++ "_" ++ "content") vip_start
  = (Val tt, with_events vip_start (events vip_start ++ [Edit MsgPlanUnavailable])).
Proof.
  apply (plan_callback_with_underscore_misses_channel buyer "vip" "content" vip_start);
    vm_compute; reflexivity.
Defined.
